(** * DC2_Repo: the analysis notebooks, embedded and checked against their specification

    The repository is a set of Jupyter notebooks over the DESC DC2 catalogs:

    - [Notebooks/LSST_Stack_matching_code.ipynb], lines 1-533: positional
      matching of a coadd catalog against galaxy truth with the LSST Stack;
    - the same file, lines 534-758: access to the truth catalog;
    - [unnamed/part_000]: galaxy cluster members of protoDC2;
    - [unnamed/part_001], lines 1-466: friends-of-friends matching of the truth
      and coadd catalogs;
    - [unnamed/part_001], lines 467-968: the merged coadd catalogs.

    Part I holds the definitions: the functions and cells of the notebooks
    that compute something ([CoaddCatalogs], [TruthCatalog],
    [TruthCoaddMatching], [StackMatching], [ClusterMembers]), with the functions of external
    libraries they call as section variables; the code cells of all five
    notebooks statement by statement ([Syntax]), what can be read off them
    ([Inventory]), and how a block of statements runs ([Run]). Part II holds
    the lemmas and the theorems.

    Python floats and numpy [float64] values are IEEE binary64 numbers and are
    modelled by Rocq's primitive floats, whose comparisons are the same
    operations; integers are [Z] or [nat]; a Python exception is the [None] of
    an [option]. The notebooks run on Python 3 (their kernel metadata says
    3.6.2), so [/] on two integers is the float quotient. *)

From Stdlib Require Import String List ZArith Floats Lia Bool Arith.
Import ListNotations.

Set Warnings "-inexact-float,-register-all".
Local Open Scope string_scope.

(* ===================================================================== *)
(** * Part I: definitions *)
(* ===================================================================== *)

(** ** Case analysis on two or three binary64 numbers *)
Ltac sf_solve :=
  simpl; try congruence;
  repeat match goal with s : bool |- _ => destruct s end; simpl; try congruence;
  rewrite ?Pos.compare_cont_spec; simpl;
  repeat match goal with
         | |- context [Z.compare ?a ?b] =>
           destruct (Z.compare_spec a b); simpl; try congruence; try lia; subst
         | |- context [Pos.compare ?a ?b] =>
           destruct (Pos.compare_spec a b); simpl; try congruence; try lia; subst
         end.

(** [a <= b] on the numbers behind two floats. *)
Definition SFle (a b : spec_float) : Prop :=
  SFcompare a b = Some Lt \/ SFcompare a b = Some Eq.

(** ** Python and numpy primitives shared by the notebooks *)
Module Py.

(** [x < y] and [x > y] on floats; both are false as soon as one side is NaN. *)
Definition lt (x y : float) : bool := PrimFloat.ltb x y.
Definition gt (x y : float) : bool := PrimFloat.ltb y x.
Definition le (x y : float) : bool := PrimFloat.leb x y.

(** [x != x], the test for NaN. *)
Definition is_nan (x : float) : bool := negb (PrimFloat.eqb x x).

(** The builtin [min]: the first item, replaced by each later item that
    compares [<] the current one. [ValueError] on an empty sequence. *)
Definition min (xs : list float) : option float :=
  match xs with
  | [] => None
  | x :: rest => Some (fold_left (fun m y => if lt y m then y else m) rest x)
  end.

(** The builtin [max]: replaced by each later item that compares [>]. *)
Definition max (xs : list float) : option float :=
  match xs with
  | [] => None
  | x :: rest => Some (fold_left (fun m y => if gt y m then y else m) rest x)
  end.

(** An [int64] taken as a [float64], for an integer strictly between -2^63
    and 2^63: the nearest float, which is the integer itself up to 2^53 in
    absolute value and need not be it beyond. *)
Definition as_float64 (z : Z) : float :=
  if Z.ltb z 0 then PrimFloat.opp (PrimFloat.of_uint63 (Uint63.of_Z (- z)))
  else PrimFloat.of_uint63 (Uint63.of_Z z).

(** [a & b] on two boolean arrays of one length. *)
Definition and_ (a b : list bool) : list bool :=
  map (fun p => andb (fst p) (snd p)) (combine a b).

(** [rows[mask]] with a boolean mask: the rows at which the mask is true,
    in order. *)
Definition boolean_index {A : Type} (rows : list A) (mask : list bool) : list A :=
  map fst (filter snd (combine rows mask)).

End Py.

(** ** The merged coadd catalogs notebook ([unnamed/part_001], lines 467-968) *)
Module CoaddCatalogs.

(** One row of the data frame read at line 578, with its index label and the
    columns the notebook uses. *)
Record Row : Type := {
  index : Z;
  g_mag : float;
  r_mag : float;
  i_mag : float;
  g_mag_err : float;
  r_mag_err : float;
  base_ClassificationExtendedness_value : float
}.

Definition DataFrame : Type := list Row.

(** [df[name] < threshold]: a boolean column. *)
Definition column_lt (column : Row -> float) (df : DataFrame) (threshold : float)
  : list bool :=
  map (fun row => Py.lt (column row) threshold) df.

Definition column_ge (column : Row -> float) (df : DataFrame) (threshold : float)
  : list bool :=
  map (fun row => Py.le threshold (column row)) df.

(** Lines 737-739. [1/snr_threshold] is Python 3's true division of two
    integers, the float quotient. *)
Definition snr_threshold : float := 25.

Definition good_snr (df : DataFrame) : DataFrame :=
  let mag_err_threshold := (1 / snr_threshold)%float in
  Py.boolean_index df
    (Py.and_ (column_lt g_mag_err df mag_err_threshold)
             (column_lt r_mag_err df mag_err_threshold)).

(** Lines 748-750: the cell rebinds [mag_err_threshold]; [good_snr] was
    computed in the cell before and is not touched. *)
Definition bright_snr_threshold : float := 100.

Definition bright_stars (df : DataFrame) : DataFrame :=
  let mag_err_threshold := (1 / bright_snr_threshold)%float in
  Py.boolean_index df
    (Py.and_ (column_lt g_mag_err df mag_err_threshold)
             (column_lt r_mag_err df mag_err_threshold)).

(** Lines 763-765. *)
Definition safe_max_extended : float := 1.0.

Definition stars (df : DataFrame) : DataFrame :=
  let good := good_snr df in
  Py.boolean_index good
    (column_lt base_ClassificationExtendedness_value good safe_max_extended).

Definition galaxies (df : DataFrame) : DataFrame :=
  let good := good_snr df in
  Py.boolean_index good
    (column_ge base_ClassificationExtendedness_value good safe_max_extended).

End CoaddCatalogs.

(** ** The truth catalog notebook ([Notebooks/LSST_Stack_matching_code.ipynb],
       lines 534-758) *)
Module TruthCatalog.

Section Filters.

(** Line 650: the pixels [healpy.query_disc] returns for the disc, an integer
    array computed by the healpix library. *)
Variable list_of_healpix : list Z.

(** [lsst.sims.utils.angularSeparation] on one pair of positions, all four
    arguments and the result in degrees. *)
Variable angularSeparation : float -> float -> float -> float -> float.

(** Lines 639-641. *)
Definition center_ra : float := 54.6.
Definition center_dec : float := -28.0.
Definition radius : float := 0.2.

(** [hh in arr] for a numpy array: some element equals [hh]. *)
Definition contains (arr : list Z) (hh : Z) : bool := existsb (Z.eqb hh) arr.

(** A numpy array as the two filters return it: its items and its dtype. *)
Inductive ndarray : Type :=
| bool_ (items : list bool)
| float64 (items : list float).

(** [np.array(items)] of a list of Python booleans: a boolean array, except
    that numpy takes the dtype from the items and has none to take it from
    when the list is empty; the empty array it then makes is a [float64]
    array. *)
Definition np_array (items : list bool) : ndarray :=
  match items with
  | [] => float64 []
  | _ => bool_ items
  end.

(** Lines 652-653. *)
Definition filter_on_healpix (hp : list Z) : ndarray :=
  np_array (map (fun hh => contains list_of_healpix hh) hp).

(** [angularSeparation] called with two arrays and a scalar position: the
    separation of each pair from that position; the library raises when the
    two arrays differ in length. *)
Definition angularSeparation_arrays (ra dec : list float) (ra2 dec2 : float)
  : option (list float) :=
  if Nat.eqb (length ra) (length dec)
  then Some (map (fun p => angularSeparation (fst p) (snd p) ra2 dec2) (combine ra dec))
  else None.

(** Lines 655-656. The comparison of an array with a number is a boolean
    array whatever the length of the array. *)
Definition filter_on_dist (ra dec : list float) : option (list bool) :=
  option_map (map (fun sep => Py.lt sep radius))
             (angularSeparation_arrays ra dec center_ra center_dec).

(** *** The two queries (lines 676-682 and 709-715) *)

(** [arr.max()] and [arr.min()] on an integer array: [ValueError] on an
    empty one. *)
Definition np_max (arr : list Z) : option Z :=
  match arr with
  | [] => None
  | x :: rest => Some (fold_left Z.max rest x)
  end.

Definition np_min (arr : list Z) : option Z :=
  match arr with
  | [] => None
  | x :: rest => Some (fold_left Z.min rest x)
  end.

(** A row of the truth catalog's table, with the columns the notebook names;
    [r] is the native column behind the quantity [mag_true_r]. *)
Record TruthObject : Type := {
  ra : float;
  dec : float;
  r : float;
  healpix_2048 : Z;
  star : Z;
  sprinkled : Z
}.

(** The native filters, conditions of an SQL [WHERE] clause: ['star==1'],
    ['sprinkled==0'], ['r<17.0'], ['healpix_2048<=%d' % n] and
    ['healpix_2048>=%d' % n]. *)
Inductive NativeFilter : Type :=
| star_eq (v : Z)
| sprinkled_eq (v : Z)
| r_lt (bound : float)
| healpix_le (n : Z)
| healpix_ge (n : Z).

Definition satisfies (o : TruthObject) (f : NativeFilter) : bool :=
  match f with
  | star_eq v => Z.eqb (star o) v
  | sprinkled_eq v => Z.eqb (sprinkled o) v
  | r_lt bound => Py.lt (r o) bound
  | healpix_le n => Z.leb (healpix_2048 o) n
  | healpix_ge n => Z.geb (healpix_2048 o) n
  end.

(** [truth_catalog.get_quantities(['ra', 'dec', 'mag_true_r'],
    native_filters=..., filters=[(filter_on_healpix, 'healpix_2048'),
    (filter_on_dist, 'ra', 'dec')])]: the rows that satisfy every native
    filter are loaded, and of these the rows at which both masks are true are
    returned, in table order. The reader selects the rows with the array each
    filter returns; an array that is not boolean is no mask, and selecting
    with it is an [IndexError]. The three arrays of the result are the
    columns [ra], [dec] and [r] of the rows given here. *)
Definition get_quantities (truth_catalog : list TruthObject)
    (native_filters : list NativeFilter) : option (list TruthObject) :=
  let loaded := filter (fun o => forallb (satisfies o) native_filters) truth_catalog in
  match filter_on_healpix (map healpix_2048 loaded),
        filter_on_dist (map ra loaded) (map dec loaded) with
  | bool_ in_pixels, Some near => Some (Py.boolean_index loaded (Py.and_ in_pixels near))
  | _, _ => None
  end.

(** Lines 676-682. *)
Definition bright_stars (truth_catalog : list TruthObject) : option (list TruthObject) :=
  match np_max list_of_healpix, np_min list_of_healpix with
  | Some top, Some bottom =>
    get_quantities truth_catalog
      [star_eq 1; r_lt 17.0; healpix_le top; healpix_ge bottom]
  | _, _ => None
  end.

(** Lines 709-715. *)
Definition bright_unsprinkled_galaxies (truth_catalog : list TruthObject)
  : option (list TruthObject) :=
  match np_max list_of_healpix, np_min list_of_healpix with
  | Some top, Some bottom =>
    get_quantities truth_catalog
      [star_eq 0; sprinkled_eq 0; r_lt 21.0; healpix_le top; healpix_ge bottom]
  | _, _ => None
  end.

End Filters.

End TruthCatalog.

(** ** The truth/coadd matching notebook ([unnamed/part_001], lines 1-466) *)
Module TruthCoaddMatching.

(** A row of the table [FoFCatalogMatching.match] returns (line 204): which
    catalog the object is from, its row there, and the group it was linked
    into. Group ids are non-negative integers. *)
Record ResultRow : Type := {
  row_index : nat;
  catalog_key : string;
  group_id : nat
}.

(** [arr.max()]: [ValueError] on an empty array. *)
Definition np_max (arr : list nat) : option nat :=
  match arr with
  | [] => None
  | _ => Some (list_max arr)
  end.

(** [counts[i] += 1], nothing when [i] is out of range. *)
Fixpoint increment (i : nat) (counts : list nat) : list nat :=
  match counts, i with
  | [], _ => []
  | c :: rest, O => S c :: rest
  | c :: rest, S j => c :: increment j rest
  end.

(** [np.bincount(x, minlength=minlength)]: an array of
    [max(minlength, x.max() + 1)] bins ([minlength] bins for an empty [x]),
    bin [v] counting the occurrences of [v] in [x]. *)
Definition bincount (x : list nat) (minlength : nat) : list nat :=
  let size := match x with
              | [] => minlength
              | _ => Nat.max minlength (list_max x + 1)
              end in
  fold_left (fun counts v => increment v counts) x (repeat 0 size).

(** The rows of a row-major (C order) array. *)
Fixpoint rows_of (rows cols : nat) (flat : list nat) : list (list nat) :=
  match rows with
  | O => []
  | S r => firstn cols flat :: rows_of r cols (skipn cols flat)
  end.

(** [flat.reshape(rows, cols)]: [ValueError] unless the sizes agree. *)
Definition reshape (flat : list nat) (rows cols : nat) : option (list (list nat)) :=
  if Nat.eqb (length flat) (rows * cols) then Some (rows_of rows cols flat) else None.

(** [a * k + b] on two arrays of one length. The arrays are [int64]; the
    values here stay below [(rows + 1) * (rows + 1)] for a table of [rows]
    rows, far from the 64-bit range. *)
Definition scale_add (a : list nat) (k : nat) (b : list nat) : list nat :=
  map (fun p => fst p * k + snd p) (combine a b).

(** What the cell at lines 231-242 binds. *)
Record GroupCounts : Type := {
  n_groups : nat;
  n_truth : list nat;
  n_coadd : list nat;
  n_max : nat;
  hist_2d : list (list nat)
}.

(** Lines 231-242. *)
Definition count_groups (results : list ResultRow) : option GroupCounts :=
  let truth_mask := map (fun r => String.eqb (catalog_key r) "truth") results in
  let coadd_mask := map negb truth_mask in
  match np_max (map group_id results) with
  | None => None
  | Some top =>
    let n_groups := top + 1 in
    let n_truth := bincount (Py.boolean_index (map group_id results) truth_mask) n_groups in
    let n_coadd := bincount (Py.boolean_index (map group_id results) coadd_mask) n_groups in
    match np_max n_truth, np_max n_coadd with
    | Some top_truth, Some top_coadd =>
      let n_max := Nat.max top_truth top_coadd + 1 in
      match reshape (bincount (scale_add n_coadd n_max n_truth) (n_max * n_max))
                    n_max n_max with
      | Some hist_2d => Some {| n_groups := n_groups; n_truth := n_truth;
                                n_coadd := n_coadd; n_max := n_max;
                                hist_2d := hist_2d |}
      | None => None
      end
    | _, _ => None
    end
  end.

(** How often [v] occurs in [x]. *)
Definition occurrences (v : nat) (x : list nat) : nat :=
  length (filter (Nat.eqb v) x).

(** The objects of catalog [key] that the table puts in group [g]. *)
Definition members (results : list ResultRow) (key : string) (g : nat) : nat :=
  length (filter (fun r => String.eqb (catalog_key r) key && Nat.eqb (group_id r) g)
                 results).

(** The group ids [0 .. n - 1] with [t] truth and [c] coadd members. *)
Definition groups_with (results : list ResultRow) (n t c : nat) : nat :=
  length (filter (fun g => Nat.eqb (members results "truth" g) t
                           && Nat.eqb (members results "coadd" g) c)
                 (seq 0 n)).

(** *** Cross-reference with the extragalactic catalog (lines 381-390) *)

(** A column of a pandas table that holds integers: [int64], or [float64]
    once a value is missing. *)
Inductive Column : Type :=
| int64 (items : list Z)
| float64 (items : list float).

Section Merge.

Variables Left Right : Type.
Variable left_on : Left -> Z.
Variable right_on : Right -> Z.

(** [pd.merge(left, right, 'left', left_on=..., right_on=...)], as the rows
    it pairs: every left row in order, once with each right row of the same
    key, or once with no right row when no right row has the key. The values
    the merged table shows for a paired right row are those of the row as it
    was read in every float column; the one integer column of the right
    table, [galaxy_id], is read off the pairs by [merged_galaxy_id]. *)
Definition merge_left (left : list Left) (right : list Right)
  : list (Left * option Right) :=
  flat_map (fun l =>
              match filter (fun r => Z.eqb (right_on r) (left_on l)) right with
              | [] => [(l, None)]
              | found => map (fun r => (l, Some r)) found
              end) left.

(** The column [galaxy_id] of the merged table. While every left row has its
    right row the column stays [int64]. As soon as one left row has none,
    pandas fills the right columns of that row with NaN and the whole column
    becomes [float64]: NaN in the rows without a right row and, in the
    others, the [galaxy_id] as a float. *)
Definition merged_galaxy_id (merged : list (Left * option Right)) : Column :=
  if forallb (fun p => match snd p with
                       | Some _ => true
                       | None => false
                       end) merged
  then int64 (flat_map (fun p => match snd p with
                                 | Some r => [right_on r]
                                 | None => []
                                 end) merged)
  else float64 (map (fun p => match snd p with
                              | Some r => Py.as_float64 (right_on r)
                              | None => nan
                              end) merged).

(** [np.testing.assert_array_equal(actual, desired)] for an integer column
    and a column that holds an integer or NaN ([None]): [AssertionError]
    unless the two have one length and agree at each place. *)
Definition assert_array_equal (actual : list Z) (desired : list (option Z))
  : option unit :=
  if Nat.eqb (length actual) (length desired)
     && forallb (fun p => match snd p with
                          | Some d => Z.eqb (fst p) d
                          | None => false
                          end) (combine actual desired)
  then Some tt else None.

(** Lines 381 and 390: the merge, with [left_on] the column [object_id] and
    [right_on] the column [galaxy_id], then the assertion on these two columns
    of the merged table. *)
Definition merge_and_check (matched_gals : list Left) (extragalactic_data : list Right)
  : option (list (Left * option Right)) :=
  let merged := merge_left matched_gals extragalactic_data in
  match assert_array_equal (map (fun p => left_on (fst p)) merged)
                           (map (fun p => option_map right_on (snd p)) merged) with
  | Some _ => Some merged
  | None => None
  end.

End Merge.

(** *** The one-to-one groups (lines 259-263 and 335-337) *)

(** [np.flatnonzero(mask)]: the positions at which the mask is true. *)
Definition flatnonzero (mask : list bool) : list nat :=
  Py.boolean_index (seq 0 (length mask)) mask.

(** [np.in1d(ar1, ar2)]: for each item of [ar1], whether [ar2] has it. *)
Definition in1d (ar1 ar2 : list nat) : list bool :=
  map (fun v => existsb (Nat.eqb v) ar2) ar1.

(** What the cell at lines 259-263 binds. *)
Record OneToOne : Type := {
  one_to_one_group_mask : list bool;
  truth_idx : list nat;
  coadd_idx : list nat
}.

(** Lines 259-263, with [truth_mask] and [coadd_mask] as the cell before
    bound them. *)
Definition one_to_one (results : list ResultRow) (cell : GroupCounts) : OneToOne :=
  let truth_mask := map (fun r => String.eqb (catalog_key r) "truth") results in
  let coadd_mask := map negb truth_mask in
  let one_to_one_group_mask :=
    in1d (map group_id results)
         (flatnonzero (Py.and_ (map (fun n => Nat.eqb n 1) (n_truth cell))
                               (map (fun n => Nat.eqb n 1) (n_coadd cell)))) in
  {| one_to_one_group_mask := one_to_one_group_mask;
     truth_idx := Py.boolean_index (map row_index results)
                                   (Py.and_ one_to_one_group_mask truth_mask);
     coadd_idx := Py.boolean_index (map row_index results)
                                   (Py.and_ one_to_one_group_mask coadd_mask) |}.

(** [pd.DataFrame(data).iloc[idx].reset_index(drop=True)]: the rows at the
    positions [idx], in the order of [idx], relabelled [0, 1, ...];
    [IndexError] for a position out of range. *)
Fixpoint iloc {A : Type} (data : list A) (idx : list nat) : option (list A) :=
  match idx with
  | [] => Some []
  | i :: rest =>
    match nth_error data i, iloc data rest with
    | Some row, Some rows => Some (row :: rows)
    | _, _ => None
    end
  end.

(** Lines 335-337: the merge on the index joins the rows that carry one
    label, the first of [truth_matched] with the first of [coadd_matched] and
    so on, as far as both tables go. *)
Definition matched {Truth Coadd : Type} (truth_data : list Truth) (coadd_data : list Coadd)
    (idx : OneToOne) : option (list (Truth * Coadd)) :=
  match iloc truth_data (truth_idx idx), iloc coadd_data (coadd_idx idx) with
  | Some truth_matched, Some coadd_matched => Some (combine truth_matched coadd_matched)
  | _, _ => None
  end.

(** Whether the rows of the table come in the order of their group ids. *)
Definition sorted_by_group (results : list ResultRow) : bool :=
  forallb (fun p => Nat.leb (group_id (fst p)) (group_id (snd p)))
          (combine results (tl results)).

(** An entry [i] of [truth_idx] and an entry [j] of [coadd_idx] that come
    from two rows of one group, a truth row and a row of the other catalog. *)
Definition same_group (results : list ResultRow) (i j : nat) : Prop :=
  exists t c, In t results /\ In c results /\
    row_index t = i /\ row_index c = j /\
    catalog_key t = "truth" /\ catalog_key c <> "truth" /\
    group_id t = group_id c.

(** *** The selection of the objects to match (lines 87-108, 128 and 173-187) *)

(** A filter of the reader: a comparison of a quantity with a number, written
    as a string (['ra >= 55.5'], ['mag_i < 24.5']), or a function with the
    quantity it is applied to ([(np.isfinite, 'mag_i')]). *)
Inductive Filter : Type :=
| ge (quantity : string) (bound : float)
| less (quantity : string) (bound : float)
| isfinite (quantity : string).

(** Lines 87-88. *)
Definition ra_min : float := 55.5.
Definition ra_max : float := 56.0.
Definition dec_min : float := -29.0.
Definition dec_max : float := -28.5.

(** Lines 90-95. *)
Definition coord_filters : list Filter :=
  [ge "ra" ra_min; less "ra" ra_max; ge "dec" dec_min; less "dec" dec_max].

(** Lines 105-108. *)
Definition mag_filters : list Filter := [isfinite "mag_i"; less "mag_i" 24.5].

(** Line 186: the native quantity [i] of the truth catalog, which line 173
    makes the quantity [mag_i]. *)
Definition truth_native_filters : list Filter := (coord_filters ++ [less "i" 24.5])%list.

(** An object of either catalog, as the values of its quantities. *)
Definition Object : Type := list (string * float).

Definition quantity_of (o : Object) (quantity : string) : option float :=
  option_map snd (find (fun kv => String.eqb (fst kv) quantity) o).

(** Whether an object passes one filter; a quantity the catalog lacks is an
    error. *)
Definition test (o : Object) (f : Filter) : option bool :=
  match f with
  | ge quantity bound => option_map (fun v => Py.le bound v) (quantity_of o quantity)
  | less quantity bound => option_map (fun v => Py.lt v bound) (quantity_of o quantity)
  | isfinite quantity => option_map PrimFloat.is_finite (quantity_of o quantity)
  end.

(** Whether an object passes all the filters. *)
Fixpoint test_all (o : Object) (filters : list Filter) : option bool :=
  match filters with
  | [] => Some true
  | f :: rest =>
    match test o f, test_all o rest with
    | Some b, Some bs => Some (b && bs)
    | _, _ => None
    end
  end.

(** Line 128: whether the coadd catalog returns an object. *)
Definition coadd_selected (o : Object) : option bool :=
  test_all o (coord_filters ++ mag_filters)%list.

(** Lines 173 and 186-187: whether the truth catalog returns an object. The
    native filters see the native quantities; [add_quantity_modifier('mag_i',
    'i')] lets the filters read [i] under the name [mag_i]. *)
Definition truth_selected (o : Object) : option bool :=
  match test_all o truth_native_filters,
        test_all (match quantity_of o "i" with
                  | Some v => ("mag_i", v) :: o
                  | None => o
                  end) mag_filters with
  | Some native, Some post => Some (native && post)
  | _, _ => None
  end.

End TruthCoaddMatching.

(** ** The Stack matching notebook ([Notebooks/LSST_Stack_matching_code.ipynb],
       lines 1-533) *)
Module StackMatching.

(** *** Tables of the LSST Stack ([lsst.afw.table], [lsst.afw.geom]) *)

Inductive AngleUnit : Type := degrees | arcseconds.

(** [afw_geom.Angle(value, unit)]. *)
Record Angle : Type := { value : float; unit : AngleUnit }.

(** The types of the fields in use: 64-bit integer, angle, and Python's
    [float]. *)
Inductive FieldType : Type := TypeL | TypeAngle | TypeFloat.

(** Line 86: [namedtuple('Coldef', 'name type doc'.split())]. *)
Record Coldef : Type := { name : string; type : FieldType; doc : string }.

(** A schema is its fields in the order they were added. *)
Definition Schema : Type := list Coldef.

Definition has_field (schema : Schema) (field : string) : bool :=
  existsb (fun c => String.eqb (name c) field) schema.

(** [schema.addField(name, type=type, doc=doc)]: the Stack refuses a name the
    schema already has. *)
Definition addField (schema : Schema) (coldef : Coldef) : option Schema :=
  if has_field schema (name coldef) then None else Some (schema ++ [coldef])%list.

Inductive Value : Type :=
| VInt (z : Z)
| VAngle (a : Angle)
| VFloat (x : float).

(** A record holds the values that were set, latest first. *)
Definition SourceRecord : Type := list (string * Value).

Record SourceCatalog : Type := {
  schema : Schema;
  records : list SourceRecord
}.

(** [record.set(field, v)]: a field the schema lacks is an error. *)
Definition set (schema : Schema) (record : SourceRecord) (field : string) (v : Value)
  : option SourceRecord :=
  if has_field schema field
  then Some ((field, v) :: filter (fun kv => negb (String.eqb (fst kv) field)) record)
  else None.

(** [record[field]]. *)
Definition get (record : SourceRecord) (field : string) : option Value :=
  option_map snd (find (fun kv => String.eqb (fst kv) field) record).

(** What a record of the returned catalog holds, for the selector's ranges
    and the magnitude limit of the call. *)
Definition selected (band : string) (max_mag : float) (ra_range dec_range : float * float)
    (record : SourceRecord) : Prop :=
  exists (id_ : Z) (ra dec mag : float),
    get record "id" = Some (VInt id_) /\
    get record "coord_ra" = Some (VAngle {| value := ra; unit := degrees |}) /\
    get record "coord_dec" = Some (VAngle {| value := dec; unit := degrees |}) /\
    get record ("mag_" ++ band) = Some (VFloat mag) /\
    Py.lt mag max_mag = true /\
    Py.gt ra (fst ra_range) = true /\ Py.lt ra (snd ra_range) = true /\
    Py.gt dec (fst dec_range) = true /\ Py.lt dec (snd dec_range) = true.

(** *** Galaxy catalogs of the generic catalog reader

    The reader ([GCRCatalogs], [GCR]) is a library; what follows is the part
    of its interface that [RegionSelector.__call__] relies on. *)

(** A galaxy of the extragalactic catalog: the quantities the notebook asks
    for, the magnitudes under their quantity names ([mag_true_r_lsst], ...). *)
Record Galaxy : Type := {
  galaxy_id : Z;
  ra_true : float;
  dec_true : float;
  magnitudes : list (string * float)
}.

(** The filter string ['{} < {}'.format(quantity, bound)] of line 165 as the
    reader parses it. Python prints a finite float so that it reads back as
    the same number; [nan] and [inf] print as words that are no number. *)
Inductive Filter : Type := Less (quantity : string) (bound : float).

Definition lookup (g : Galaxy) (quantity : string) : option float :=
  if String.eqb quantity "ra_true" then Some (ra_true g)
  else if String.eqb quantity "dec_true" then Some (dec_true g)
  else option_map snd (find (fun kv => String.eqb (fst kv) quantity) (magnitudes g)).

Fixpoint traverse {A B : Type} (f : A -> option B) (l : list A) : option (list B) :=
  match l with
  | [] => Some []
  | x :: rest =>
    match f x, traverse f rest with
    | Some y, Some ys => Some (y :: ys)
    | _, _ => None
    end
  end.

(** Whether a galaxy passes every filter; an unknown quantity or a bound
    that is no number is an error. *)
Definition passes (filters : list Filter) (g : Galaxy) : option bool :=
  option_map (forallb (fun b => b))
    (traverse (fun f => match f with
                        | Less quantity bound =>
                          if PrimFloat.is_finite bound
                          then option_map (fun v => Py.lt v bound) (lookup g quantity)
                          else None
                        end) filters).

(** The arrays [get_quantities] returns at lines 167-168, one per quantity. *)
Record Columns : Type := {
  col_galaxy_id : list Z;
  col_ra_true : list float;
  col_dec_true : list float;
  col_band : list float
}.

(** [gc.get_quantities(['galaxy_id', 'ra_true', 'dec_true', bandname],
    filters=filters)]: the galaxies that pass every filter, in catalog order,
    as one array per quantity. *)
Definition get_quantities (gc : list Galaxy) (bandname : string) (filters : list Filter)
  : option Columns :=
  match traverse (passes filters) gc with
  | None => None
  | Some mask =>
    let rows := Py.boolean_index gc mask in
    match traverse (fun g => lookup g bandname) rows with
    | None => None
    | Some mags => Some {| col_galaxy_id := map galaxy_id rows;
                           col_ra_true := map ra_true rows;
                           col_dec_true := map dec_true rows;
                           col_band := mags |}
    end
  end.

(** *** numpy indexing *)

(** [np.where(mask)]: the positions at which the mask is true. *)
Definition np_where (mask : list bool) : list nat :=
  Py.boolean_index (seq 0 (length mask)) mask.

(** [arr[index]] with an array of positions: [IndexError] out of range. *)
Definition take {A : Type} (arr : list A) (index : list nat) : option (list A) :=
  traverse (nth_error arr) index.

(** [zip] of four sequences. *)
Definition zip4 {A B C D : Type} (a : list A) (b : list B) (c : list C) (d : list D)
  : list (A * B * C * D) :=
  combine (combine (combine a b) c) d.

(** *** Lines 63-88 *)

Section Catalogs.

(** [afw_table.SourceTable.makeMinimalSchema()], the Stack's. *)
Variable makeMinimalSchema : Schema.

(** The field rotation [FieldRotator(0, 0, protoDC2_ra, protoDC2_dec)] of
    line 114 on one position: (ra, dec) to (ra, dec), in degrees. *)
Variable rotate : float -> float -> float * float.

Definition make_SourceCatalog (new_cols : list Coldef) : option SourceCatalog :=
  let fix add (schema : Schema) (cols : list Coldef) : option Schema :=
    match cols with
    | [] => Some schema
    | coldef :: rest =>
      match addField schema coldef with
      | Some schema' => add schema' rest
      | None => None
      end
    end in
  option_map (fun schema => {| schema := schema; records := [] |})
             (add makeMinimalSchema new_cols).

Definition mag_cols (bands : list string) : list Coldef :=
  map (fun x => {| name := "mag_" ++ x; type := TypeFloat; doc := x ++ "-magnitude" |})
      bands.

(** *** Lines 106-222: the region selectors *)

(** [self.field_rotator.transform(ra, dec)] on arrays: position by position. *)
Definition transform (ra dec : list float) : list float * list float :=
  split (map (fun p => rotate (fst p) (snd p)) (combine ra dec)).

(** The attributes of a selector; [None] is an attribute not set yet. *)
Record RegionSelector : Type := {
  ra_range : option (float * float);
  dec_range : option (float * float)
}.

(** Lines 116-117. *)
Definition __init__ : RegionSelector := {| ra_range := None; dec_range := None |}.

Section Region.

Variables BBox Wcs Point : Type.

(** [afw_geom.Box2D(bbox).getCorners()]. *)
Variable getCorners : BBox -> list Point.

(** [wcs.pixelToSky(corner)], each angle read with [asDegrees()]. *)
Variable pixelToSky : Wcs -> Point -> float * float.

(** Lines 119-142: both attributes are assigned, whatever they were. *)
Definition _set_coord_range (self : RegionSelector) (bbox : BBox) (wcs : Wcs)
  : option RegionSelector :=
  let corners := getCorners bbox in
  let sky := map (pixelToSky wcs) corners in
  let ra_values := map fst sky in
  let dec_values := map snd sky in
  match Py.min ra_values, Py.max ra_values, Py.min dec_values, Py.max dec_values with
  | Some ra_lo, Some ra_hi, Some dec_lo, Some dec_hi =>
    Some {| ra_range := Some (ra_lo, ra_hi); dec_range := Some (dec_lo, dec_hi) |}
  | _, _, _, _ => None
  end.

(** Lines 204-211, given the calexp the butler returns: its bounding box and
    its WCS. *)
Definition CcdSelector (calexp : BBox * Wcs) : option RegionSelector :=
  _set_coord_range __init__ (fst calexp) (snd calexp).

(** Lines 214-222, given the outer bounding box of the patch and the WCS of
    its tract. *)
Definition PatchSelector (patch_bbox : BBox) (tract_wcs : Wcs) : option RegionSelector :=
  _set_coord_range __init__ patch_bbox tract_wcs.

End Region.

(** Lines 189-194: one new record per zipped tuple. *)
Definition new_record (schema : Schema) (band : string) (t : Z * float * float * float)
  : option SourceRecord :=
  let '(id_, ra, dec, mag) := t in
  match set schema [] "id" (VInt id_) with
  | None => None
  | Some r1 =>
    match set schema r1 "coord_ra" (VAngle {| value := ra; unit := degrees |}) with
    | None => None
    | Some r2 =>
      match set schema r2 "coord_dec" (VAngle {| value := dec; unit := degrees |}) with
      | None => None
      | Some r3 => set schema r3 ("mag_" ++ band) (VFloat mag)
      end
    end
  end.

(** Lines 144-195. The three [print] calls (lines 166, 169, 185) are left
    out; [np.where] and the four indexings of lines 181-184 are kept as
    written. *)
Definition __call__ (self : RegionSelector) (gc : list Galaxy) (band : string)
    (max_mag : float) : option SourceCatalog :=
  let bandname := "mag_true_" ++ band ++ "_lsst" in
  let filter_ := Less bandname max_mag in
  match get_quantities gc bandname [filter_] with
  | None => None
  | Some gc_cols =>
    let (gc_ra_rot, gc_dec_rot) := transform (col_ra_true gc_cols) (col_dec_true gc_cols) in
    match ra_range self, dec_range self with
    | Some ra_range, Some dec_range =>
      let index :=
        np_where (Py.and_ (Py.and_ (Py.and_
                    (map (fun x => Py.gt x (fst ra_range)) gc_ra_rot)
                    (map (fun x => Py.lt x (snd ra_range)) gc_ra_rot))
                    (map (fun x => Py.gt x (fst dec_range)) gc_dec_rot))
                    (map (fun x => Py.lt x (snd dec_range)) gc_dec_rot)) in
      match take (col_galaxy_id gc_cols) index, take gc_ra_rot index,
            take gc_dec_rot index, take (col_band gc_cols) index with
      | Some galaxy_id, Some gc_ra, Some gc_dec, Some gc_mag =>
        match make_SourceCatalog (mag_cols [band]) with
        | None => None
        | Some galaxy_catalog =>
          option_map (fun new => {| schema := schema galaxy_catalog;
                                    records := (records galaxy_catalog ++ new)%list |})
                     (traverse (new_record (schema galaxy_catalog) band)
                               (zip4 galaxy_id gc_ra gc_dec gc_mag))
        end
      | _, _, _, _ => None
      end
    | _, _ => None
    end
  end.

(** The galaxies the call keeps: magnitude below the limit and rotated
    position strictly inside the two ranges. *)
Definition kept (band : string) (max_mag : float) (ra_bounds dec_bounds : float * float)
    (g : Galaxy) : bool :=
  match lookup g ("mag_true_" ++ band ++ "_lsst") with
  | Some mag => Py.lt mag max_mag
  | None => false
  end
  && (Py.gt (fst (rotate (ra_true g) (dec_true g))) (fst ra_bounds)
      && Py.lt (fst (rotate (ra_true g) (dec_true g))) (snd ra_bounds)
      && Py.gt (snd (rotate (ra_true g) (dec_true g))) (fst dec_bounds)
      && Py.lt (snd (rotate (ra_true g) (dec_true g))) (snd dec_bounds)).

(** What the record made for a galaxy holds. *)
Definition record_of (band : string) (g : Galaxy) (record : SourceRecord) : Prop :=
  exists mag,
    lookup g ("mag_true_" ++ band ++ "_lsst") = Some mag /\
    get record "id" = Some (VInt (galaxy_id g)) /\
    get record "coord_ra"
    = Some (VAngle {| value := fst (rotate (ra_true g) (dec_true g)); unit := degrees |}) /\
    get record "coord_dec"
    = Some (VAngle {| value := snd (rotate (ra_true g) (dec_true g)); unit := degrees |}) /\
    get record ("mag_" ++ band) = Some (VFloat mag).

(** *** Lines 309-334: the catalog of well-measured galaxies *)

(** A row of the catalog the butler returns (line 273 or 288), with the
    columns the cell reads. [model_flag] and [model_flux] are the columns
    [flux_model + '_flag'] and [flux_model + '_flux']; the identifier is
    called [id_] as at line 189. *)
Record Source : Type := {
  id_ : Z;
  coord_ra : Angle;
  coord_dec : Angle;
  parent : Z;
  base_ClassificationExtendedness_value : float;
  model_flag : bool;
  model_flux : float;
  deblend_nChild : Z
}.

Section Drp.

(** [calib.getMagnitude] on one flux; the Stack may refuse a flux. On an
    array it converts item by item. *)
Variable getMagnitude : float -> option float.

(** Lines 310-319: the four columns and the first [subset]. *)
Definition well_measured (catalog : list Source) : list Source :=
  let ext := map base_ClassificationExtendedness_value catalog in
  let model_flag := map model_flag catalog in
  let model_flux := map model_flux catalog in
  let num_children := map deblend_nChild catalog in
  Py.boolean_index catalog
    (Py.and_ (Py.and_ (Py.and_
       (map (fun x => PrimFloat.eqb x 1) ext)
       (map (fun b => Bool.eqb b false) model_flag))
       (map (fun x => Py.gt x 0) model_flux))
       (map (fun n => Z.eqb n 0) num_children)).

(** Lines 329-334: one new record per row. *)
Definition repackage (schema : Schema) (filter_ : string) (record : Source)
  : option SourceRecord :=
  match set schema [] "id" (VInt (id_ record)) with
  | None => None
  | Some r1 =>
    match set schema r1 "coord_ra" (VAngle (coord_ra record)) with
    | None => None
    | Some r2 =>
      match set schema r2 "coord_dec" (VAngle (coord_dec record)) with
      | None => None
      | Some r3 =>
        match set schema r3 "parent" (VInt (parent record)) with
        | None => None
        | Some r4 =>
          match getMagnitude (model_flux record) with
          | None => None
          | Some mag => set schema r4 ("mag_" ++ filter_) (VFloat mag)
          end
        end
      end
    end
  end.

(** Lines 309-334, without the [print]. *)
Definition drp_catalog (catalog : list Source) (filter_ : string) (mag_max : float)
  : option SourceCatalog :=
  let cat_temp := well_measured catalog in
  match traverse getMagnitude (map model_flux cat_temp) with
  | None => None
  | Some mag =>
    let cat_temp := Py.boolean_index cat_temp (map (fun m => Py.lt m mag_max) mag) in
    match make_SourceCatalog (mag_cols [filter_]) with
    | None => None
    | Some drp_catalog =>
      option_map (fun new => {| schema := schema drp_catalog;
                                records := (records drp_catalog ++ new)%list |})
                 (traverse (repackage (schema drp_catalog) filter_) cat_temp)
    end
  end.

(** The four cuts of lines 316-319 on one row. *)
Definition cuts (record : Source) : bool :=
  PrimFloat.eqb (base_ClassificationExtendedness_value record) 1
  && Bool.eqb (model_flag record) false
  && Py.gt (model_flux record) 0
  && Z.eqb (deblend_nChild record) 0.

(** The depth cut of line 323 on one row. *)
Definition bright (mag_max : float) (record : Source) : bool :=
  match getMagnitude (model_flux record) with
  | Some mag => Py.lt mag mag_max
  | None => false
  end.

(** What the record made for a row holds. *)
Definition repackaged (filter_ : string) (row : Source) (record : SourceRecord) : Prop :=
  exists mag,
    getMagnitude (model_flux row) = Some mag /\
    get record "id" = Some (VInt (id_ row)) /\
    get record "coord_ra" = Some (VAngle (coord_ra row)) /\
    get record "coord_dec" = Some (VAngle (coord_dec row)) /\
    get record "parent" = Some (VInt (parent row)) /\
    get record ("mag_" ++ filter_) = Some (VFloat mag).

End Drp.

(** *** Lines 383-413 and 429: the matches *)

(** One item of the list [afw_table.matchRaDec] returns: a record of the
    first catalog, a record of the second, and their separation in radians. *)
Record Match : Type := {
  first : SourceRecord;
  second : SourceRecord;
  distance : float
}.

(** What the loop at lines 401-412 fills, and line 429. *)
Record MatchArrays : Type := {
  drp_mag : list float;
  gc_mag : list float;
  sep : list float;
  u : list float;
  v : list float
}.

Section Matches.

(** [float(angle)], the angle in radians, which is what storing an angle in
    a float array does; and [np.degrees]. *)
Variable asRadians : Angle -> float.
Variable np_degrees : float -> float.

(** [record[field]] for a float field and for an angle field; a field that
    holds nothing of the kind is an error. *)
Definition float_of (record : SourceRecord) (field : string) : option float :=
  match get record field with
  | Some (VFloat x) => Some x
  | _ => None
  end.

Definition angle_of (record : SourceRecord) (field : string) : option Angle :=
  match get record field with
  | Some (VAngle a) => Some a
  | _ => None
  end.

(** Lines 408-412: one pass of the loop, the five numbers it stores. *)
Definition match_row (filter_ : string) (m : Match)
  : option (float * float * float * float * float) :=
  match float_of (first m) ("mag_" ++ filter_), float_of (second m) ("mag_" ++ filter_),
        angle_of (first m) "coord_ra", angle_of (second m) "coord_ra",
        angle_of (first m) "coord_dec", angle_of (second m) "coord_dec" with
  | Some drp, Some gc, Some ra1, Some ra2, Some dec1, Some dec2 =>
    Some (drp, gc, (np_degrees (distance m) * 3600 * 1000)%float,
          (asRadians ra1 - asRadians ra2)%float,
          (asRadians dec1 - asRadians dec2)%float)
  | _, _, _, _, _, _ => None
  end.

(** Lines 401-412. *)
Definition match_arrays (filter_ : string) (matches : list Match) : option MatchArrays :=
  option_map (fun rows =>
                {| drp_mag := map (fun r => fst (fst (fst (fst r)))) rows;
                   gc_mag := map (fun r => snd (fst (fst (fst r)))) rows;
                   sep := map (fun r => snd (fst (fst r))) rows;
                   u := map (fun r => snd (fst r)) rows;
                   v := map snd rows |})
             (traverse (match_row filter_) matches).

(** Line 429. *)
Definition delta_mag (arrays : MatchArrays) : list float :=
  map (fun p => (fst p - snd p)%float) (combine (drp_mag arrays) (gc_mag arrays)).

(** A record that can be compared: a magnitude below the limit and the two
    coordinates. *)
Definition comparable (filter_ : string) (mag_max : float) (record : SourceRecord) : Prop :=
  exists mag ra dec,
    get record ("mag_" ++ filter_) = Some (VFloat mag) /\ Py.lt mag mag_max = true /\
    get record "coord_ra" = Some (VAngle ra) /\ get record "coord_dec" = Some (VAngle dec).

End Matches.

End Catalogs.

End StackMatching.

(** ** The cluster members notebook ([unnamed/part_000]) *)
Module ClusterMembers.

(** A galaxy of [protoDC2_test], with the quantities the notebook reads or
    filters on. *)
Record Galaxy : Type := {
  ra : float;
  dec : float;
  mag_r : float;
  halo_id : Z;
  halo_mass : float;
  is_central : bool;
  redshift : float
}.

(** Lines 72-74. *)
Definition galaxy_data (gc : list Galaxy) : list Galaxy :=
  filter (fun g => Py.lt (mag_r g) 19) gc.

Definition cluster_data (gc : list Galaxy) : list Galaxy :=
  filter (fun g => is_central g && Py.gt (halo_mass g) 1e14 && Py.lt (redshift g) 0.2) gc.

(** What one pass of the loop draws: the members, the marker sizes of line
    105, the number in the label, and the cluster whose centre and title it
    shows. *)
Record Figure : Type := {
  members : list Galaxy;
  sizes : list float;
  label : nat;
  cluster : Galaxy
}.

(** Lines 99-111, the body of the loop. *)
Definition plot (galaxy_data : list Galaxy) (cluster : Galaxy) : Figure :=
  let members := filter (fun g => Z.eqb (halo_id g) (halo_id cluster)) galaxy_data in
  {| members := members;
     sizes := map (fun g => ((19 - mag_r g) * 8)%float) members;
     label := length (map ra members);
     cluster := cluster |}.

(** Lines 96-98: [for i, cluster in enumerate(cluster_data)] from count [i]
    on, with the [break]. *)
Fixpoint plot_clusters (galaxy_data : list Galaxy) (i : nat) (cluster_data : list Galaxy)
  : list Figure :=
  match cluster_data with
  | [] => []
  | cluster :: rest =>
    if Nat.leb 3 i then []
    else plot galaxy_data cluster :: plot_clusters galaxy_data (S i) rest
  end.

(** Lines 72-74 and 95-113: the figures the notebook shows. *)
Definition figures (gc : list Galaxy) : list Figure :=
  plot_clusters (galaxy_data gc) 0 (cluster_data gc).

End ClusterMembers.

(** ** The code cells of the notebooks, statement by statement *)
Module Syntax.

(** A call expression: the callee as it is written ([str] stands for a string
    literal, [f()] for the result of a call, [x[]] for a subscript), and its
    first positional argument when that is a plain string literal. *)
Record Call : Type := { callee : string; literal : option string }.

Definition call (callee : string) : Call :=
  {| callee := callee; literal := None |}.

Definition call_on (callee literal : string) : Call :=
  {| callee := callee; literal := Some literal |}.

(** A statement of Python, reduced to what the claims are about: the line it
    starts at, the names it binds, the calls its own expressions make (in
    source order, the calls of a lambda included), and the blocks it holds.
    [Import line module names] is both [import module as name] and
    [from module import names]. *)
Inductive stmt : Type :=
| Import (line : nat) (module : string) (names : list string)
| Simple (line : nat) (targets : list string) (calls : list Call)
| Return (line : nat) (calls : list Call)
| Pass (line : nat)
| Break (line : nat)
| Raise (line : nat) (calls : list Call)
| Assert (line : nat) (calls : list Call)
| For (line : nat) (targets : list string) (calls : list Call) (body : list stmt)
| If (line : nat) (calls : list Call) (body orelse : list stmt)
| With (line : nat) (calls : list Call) (body : list stmt)
| Try (line : nat) (body : list stmt) (handlers : option (list stmt))
      (finalbody : list stmt)
| Def (line : nat) (name : string) (parameters : list string) (body : list stmt)
| Class (line : nat) (name : string) (bases : list string) (body : list stmt).

(** A notebook: the file that holds it, the line of that file it starts at,
    and its non-empty code cells in order. Lines are lines of the file. The
    IPython magic [%matplotlib inline] is not a statement and is left out. *)
Record notebook : Type := {
  file : string;
  first_line : nat;
  cells : list (list stmt)
}.

Definition stack_matching : notebook :=
  {| file := "Notebooks/LSST_Stack_matching_code.ipynb";
     first_line := 1;
     cells := [
    (* lines 22-29 *)
    [ Import 22 "warnings" ["warnings"];
      Import 23 "collections" ["namedtuple"];
      Import 24 "numpy" ["np"];
      Import 25 "matplotlib.pyplot" ["plt"];
      Import 26 "lsst.afw.geom" ["afw_geom"];
      Import 27 "lsst.afw.table" ["afw_table"];
      Import 28 "lsst.daf.persistence" ["dp"];
      Import 29 "GCRCatalogs" ["GCRCatalogs"] ];
    (* lines 45-45 *)
    [ Import 45 "Matching.fieldRotator" ["FieldRotator"] ];
    (* lines 63-88 *)
    [ Def 63 "make_SourceCatalog" ["new_cols"]
        [ Simple 64 [] [];
          Simple 78 ["schema"] [call "afw_table.SourceTable.makeMinimalSchema"];
          For 79 ["coldef"] []
            [ Simple 80 [] [call "schema.addField"] ];
          Return 81 [call "afw_table.SourceCatalog"] ];
      Def 84 "mag_cols" ["bands"]
        [ Simple 85 [] [];
          Simple 86 ["Coldef"] [call_on "namedtuple" "Coldef"; call "str.split"];
          Return 87 [call "Coldef"; call "str.format"; call "str.format"] ] ];
    (* lines 106-195 *)
    [ Class 106 "RegionSelector" []
        [ Simple 107 [] [];
          Simple 112 ["protoDC2_ra"] [];
          Simple 113 ["protoDC2_dec"] [];
          Simple 114 ["field_rotator"] [call "FieldRotator"];
          Def 116 "__init__" ["self"]
            [ Pass 117 ];
          Def 119 "_set_coord_range" ["self"; "bbox"; "wcs"]
            [ Simple 120 [] [];
              Simple 134 ["region_box"] [call "afw_geom.Box2D"];
              Simple 135 ["corners"] [call "region_box.getCorners"];
              Simple 136 ["ra_values"; "dec_values"] [];
              For 137 ["corner"] []
                [ Simple 138 ["ra"; "dec"] [call "wcs.pixelToSky"];
                  Simple 139 [] [call "ra_values.append"; call "ra.asDegrees"];
                  Simple 140 [] [call "dec_values.append"; call "dec.asDegrees"] ];
              Simple 141 ["self.ra_range"] [call "min"; call "max"];
              Simple 142 ["self.dec_range"] [call "min"; call "max"] ];
          Def 144 "__call__" ["self"; "gc"; "band"; "max_mag"]
            [ Simple 145 [] [];
              Simple 164 ["bandname"] [call "str.format"];
              Simple 165 ["filter_"] [call "str.format"];
              Simple 166 [] [call_on "print" "Applying magnitude filter:"];
              Simple 167 ["gc_cols"] [call "gc.get_quantities"];
              Simple 169 [] [call_on "print" "Number of galaxies passing magnitude filter:"; call "len"];
              Simple 172 ["gc_ra_rot"; "gc_dec_rot"] [call "self.field_rotator.transform"];
              Simple 177 ["index"] [call "np.where"];
              Simple 181 ["galaxy_id"] [];
              Simple 182 ["gc_ra"] [];
              Simple 183 ["gc_dec"] [];
              Simple 184 ["gc_mag"] [];
              Simple 185 [] [call_on "print" "Number of galaxies within region:"; call "len"];
              Simple 188 ["galaxy_catalog"] [call "make_SourceCatalog"; call "mag_cols"];
              For 189 ["id_"; "ra"; "dec"; "mag"] [call "zip"]
                [ Simple 190 ["record"] [call "galaxy_catalog.addNew"];
                  Simple 191 [] [call_on "record.set" "id"];
                  Simple 192 [] [call_on "record.set" "coord_ra"; call "afw_geom.Angle"];
                  Simple 193 [] [call_on "record.set" "coord_dec"; call "afw_geom.Angle"];
                  Simple 194 [] [call "record.set"; call "str.format"] ];
              Return 195 [] ] ] ];
    (* lines 204-222 *)
    [ Class 204 "CcdSelector" ["RegionSelector"]
        [ Simple 205 [] [];
          Def 206 "__init__" ["self"; "butler"; "visit"; "raft"; "sensor"]
            [ Simple 207 [] [call "super"; call "super().__init__"];
              Simple 209 ["dataId"] [call "dict"];
              Simple 210 ["calexp"] [call_on "butler.get" "calexp"];
              Simple 211 [] [call "self._set_coord_range"; call "calexp.getBBox"; call "calexp.getWcs"] ] ];
      Class 214 "PatchSelector" ["RegionSelector"]
        [ Simple 215 [] [];
          Def 216 "__init__" ["self"; "butler"; "tract"; "patch"]
            [ Simple 217 [] [call "super"; call "super().__init__"];
              Simple 219 ["skymap"] [call_on "butler.get" "deepCoadd_skyMap"];
              Simple 220 ["tractInfo"] [];
              Simple 221 ["patchInfo"] [call "tractInfo.getPatchInfo"; call "eval"];
              Simple 222 [] [call "self._set_coord_range"; call "patchInfo.getOuterBBox"; call "tractInfo.getWcs"] ] ] ];
    (* lines 240-242 *)
    [ Simple 241 ["repo"] [];
      Simple 242 ["butler"] [call "dp.Butler"] ];
    (* lines 262-291 *)
    [ Simple 262 ["mag_max"] [];
      Simple 264 ["we_are_matching"] [];
      If 266 []
        [ Simple 268 ["visit"] [];
          Simple 269 ["raft"] [];
          Simple 270 ["sensor"] [];
          Simple 271 ["title"] [call "str.format"];
          Simple 272 ["dataId"] [call "dict"];
          Simple 273 ["catalog"] [call_on "butler.get" "src"];
          Simple 274 ["calexp"] [call_on "butler.get" "calexp"];
          Simple 275 ["filter_"] [call "calexp.getInfo"; call "calexp.getInfo().getFilter"; call "calexp.getInfo().getFilter().getName"];
          Simple 276 ["calib"] [call "calexp.getCalib"];
          Simple 277 ["flux_model"] [];
          Simple 278 ["region_selector"] [call "CcdSelector"] ]
        [ Simple 282 ["filter_"] [];
          Simple 283 ["tract"] [];
          Simple 284 ["patch"] [];
          Simple 285 ["title"] [call "str.format"];
          Simple 286 ["dataId"] [call "dict"];
          Simple 287 ["catalog"] [call_on "butler.get" "deepCoadd_meas"];
          Simple 288 ["calexp"] [call_on "butler.get" "deepCoadd"];
          Simple 289 ["calib"] [call "calexp.getCalib"];
          Simple 290 ["flux_model"] [];
          Simple 291 ["region_selector"] [call "PatchSelector"] ] ];
    (* lines 309-334 *)
    [ Simple 310 ["ext"] [call_on "catalog.get" "base_ClassificationExtendedness_value"];
      Simple 311 ["model_flag"] [call "catalog.get"];
      Simple 312 ["model_flux"] [call "catalog.get"];
      Simple 313 ["num_children"] [call_on "catalog.get" "deblend_nChild"];
      Simple 316 ["cat_temp"] [call "catalog.subset"];
      Simple 322 ["mag"] [call "calib.getMagnitude"];
      Simple 323 ["cat_temp"] [call "cat_temp.subset"];
      Simple 327 ["drp_catalog"] [call "make_SourceCatalog"; call "mag_cols"];
      For 328 ["record"] []
        [ Simple 329 ["new_rec"] [call "drp_catalog.addNew"];
          For 330 ["name"] [call "str.split"]
            [ Simple 331 [] [call "new_rec.set"] ];
          Simple 332 [] [call "new_rec.set"; call "str.format"; call "calib.getMagnitude"] ];
      Simple 334 [] [call_on "print" "Number of observed objects in our DRP galaxy catalog"; call "len"] ];
    (* lines 352-358 *)
    [ With 353 [call "warnings.catch_warnings"]
        [ Simple 354 [] [call_on "warnings.filterwarnings" "ignore"];
          Simple 355 ["gc"] [call_on "GCRCatalogs.load_catalog" "proto-dc2_v2.1.2_test"] ];
      Simple 358 ["galaxy_catalog"] [call "region_selector"] ];
    (* lines 382-384 *)
    [ Simple 383 ["radius"] [call "afw_geom.Angle"];
      Simple 384 ["matches"] [call "afw_table.matchRaDec"] ];
    (* lines 400-413 *)
    [ Simple 401 ["drp_mag"] [call "np.zeros"; call "len"];
      Simple 402 ["gc_mag"] [call "np.zeros"; call "len"];
      Simple 403 ["sep"] [call "np.zeros"; call "len"];
      Simple 405 ["u"] [call "np.zeros"; call "len"];
      Simple 406 ["v"] [call "np.zeros"; call "len"];
      For 407 ["i"; "match"] [call "enumerate"]
        [ Simple 408 ["drp_mag[]"] [call "str.format"];
          Simple 409 ["gc_mag[]"] [call "str.format"];
          Simple 410 ["sep[]"] [call "np.degrees"];
          Simple 411 ["u[]"] [];
          Simple 412 ["v[]"] [] ];
      Simple 413 [] [call_on "print" "Number of matches:"; call "len"] ];
    (* lines 422-457 *)
    [ Simple 423 ["fig"] [call "plt.figure"];
      Simple 424 ["frame_axes"] [call "fig.add_subplot"];
      Simple 425 [] [call "frame_axes.set_title"];
      Simple 426 [] [call "frame_axes.get_xaxis"; call "frame_axes.get_xaxis().set_ticks"];
      Simple 427 [] [call "frame_axes.get_yaxis"; call "frame_axes.get_yaxis().set_ticks"];
      Simple 429 ["delta_mag"] [];
      Simple 432 [] [call "fig.add_subplot"];
      Simple 433 [] [call "plt.hist"];
      Simple 434 [] [call_on "plt.xlabel" "separation (marcsec)"];
      Simple 435 [] [call_on "plt.ylabel" "entries / bin"];
      Simple 438 [] [call "fig.add_subplot"];
      Simple 439 [] [call "plt.quiver"; call "np.degrees"; call "np.degrees"];
      Simple 442 [] [call_on "plt.xlabel" "RA (deg)"];
      Simple 443 [] [call_on "plt.ylabel" "Dec (deg)"];
      Simple 446 [] [call "fig.add_subplot"];
      Simple 447 [] [call "plt.errorbar"];
      Simple 448 [] [call "plt.xlabel"; call "str.format"];
      Simple 449 [] [call "plt.ylabel"; call "str.format"];
      Simple 452 [] [call "fig.add_subplot"];
      Simple 453 [] [call "plt.errorbar"];
      Simple 454 [] [call_on "plt.xlabel" "separation (mas)"];
      Simple 455 [] [call "plt.ylabel"; call "str.format"];
      Simple 457 [] [call "plt.tight_layout"] ];
    (* lines 475-476 *)
    [ For 475 ["item"] []
        [ Simple 476 [] [call "print"; call "str.format"; call "item.field.getName"; call "item.field.getDoc"] ] ];
    (* lines 485-486 *)
    [ For 485 ["item"] []
        [ Simple 486 [] [call "print"; call "str.format"; call "item.field.getName"; call "item.field.getDoc"] ] ];
    (* lines 495-497 *)
    [ For 496 ["item"] []
        [ Simple 497 [] [call "print"; call "str.format"; call "item.field.getName"; call "item.field.getDoc"] ] ];
    (* lines 506-508 *)
    [ Simple 508 [] [call "gc.list_all_quantities"] ] ] |}.

Definition truth_catalog : notebook :=
  {| file := "Notebooks/LSST_Stack_matching_code.ipynb";
     first_line := 534;
     cells := [
    (* lines 559-567 *)
    [ Import 561 "healpy" ["healpy"];
      Import 562 "numpy" ["np"];
      Import 563 "GCRCatalogs" ["GCRCatalogs"];
      Import 564 "lsst.sims.utils" ["angularSeparation"];
      Import 565 "matplotlib" ["matplotlib"];
      Import 567 "matplotlib.pyplot" ["plt"] ];
    (* lines 583-583 *)
    [ Simple 583 ["truth_catalog"] [call_on "GCRCatalogs.load_catalog" "dc2_truth_run1.1"] ];
    (* lines 599-599 *)
    [ Simple 599 [] [call "truth_catalog.list_all_quantities"] ];
    (* lines 615-619 *)
    [ For 615 ["qty"] []
        [ Simple 618 ["info_dict"] [call "truth_catalog.get_quantity_info"];
          Simple 619 [] [call "print"] ] ];
    (* lines 639-656 *)
    [ Simple 639 ["center_ra"] [];
      Simple 640 ["center_dec"] [];
      Simple 641 ["radius"] [];
      Simple 643 ["center_ra_rad"] [call "np.radians"];
      Simple 644 ["center_dec_rad"] [call "np.radians"];
      Simple 646 ["center_vec"] [call "np.array"; call "np.cos"; call "np.cos"; call "np.cos"; call "np.sin"; call "np.sin"];
      Simple 650 ["list_of_healpix"] [call "healpy.query_disc"; call "np.radians"];
      Def 652 "filter_on_healpix" ["hp"]
        [ Return 653 [call "np.array"] ];
      Def 655 "filter_on_dist" ["ra"; "dec"]
        [ Return 656 [call "angularSeparation"] ] ];
    (* lines 676-682 *)
    [ Simple 676 ["bright_stars"] [call "truth_catalog.get_quantities"; call "list_of_healpix.max"; call "list_of_healpix.min"] ];
    (* lines 691-691 *)
    [ Simple 691 [] [call "plt.scatter"] ];
    (* lines 709-715 *)
    [ Simple 709 ["bright_unsprinkled_galaxies"] [call "truth_catalog.get_quantities"; call "list_of_healpix.max"; call "list_of_healpix.min"] ];
    (* lines 724-724 *)
    [ Simple 724 [] [call "plt.scatter"] ];
    (* lines 733-733 *)
    [ Simple 733 [] [call "print"; call "bright_unsprinkled_galaxies[].min"] ] ] |}.

Definition cluster_members : notebook :=
  {| file := "unnamed/part_000";
     first_line := 1;
     cells := [
    (* lines 36-41 *)
    [ Import 36 "GCRCatalogs" ["GCRCatalogs"];
      Import 37 "numpy" ["np"];
      Import 38 "astropy.table" ["Table"];
      Import 39 "GCR" ["GCRQuery"];
      Import 40 "matplotlib.pyplot" ["plt"] ];
    (* lines 63-63 *)
    [ Simple 63 ["gc"] [call_on "GCRCatalogs.load_catalog" "protoDC2_test"] ];
    (* lines 72-74 *)
    [ Simple 72 ["galaxy_data"] [call "gc.get_quantities"];
      Simple 73 ["cluster_data"] [call "gc.get_quantities"] ];
    (* lines 95-113 *)
    [ Simple 95 ["cluster_data"] [call "Table"];
      For 96 ["i"; "cluster"] [call "enumerate"]
        [ If 97 []
            [ Break 98 ]
            [];
          Simple 99 ["members"] [call "GCRQuery"; call "str.format"; call "GCRQuery().filter"];
          Simple 100 [] [call "plt.figure"];
          Simple 101 [] [call "plt.scatter"; call "str.format"; call "len"];
          Simple 107 [] [call "plt.plot"];
          Simple 108 [] [call "plt.legend"];
          Simple 109 [] [call_on "plt.xlabel" "ra [deg]"];
          Simple 110 [] [call_on "plt.ylabel" "dec [deg]"];
          Simple 111 [] [call "plt.title"; call "str.format"] ];
      Simple 113 [] [call "plt.show"] ];
    (* lines 132-134 *)
    [ Simple 132 ["galaxy_data"] [call "gc.get_quantities"];
      Simple 133 ["cluster_data"] [call "gc.get_quantities"] ];
    (* lines 143-162 *)
    [ Simple 143 ["cluster_data"] [call "Table"];
      For 144 ["i"; "cluster"] [call "enumerate"]
        [ If 145 []
            [ Break 146 ]
            [];
          Simple 147 ["members"] [call "GCRQuery"; call "str.format"; call "GCRQuery().filter"];
          Simple 148 [] [call "plt.figure"];
          Simple 149 [] [call "plt.scatter"; call "str.format"; call "len"];
          Simple 156 [] [call "plt.plot"];
          Simple 157 [] [call "plt.legend"];
          Simple 158 [] [call_on "plt.xlabel" "x [Mpc/h]"];
          Simple 159 [] [call_on "plt.ylabel" "y [Mpc/h]"];
          Simple 160 [] [call "plt.title"; call "str.format"];
          Simple 161 [] [call "plt.colorbar"] ];
      Simple 162 [] [call "plt.show"] ] ] |}.

Definition truth_coadd_matching : notebook :=
  {| file := "unnamed/part_001";
     first_line := 1;
     cells := [
    (* lines 31-33 *)
    [ Import 31 "numpy" ["np"];
      Import 32 "matplotlib.pyplot" ["plt"] ];
    (* lines 42-44 *)
    [ Import 42 "astropy.coordinates" ["SkyCoord"];
      Import 43 "FoFCatalogMatching" ["FoFCatalogMatching"];
      Import 44 "GCRCatalogs" ["GCRCatalogs"] ];
    (* lines 53-54 *)
    [ Simple 54 ["coadd_cat"] [call_on "GCRCatalogs.load_catalog" "dc2_coadd_run1.1p_tract4850"] ];
    (* lines 63-75 *)
    [ For 71 ["coadd_data"] [call "coadd_cat.get_quantities"]
        [ Simple 72 [] [call "plt.scatter"] ];
      Simple 74 [] [call_on "plt.xlabel" "RA"];
      Simple 75 [] [call_on "plt.ylabel" "Dec"] ];
    (* lines 86-95 *)
    [ Simple 87 ["ra_min"; "ra_max"] [];
      Simple 88 ["dec_min"; "dec_max"] [];
      Simple 90 ["coord_filters"] [call "str.format"; call "str.format"; call "str.format"; call "str.format"] ];
    (* lines 104-108 *)
    [ Simple 105 ["mag_filters"] [] ];
    (* lines 117-118 *)
    [ Simple 118 [] [call_on "coadd_cat.add_derived_quantity" "shape_hsm_regauss_etot"] ];
    (* lines 127-128 *)
    [ Simple 128 ["coadd_data"] [call "coadd_cat.get_quantities"] ];
    (* lines 139-140 *)
    [ Simple 140 ["truth_cat"] [call_on "GCRCatalogs.load_catalog" "dc2_truth_run1.1"] ];
    (* lines 149-153 *)
    [ Simple 151 [] [call "print"; call "sorted"; call "truth_cat.list_all_quantities"];
      Simple 152 [] [call_on "print" "---"];
      Simple 153 [] [call "print"; call "sorted"; call "truth_cat.list_all_native_quantities"] ];
    (* lines 162-163 *)
    [ Simple 163 [] [call_on "truth_cat.get_quantity_modifier" "mag_true_i"] ];
    (* lines 172-173 *)
    [ Simple 173 [] [call_on "truth_cat.add_quantity_modifier" "mag_i"] ];
    (* lines 184-189 *)
    [ Simple 186 ["truth_native_filters"] [];
      Simple 187 ["truth_data"] [call "truth_cat.get_quantities"] ];
    (* lines 198-208 *)
    [ Simple 204 ["results"] [call "FoFCatalogMatching.match"; call "len"] ];
    (* lines 217-218 *)
    [ Simple 218 [] [] ];
    (* lines 227-247 *)
    [ Simple 231 ["truth_mask"] [];
      Simple 232 ["coadd_mask"] [];
      Simple 235 ["n_groups"] [call "results[].max"];
      Simple 236 ["n_truth"] [call "np.bincount"];
      Simple 237 ["n_coadd"] [call "np.bincount"];
      Simple 241 ["n_max"] [call "max"; call "n_truth.max"; call "n_coadd.max"];
      Simple 242 ["hist_2d"] [call "np.bincount"; call "np.bincount().reshape"];
      Simple 244 [] [call "plt.imshow"; call "np.log10"];
      Simple 245 [] [call_on "plt.xlabel" "Number of truth objects"];
      Simple 246 [] [call_on "plt.ylabel" "Number of coadd objects"];
      Simple 247 [] [call "plt.colorbar"] ];
    (* lines 256-263 *)
    [ Simple 259 ["one_to_one_group_mask"] [call "np.in1d"; call "np.flatnonzero"];
      Simple 262 ["truth_idx"] [];
      Simple 263 ["coadd_idx"] [] ];
    (* lines 272-277 *)
    [ Simple 272 ["truth_sc"] [call "SkyCoord"];
      Simple 273 ["coadd_sc"] [call "SkyCoord"];
      Simple 275 ["delta_ra"] [call "np.cos"; call "np.deg2rad"];
      Simple 276 ["delta_dec"] [];
      Simple 277 ["delta_arcsec"] [call "coadd_sc.separation"] ];
    (* lines 286-293 *)
    [ Simple 286 [] [call "plt.figure"];
      Simple 287 [] [call "plt.hist2d"];
      Simple 288 [] [call "plt.xlabel"];
      Simple 289 [] [call "plt.ylabel"];
      Simple 290 [] [call "plt.colorbar"];
      Simple 291 [] [call "plt.xlim"];
      Simple 292 [] [call "plt.ylim"];
      Simple 293 [] [call_on "plt.axis" "equal"] ];
    (* lines 302-305 *)
    [ Simple 303 [] [call "plt.hist"];
      Simple 304 [] [call "plt.xlim"];
      Simple 305 [] [call "plt.xlabel"] ];
    (* lines 325-325 *)
    [ Import 325 "pandas" ["pd"] ];
    (* lines 334-337 *)
    [ Simple 335 ["truth_matched"] [call "pd.DataFrame"; call "pd.DataFrame().iloc[].reset_index"];
      Simple 336 ["coadd_matched"] [call "pd.DataFrame"; call "pd.DataFrame().iloc[].reset_index"];
      Simple 337 ["matched"] [call "pd.merge"] ];
    (* lines 346-348 *)
    [ Simple 348 ["matched_gals"] [call_on "matched.query" "~star"; call_on "matched.query().query" "~sprinkled"] ];
    (* lines 357-358 *)
    [ Simple 358 ["extragalactic_cat"] [call_on "GCRCatalogs.load_catalog" "proto-dc2_v2.1.2_test"] ];
    (* lines 367-371 *)
    [ Simple 368 ["extragalactic_data"] [call "extragalactic_cat.get_quantities"; call "np.in1d"] ];
    (* lines 380-381 *)
    [ Simple 381 ["matched_gals"] [call "pd.merge"; call "pd.DataFrame"] ];
    (* lines 390-390 *)
    [ Simple 390 [] [call "np.testing.assert_array_equal"] ];
    (* lines 399-400 *)
    [ Simple 400 [] [] ];
    (* lines 409-417 *)
    [ Simple 410 [] [call "plt.figure"];
      Simple 411 [] [call "plt.scatter"];
      Simple 412 ["lims"] [];
      Simple 413 [] [call "plt.plot"];
      Simple 414 [] [call_on "plt.xlabel" "$i$ coadd"];
      Simple 415 [] [call_on "plt.ylabel" "$i$ extragalactic"];
      Simple 416 [] [call "plt.xlim"];
      Simple 417 [] [call "plt.ylim"] ];
    (* lines 426-434 *)
    [ Simple 427 [] [call "plt.figure"];
      Simple 428 [] [call "plt.scatter"];
      Simple 429 ["lims"] [];
      Simple 430 [] [call "plt.plot"];
      Simple 431 [] [call_on "plt.xlabel" "ellipticity coadd"];
      Simple 432 [] [call_on "plt.ylabel" "ellipticity extragalactic"];
      Simple 433 [] [call "plt.xlim"];
      Simple 434 [] [call "plt.ylim"] ] ] |}.

Definition coadd_catalogs : notebook :=
  {| file := "unnamed/part_001";
     first_line := 467;
     cells := [
    (* lines 504-511 *)
    [ Import 504 "os" ["os"];
      Import 506 "numpy" ["np"];
      Import 509 "matplotlib.pyplot" ["plt"];
      Import 511 "pandas" ["pd"] ];
    (* lines 520-524 *)
    [ Simple 521 ["plt.rcParams[]"] [];
      Simple 524 ["cmap"] [] ];
    (* lines 537-537 *)
    [ Simple 537 ["merged_tract_data_dir"] [] ];
    (* lines 550-552 *)
    [ Simple 550 ["tract"; "patch"] [];
      Simple 551 ["basename"] [];
      Simple 552 ["key"] [] ];
    (* lines 565-565 *)
    [ Simple 565 ["merged_tract_file"] [call "os.path.join"] ];
    (* lines 578-578 *)
    [ Simple 578 ["df"] [call "pd.read_hdf"] ];
    (* lines 591-591 *)
    [ Simple 591 [] [call "print"; call "len"] ];
    (* lines 604-609 *)
    [ Simple 604 [] [call "plt.figure"];
      Simple 605 [] [call "plt.scatter"];
      Simple 606 [] [call "plt.xlim"];
      Simple 607 [] [call "plt.ylim"];
      Simple 608 [] [call_on "plt.xlabel" "g-r"];
      Simple 609 [] [call_on "plt.ylabel" "r-i"] ];
    (* lines 638-666 *)
    [ Def 638 "simple_stellar_locus_gmr_rmi" ["color"; "linestyle"; "linewidth"]
        [ Simple 639 [] [];
          Simple 643 ["m_stars_gmr"] [];
          Simple 644 ["m_stars_rmi"] [];
          Simple 646 ["other_stars_gmr"] [];
          Simple 647 ["other_stars_rmi"] [];
          Simple 649 ["model_gmr"] [];
          Simple 650 ["model_rmi"] [];
          Return 652 [] ];
      Def 655 "get_stellar_locus_davenport" ["color1"; "color2"; "datafile"]
        [ Simple 657 ["data"] [call "pd.read_table"];
          Return 658 [] ];
      Def 661 "plot_stellar_locus" ["color1"; "color2"; "color"; "linestyle"; "linewidth"]
        [ Simple 663 ["model_gmr"; "model_rmi"] [call "get_stellar_locus_davenport"];
          Simple 664 ["plot_kwargs"] [];
          Simple 666 [] [call "plt.plot"] ] ];
    (* lines 677-696 *)
    [ Def 677 "plot_color_color" ["z"; "color1"; "color2"; "range1"; "range2"; "bins"]
        [ Simple 678 [] [];
          Simple 679 ["band1"; "band2"] [];
          Simple 680 ["band3"; "band4"] [];
          Simple 681 ["H"; "xedges"; "yedges"] [call "np.histogram2d"];
          Simple 686 ["zi"] [];
          Simple 687 ["xi"] [];
          Simple 688 ["yi"] [];
          Simple 690 [] [call "plt.figure"];
          Simple 691 [] [call "plt.pcolormesh"];
          Simple 692 [] [call "plt.contour"];
          Simple 693 [] [call "plt.xlabel"];
          Simple 694 [] [call "plt.ylabel"];
          Simple 696 [] [call "plot_stellar_locus"] ] ];
    (* lines 710-717 *)
    [ Simple 710 [] [call "plt.figure"];
      Simple 711 [] [call "plt.hist2d"];
      Simple 713 [] [call "plt.colorbar"];
      Simple 714 [] [call_on "plt.xlabel" "g-r"];
      Simple 715 [] [call_on "plt.ylabel" "r-i"];
      Simple 717 [] [call_on "plot_stellar_locus" "gmr"] ];
    (* lines 737-739 *)
    [ Simple 737 ["snr_threshold"] [];
      Simple 738 ["mag_err_threshold"] [];
      Simple 739 ["good_snr"] [] ];
    (* lines 748-750 *)
    [ Simple 748 ["bright_snr_threshold"] [];
      Simple 749 ["mag_err_threshold"] [];
      Simple 750 ["bright_stars"] [] ];
    (* lines 763-765 *)
    [ Simple 763 ["safe_max_extended"] [];
      Simple 764 ["stars"] [];
      Simple 765 ["galaxies"] [] ];
    (* lines 774-775 *)
    [ Simple 774 [] [call "print"; call "len"];
      Simple 775 [] [call "print"; call "len"] ];
    (* lines 789-801 *)
    [ Simple 789 ["hist_kwargs"] [call "np.linspace"];
      Simple 794 [] [call "plt.hist"];
      Simple 795 [] [call "plt.hist"];
      Simple 797 [] [call "plt.hist"];
      Simple 798 [] [call "plt.hist"];
      Simple 799 [] [call_on "plt.xlabel" "g-r"];
      Simple 800 [] [call_on "plt.ylabel" "# / 0.5 mag bin"];
      Simple 801 [] [call "plt.legend"] ];
    (* lines 815-815 *)
    [ Simple 815 [] [call "plot_color_color"] ];
    (* lines 824-824 *)
    [ Simple 824 [] [call "plot_color_color"] ];
    (* lines 833-840 *)
    [ Simple 833 [] [call "plt.scatter"];
      Simple 834 [] [call_on "plt.xlabel" "r"];
      Simple 835 [] [call_on "plt.ylabel" "1/r_err"];
      Simple 836 [] [call "plt.axhline"];
      Simple 837 [] [call "plt.axhline"];
      Simple 838 [] [call "plt.legend"];
      Simple 839 [] [call "plt.xlim"] ];
    (* lines 849-849 *)
    [ Simple 849 [] [call "plot_color_color"] ];
    (* lines 865-870 *)
    [ Simple 865 ["z"] [];
      Simple 866 [] [call "plt.scatter"];
      Simple 867 [] [call_on "plt.xlabel" "g-r"];
      Simple 868 [] [call_on "plt.ylabel" "g"];
      Simple 869 [] [call "plt.xlim"];
      Simple 870 [] [call "plt.ylim"] ];
    (* lines 879-890 *)
    [ Simple 879 ["z"] [];
      Simple 880 ["H"; "xedges"; "yedges"] [call "np.histogram2d"];
      Simple 882 ["zi"] [];
      Simple 883 ["xi"] [];
      Simple 884 ["yi"] [];
      Simple 886 [] [call "plt.pcolormesh"];
      Simple 887 [] [call "plt.contour"];
      Simple 888 [] [call_on "plt.xlabel" "g-r"];
      Simple 889 [] [call_on "plt.ylabel" "g"];
      Simple 890 [] [call "plt.ylim"] ] ] |}.

(** The five notebooks under [src/]. *)
Definition repository : list notebook :=
  [stack_matching; truth_catalog; cluster_members; truth_coadd_matching; coadd_catalogs].

(** *** Reading a notebook *)

Definition line (s : stmt) : nat :=
  match s with
  | Import l _ _ | Simple l _ _ | Return l _ | Pass l | Break l | Raise l _
  | Assert l _ | For l _ _ _ | If l _ _ _ | With l _ _ | Try l _ _ _
  | Def l _ _ _ | Class l _ _ _ => l
  end.

Definition own_calls (s : stmt) : list Call :=
  match s with
  | Simple _ _ c | Return _ c | Raise _ c | Assert _ c | For _ _ c _ | If _ c _ _
  | With _ c _ => c
  | _ => []
  end.

Definition own_targets (s : stmt) : list string :=
  match s with
  | Simple _ t _ | For _ t _ _ => t
  | _ => []
  end.

(** A statement and every statement inside it, in source order. *)
Fixpoint statements (s : stmt) : list stmt :=
  s :: match s with
       | For _ _ _ b | With _ _ b | Def _ _ _ b | Class _ _ _ b =>
         flat_map statements b
       | If _ _ b e => (flat_map statements b ++ flat_map statements e)%list
       | Try _ b h f =>
         (flat_map statements b
            ++ match h with Some h => flat_map statements h | None => [] end
            ++ flat_map statements f)%list
       | _ => []
       end.

Definition all_statements (nb : notebook) : list stmt :=
  flat_map statements (concat (cells nb)).

(** One call of a notebook: the line of its statement, what that statement
    binds, and the call. *)
Record step : Type := { at_line : nat; binds : list string; makes : Call }.

Definition steps (nb : notebook) : list step :=
  flat_map (fun s => map (fun c => {| at_line := line s; binds := own_targets s;
                                      makes := c |}) (own_calls s))
           (all_statements nb).



End Syntax.

(** ** What the notebooks call, load, assert and keep *)
Module Inventory.

Import Syntax.

(** [s] ends with [suffix]. *)
Definition ends_with (suffix s : string) : bool :=
  let n := String.length s in
  let k := String.length suffix in
  Nat.leb k n && String.eqb (substring (n - k) k s) suffix.

(** *** The heavy operations and where they are implemented *)

Inductive operation : Type :=
| PositionalMatching
| FoFGrouping
| CoordinateTransform.

(** The calls that match positions, group friends of friends or transform
    coordinates, each with the imported name its implementation is reached
    through:
    - [afw_table.matchRaDec] (Stack notebook, line 384) through [afw_table];
    - [FoFCatalogMatching.match] (matching notebook, line 204) through
      [FoFCatalogMatching];
    - [self.field_rotator.transform] (Stack notebook, line 173), a method of
      the class attribute [field_rotator = FieldRotator(...)] of line 114,
      through [FieldRotator];
    - [wcs.pixelToSky] (Stack notebook, line 138), a method of the WCS of an
      exposure or of a tract that the butler of line 242, [dp.Butler(repo)],
      handed out (lines 210-211 and 219-222), through [dp]. *)
Definition heavy_operation (callee : string) : option (operation * string) :=
  if String.eqb callee "afw_table.matchRaDec" then Some (PositionalMatching, "afw_table")
  else if String.eqb callee "FoFCatalogMatching.match"
       then Some (FoFGrouping, "FoFCatalogMatching")
  else if String.eqb callee "self.field_rotator.transform"
       then Some (CoordinateTransform, "FieldRotator")
  else if String.eqb callee "wcs.pixelToSky" then Some (CoordinateTransform, "dp")
  else None.







(** *** How catalog data is obtained *)

Inductive mechanism : Type :=
| Reader    (* the generic catalog reader: load_catalog, get_quantities *)
| Butler    (* the Stack's data butler: butler.get *)
| Pandas.   (* pandas file readers: read_hdf, read_table *)

Definition mechanism_eqb (a b : mechanism) : bool :=
  match a, b with
  | Reader, Reader | Butler, Butler | Pandas, Pandas => true
  | _, _ => false
  end.

Definition loading (callee : string) : option mechanism :=
  if String.eqb callee "GCRCatalogs.load_catalog" || ends_with ".get_quantities" callee
  then Some Reader
  else if String.eqb callee "butler.get" then Some Butler
  else if String.eqb callee "pd.read_hdf" || String.eqb callee "pd.read_table"
       then Some Pandas
  else None.

(** The loading calls of a notebook, in source order. *)
Definition loads (nb : notebook) : list (nat * string * mechanism) :=
  flat_map (fun st => match loading (callee (makes st)) with
                      | Some m => [(at_line st, callee (makes st), m)]
                      | None => []
                      end) (steps nb).

(** Every loading call of the notebook goes through the reader. *)
Definition only_reader (nb : notebook) : bool :=
  forallb (fun l => mechanism_eqb (snd l) Reader) (loads nb).

(** A matching or plotting call. *)
Definition uses_data (callee : string) : bool :=
  String.prefix "plt." callee
  || match heavy_operation callee with
     | Some (PositionalMatching, _) | Some (FoFGrouping, _) => true
     | _ => false
     end.

(** Load, then match and plot: no loading call comes after a matching or
    plotting call. [used] tells whether one was met already. *)
Fixpoint loads_first (used : bool) (todo : list step) : bool :=
  match todo with
  | [] => true
  | st :: rest =>
    match loading (callee (makes st)) with
    | Some _ => negb used && loads_first used rest
    | None => loads_first (used || uses_data (callee (makes st))) rest
    end
  end.

(** [name.get_quantities] is called only after [name =
    GCRCatalogs.load_catalog(...)], and matching and plotting calls only
    after some [get_quantities]. [loaded] are the names bound to a loaded
    catalog so far, [read] tells whether a [get_quantities] was met. *)
Fixpoint reads_in_order (loaded : list string) (read : bool) (todo : list step) : bool :=
  match todo with
  | [] => true
  | st :: rest =>
    let c := callee (makes st) in
    if String.eqb c "GCRCatalogs.load_catalog"
    then reads_in_order (binds st ++ loaded)%list read rest
    else if ends_with ".get_quantities" c
    then existsb (fun name => String.eqb c (name ++ ".get_quantities")) loaded
         && reads_in_order loaded true rest
    else if uses_data c then read && reads_in_order loaded read rest
    else reads_in_order loaded read rest
  end.

(** *** Assertions *)

(** A statement that checks a relation of its data and raises when it does
    not hold: an [assert], or a call of one of numpy's [np.testing.assert_*]. *)
Definition asserts (s : stmt) : bool :=
  match s with
  | Assert _ _ => true
  | _ => existsb (fun c => String.prefix "np.testing.assert" (callee c)) (own_calls s)
  end.

Definition assertions (nb : notebook) : list stmt :=
  filter asserts (all_statements nb).

(** *** Classes and their state *)




(** *** Constructs that deal with errors *)




(** A context manager that swallows the exceptions of its block. *)
Definition suppressing (calls : list Call) : bool :=
  existsb (fun c => String.eqb (callee c) "contextlib.suppress"
                    || String.eqb (callee c) "suppress") calls.



(** *** Sentences of the specification about the notebooks as a whole, as it
        states them *)


(** "Every notebook loads its catalogs through the generic catalog-reader
    API, then applies row filters, then performs matching and/or plotting, in
    that order; no notebook obtains its catalog data by any other loading
    mechanism." *)
Definition reader_then_use : Prop :=
  forall nb, In nb repository ->
    only_reader nb = true /\ loads_first false (steps nb) = true.

(** "No operation in any notebook asserts or enforces a deterministic
    relation that must hold of the data it has computed." *)
Definition nothing_asserted : Prop :=
  forall nb, In nb repository -> assertions nb = [].





End Inventory.

(** ** Running a block of statements *)
Module Run.

Import Syntax.

Section Exec.

(** Exceptions are opaque values. *)
Variable exn : Type.

(** The lines of the statements run so far, the latest first. *)
Definition trace : Type := list nat.

(** What the world outside the notebook decides, given what has run so far:
    whether the library calls of the statement at a line raise, the exception
    a [raise] statement at a line raises, how many items the loop at a line
    gets, and which way the test at a line goes. *)
Record world : Type := {
  raises : trace -> nat -> option exn;
  thrown : trace -> nat -> exn;
  iterations : trace -> nat -> nat;
  branch : trace -> nat -> bool
}.

Inductive signal : Type :=
| Next
| Broke
| Returned
| Raised (line : nat) (e : exn).

Variable w : world.

(** Run the expressions of the statement at line [l], then go on with [k]
    unless they raised. *)
Definition evaluate (l : nat) (t : trace) (k : trace -> trace * signal)
  : trace * signal :=
  match raises w t l with
  | Some e => (l :: t, Raised l e)
  | None => k (l :: t)
  end.

(** One statement. A function definition binds its name and runs nothing of
    its body; a class definition runs its body; a loop evaluates its iterable,
    then fetches each item (at the line of the loop) and runs its body; a
    [with] block lets the exceptions of its body through unless its context
    manager swallows them; a [try] with handlers catches them. *)
Fixpoint exec (s : stmt) (t : trace) {struct s} : trace * signal :=
  let block :=
    fix block (b : list stmt) (t : trace) {struct b} : trace * signal :=
      match b with
      | [] => (t, Next)
      | s' :: rest =>
        match exec s' t with
        | (t', Next) => block rest t'
        | stop => stop
        end
      end in
  match s with
  | Import l _ _ | Simple l _ _ | Pass l | Assert l _ =>
    evaluate l t (fun t => (t, Next))
  | Return l _ => evaluate l t (fun t => (t, Returned))
  | Break l => (l :: t, Broke)
  | Raise l _ => evaluate l t (fun t => (t, Raised l (thrown w t l)))
  | Def l _ _ _ => (l :: t, Next)
  | Class l _ _ body => evaluate l t (block body)
  | If l _ body orelse =>
    evaluate l t (fun t' => if branch w t l then block body t' else block orelse t')
  | For l _ _ body =>
    evaluate l t
      ((fix loop (n : nat) (t : trace) {struct n} : trace * signal :=
          match n with
          | O => (t, Next)
          | S n' =>
            evaluate l t
              (fun t => match block body t with
                        | (t', Next) => loop n' t'
                        | (t', Broke) => (t', Next)
                        | stop => stop
                        end)
          end) (iterations w t l))
  | With l calls body =>
    evaluate l t
      (fun t => match block body t with
                | (t', Raised l' e) =>
                  if Inventory.suppressing calls then (t', Next) else (t', Raised l' e)
                | other => other
                end)
  | Try l body handlers finalbody =>
    let attempt :=
      match block body (l :: t) with
      | (t', Raised l' e) =>
        match handlers with
        | Some handler => block handler t'
        | None => (t', Raised l' e)
        end
      | other => other
      end in
    match block finalbody (fst attempt) with
    | (t', Next) => (t', snd attempt)
    | stop => stop
    end
  end.

(** A block runs its statements in order and stops at the first that does
    not fall through. *)
Fixpoint run (b : list stmt) (t : trace) : trace * signal :=
  match b with
  | [] => (t, Next)
  | s :: rest =>
    match exec s t with
    | (t', Next) => run rest t'
    | stop => stop
    end
  end.


End Exec.

End Run.

(** ** Concrete inputs on which the notebooks' code is evaluated *)
Module Examples.

(** A bright point source, a fainter extended one, and a noisy one. *)
Definition bright_row : CoaddCatalogs.Row :=
  {| CoaddCatalogs.index := 0; CoaddCatalogs.g_mag := 18.5;
     CoaddCatalogs.r_mag := 18.0; CoaddCatalogs.i_mag := 17.75;
     CoaddCatalogs.g_mag_err := 0.005; CoaddCatalogs.r_mag_err := 0.004;
     CoaddCatalogs.base_ClassificationExtendedness_value := 0 |}.

Definition data_frame : CoaddCatalogs.DataFrame :=
  [ bright_row;
    {| CoaddCatalogs.index := 1; CoaddCatalogs.g_mag := 23.5;
       CoaddCatalogs.r_mag := 23.0; CoaddCatalogs.i_mag := 22.5;
       CoaddCatalogs.g_mag_err := 0.03; CoaddCatalogs.r_mag_err := 0.02;
       CoaddCatalogs.base_ClassificationExtendedness_value := 1 |};
    {| CoaddCatalogs.index := 2; CoaddCatalogs.g_mag := 25.5;
       CoaddCatalogs.r_mag := 25.0; CoaddCatalogs.i_mag := 24.5;
       CoaddCatalogs.g_mag_err := 0.25; CoaddCatalogs.r_mag_err := 0.125;
       CoaddCatalogs.base_ClassificationExtendedness_value := 1 |} ].

(** Three groups: one truth and one coadd object, two truth objects, one
    coadd object. *)
Definition match_table : list TruthCoaddMatching.ResultRow :=
  [ {| TruthCoaddMatching.row_index := 0; TruthCoaddMatching.catalog_key := "truth";
       TruthCoaddMatching.group_id := 0 |};
    {| TruthCoaddMatching.row_index := 0; TruthCoaddMatching.catalog_key := "coadd";
       TruthCoaddMatching.group_id := 0 |};
    {| TruthCoaddMatching.row_index := 1; TruthCoaddMatching.catalog_key := "truth";
       TruthCoaddMatching.group_id := 1 |};
    {| TruthCoaddMatching.row_index := 2; TruthCoaddMatching.catalog_key := "truth";
       TruthCoaddMatching.group_id := 1 |};
    {| TruthCoaddMatching.row_index := 1; TruthCoaddMatching.catalog_key := "coadd";
       TruthCoaddMatching.group_id := 2 |} ].

(** The four fields of the Stack's minimal source schema. *)
Definition minimal_schema : StackMatching.Schema :=
  [ {| StackMatching.name := "id"; StackMatching.type := StackMatching.TypeL;
       StackMatching.doc := "unique ID" |};
    {| StackMatching.name := "coord_ra"; StackMatching.type := StackMatching.TypeAngle;
       StackMatching.doc := "position in ra/dec" |};
    {| StackMatching.name := "coord_dec"; StackMatching.type := StackMatching.TypeAngle;
       StackMatching.doc := "position in ra/dec" |};
    {| StackMatching.name := "parent"; StackMatching.type := StackMatching.TypeL;
       StackMatching.doc := "unique ID of parent source" |} ].

(** A stand-in for the field rotation: a shift by one degree each way. *)
Definition shift (ra dec : float) : float * float := (ra + 1, dec - 1)%float.

Definition galaxies : list StackMatching.Galaxy :=
  [ {| StackMatching.galaxy_id := 10; StackMatching.ra_true := 54.0;
       StackMatching.dec_true := -27.0;
       StackMatching.magnitudes := [("mag_true_r_lsst", 22.5%float)] |};
    {| StackMatching.galaxy_id := 11; StackMatching.ra_true := 54.25;
       StackMatching.dec_true := -27.25;
       StackMatching.magnitudes := [("mag_true_r_lsst", 25.5%float)] |};
    {| StackMatching.galaxy_id := 13; StackMatching.ra_true := 54.5;
       StackMatching.dec_true := -27.5;
       StackMatching.magnitudes := [("mag_true_r_lsst", 20.5%float)] |} ].

Definition selector : StackMatching.RegionSelector :=
  {| StackMatching.ra_range := Some (54.5, 56)%float;
     StackMatching.dec_range := Some (-29, -28)%float |}.

(** A stand-in for the angular separation: the sum of the two coordinate
    differences. *)
Definition taxicab (ra dec ra2 dec2 : float) : float :=
  (abs (ra - ra2) + abs (dec - dec2))%float.

(** A world in which the catalog load of line 355 fails and nothing else
    does. *)
Definition load_fails : Run.world nat :=
  {| Run.raises := fun _ l => if Nat.eqb l 355 then Some 2 else None;
     Run.thrown := fun _ _ => 0;
     Run.iterations := fun _ _ => 1;
     Run.branch := fun _ _ => false |}.

(** A world in which the check of line 390 fails and nothing else does. *)
Definition check_fails : Run.world nat :=
  {| Run.raises := fun _ l => if Nat.eqb l 390 then Some 1 else None;
     Run.thrown := fun _ _ => 0;
     Run.iterations := fun _ _ => 1;
     Run.branch := fun _ _ => false |}.

(** A match table that is not sorted by group: two one-to-one groups, the
    truth rows in one order and the coadd rows in the other. *)
Definition unsorted_table : list TruthCoaddMatching.ResultRow :=
  [ {| TruthCoaddMatching.row_index := 0; TruthCoaddMatching.catalog_key := "truth";
       TruthCoaddMatching.group_id := 1 |};
    {| TruthCoaddMatching.row_index := 1; TruthCoaddMatching.catalog_key := "truth";
       TruthCoaddMatching.group_id := 0 |};
    {| TruthCoaddMatching.row_index := 0; TruthCoaddMatching.catalog_key := "coadd";
       TruthCoaddMatching.group_id := 0 |};
    {| TruthCoaddMatching.row_index := 1; TruthCoaddMatching.catalog_key := "coadd";
       TruthCoaddMatching.group_id := 1 |} ].

(** The rows of a truth and of a coadd catalog, by name. *)
Definition truth_rows : list string := ["t0"; "t1"; "t2"].
Definition coadd_rows : list string := ["c0"; "c1"].

(** The sky positions of the four corners of a region. *)
Definition corners : list (float * float) :=
  [(55.5, -28.5); (55.5, -28.25); (55.75, -28.25); (55.75, -28.5)]%float.

(** The galaxies above and one more, which the shift takes inside the
    region. *)
Definition field : list StackMatching.Galaxy :=
  (galaxies
     ++ [ {| StackMatching.galaxy_id := 17; StackMatching.ra_true := 54.625;
             StackMatching.dec_true := -27.375;
             StackMatching.magnitudes := [("mag_true_r_lsst", 22.5%float)] |} ])%list.

(** A selector one of whose bounds is NaN. *)
Definition nan_selector : StackMatching.RegionSelector :=
  {| StackMatching.ra_range := Some (nan, 56)%float;
     StackMatching.dec_range := Some (-29, -28)%float |}.

(** A stand-in for [calib.getMagnitude], which refuses a flux that is not
    positive. *)
Definition magnitude (flux : float) : option float :=
  if Py.gt flux 0 then Some (27 - flux)%float else None.

(** Four measured sources: a galaxy, a flagged one, one without flux, and a
    star. *)
Definition sources : list StackMatching.Source :=
  [ {| StackMatching.id_ := 1;
       StackMatching.coord_ra := {| StackMatching.value := 0.96;
                                    StackMatching.unit := StackMatching.degrees |};
       StackMatching.coord_dec := {| StackMatching.value := -0.49;
                                     StackMatching.unit := StackMatching.degrees |};
       StackMatching.parent := 0;
       StackMatching.base_ClassificationExtendedness_value := 1;
       StackMatching.model_flag := false; StackMatching.model_flux := 4.5;
       StackMatching.deblend_nChild := 0 |};
    {| StackMatching.id_ := 2;
       StackMatching.coord_ra := {| StackMatching.value := 0.97;
                                    StackMatching.unit := StackMatching.degrees |};
       StackMatching.coord_dec := {| StackMatching.value := -0.49;
                                     StackMatching.unit := StackMatching.degrees |};
       StackMatching.parent := 0;
       StackMatching.base_ClassificationExtendedness_value := 1;
       StackMatching.model_flag := true; StackMatching.model_flux := 5.5;
       StackMatching.deblend_nChild := 0 |};
    {| StackMatching.id_ := 3;
       StackMatching.coord_ra := {| StackMatching.value := 0.98;
                                    StackMatching.unit := StackMatching.degrees |};
       StackMatching.coord_dec := {| StackMatching.value := -0.49;
                                     StackMatching.unit := StackMatching.degrees |};
       StackMatching.parent := 1;
       StackMatching.base_ClassificationExtendedness_value := 1;
       StackMatching.model_flag := false; StackMatching.model_flux := -0.5;
       StackMatching.deblend_nChild := 0 |};
    {| StackMatching.id_ := 4;
       StackMatching.coord_ra := {| StackMatching.value := 0.99;
                                    StackMatching.unit := StackMatching.degrees |};
       StackMatching.coord_dec := {| StackMatching.value := -0.49;
                                     StackMatching.unit := StackMatching.degrees |};
       StackMatching.parent := 0;
       StackMatching.base_ClassificationExtendedness_value := 0;
       StackMatching.model_flag := false; StackMatching.model_flux := 6.5;
       StackMatching.deblend_nChild := 0 |} ].

(** Stand-ins for [float(angle)] and [np.degrees]. *)
Definition radians (a : StackMatching.Angle) : float :=
  (StackMatching.value a * 0.017453292519943295)%float.

Definition to_degrees (x : float) : float := (x * 57.29577951308232)%float.

(** The records of the two catalogs built from the example sources and the
    example field, and a list of matches that pairs them in order. *)
Definition drp_records : list StackMatching.SourceRecord :=
  match StackMatching.drp_catalog minimal_schema magnitude sources "r" 24.5 with
  | Some drp => StackMatching.records drp
  | None => []
  end.

Definition galaxy_records : list StackMatching.SourceRecord :=
  match StackMatching.__call__ minimal_schema shift selector field "r" 24.5 with
  | Some galaxy_catalog => StackMatching.records galaxy_catalog
  | None => []
  end.

Definition matches : list StackMatching.Match :=
  map (fun p => {| StackMatching.first := fst p; StackMatching.second := snd p;
                   StackMatching.distance := 2e-7 |})
      (combine drp_records galaxy_records).

End Examples.

(* ===================================================================== *)
(** * Part II: lemmas and theorems *)
(* ===================================================================== *)

(** ** The order of binary64 numbers *)

Lemma SFcompare_Lt_trans (a b c : spec_float) :
  SFcompare a b = Some Lt -> SFcompare b c = Some Lt -> SFcompare a c = Some Lt.
Proof.
  destruct a as [sa|sa| |sa ma ea], b as [sb|sb| |sb mb eb], c as [sc|sc| |sc mc ec];
    simpl; try congruence;
    repeat match goal with s : bool |- _ => destruct s end; simpl; try congruence.
  all: rewrite ?Pos.compare_cont_spec; simpl.
  all: destruct (Z.compare_spec ea eb), (Z.compare_spec eb ec), (Z.compare_spec ea ec);
    simpl; try congruence; try lia; subst.
  all: destruct (Pos.compare_spec ma mb), (Pos.compare_spec mb mc), (Pos.compare_spec ma mc);
    simpl; try congruence; try lia.
Qed.

Lemma lt_compare (x y : float) :
  Py.lt x y = true <-> SFcompare (Prim2SF x) (Prim2SF y) = Some Lt.
Proof.
  unfold Py.lt. rewrite FloatAxioms.ltb_spec. unfold SFltb.
  destruct (SFcompare _ _) as [[]|]; split; intro H; congruence.
Qed.

Lemma lt_trans (x y z : float) :
  Py.lt x y = true -> Py.lt y z = true -> Py.lt x z = true.
Proof. rewrite !lt_compare. apply SFcompare_Lt_trans. Qed.



Lemma SFcompare_total (a b : spec_float) :
  SFcompare a a = Some Eq -> SFcompare b b = Some Eq -> SFcompare a b <> None.
Proof. destruct a, b; simpl; congruence. Qed.

Lemma SFcompare_Gt_Lt (a b : spec_float) :
  SFcompare a b = Some Gt -> SFcompare b a = Some Lt.
Proof. destruct a as [sa|sa| |sa ma ea], b as [sb|sb| |sb mb eb]; sf_solve. Qed.

Lemma SFcompare_Eq_sym (a b : spec_float) :
  SFcompare a b = Some Eq -> SFcompare b a = Some Eq.
Proof. destruct a as [sa|sa| |sa ma ea], b as [sb|sb| |sb mb eb]; sf_solve. Qed.


Lemma le_compare (x y : float) :
  Py.le x y = true <-> SFle (Prim2SF x) (Prim2SF y).
Proof.
  unfold Py.le, SFle. rewrite FloatAxioms.leb_spec. unfold SFleb.
  destruct (SFcompare _ _) as [[]|]; split; intro H;
    try congruence; try (now left); try (now right); destruct H; congruence.
Qed.

Lemma is_nan_compare (x : float) :
  Py.is_nan x = false <-> SFcompare (Prim2SF x) (Prim2SF x) = Some Eq.
Proof.
  unfold Py.is_nan. rewrite FloatAxioms.eqb_spec. unfold SFeqb.
  destruct (SFcompare _ _) as [[]|]; simpl; split; intro H; congruence.
Qed.




(** Two numbers, neither of them NaN, are comparable. *)
Lemma not_lt_le (x y : float) :
  Py.is_nan x = false -> Py.is_nan y = false -> Py.lt y x = false -> Py.le x y = true.
Proof.
  rewrite !is_nan_compare, le_compare. intros Hx Hy Hlt.
  assert (Hn : SFcompare (Prim2SF y) (Prim2SF x) <> Some Lt)
    by (intro E; apply lt_compare in E; congruence).
  pose proof (SFcompare_total _ _ Hy Hx) as Htot.
  destruct (SFcompare (Prim2SF y) (Prim2SF x)) as [[]|] eqn:E; try congruence.
  - right. now apply SFcompare_Eq_sym.
  - left. now apply SFcompare_Gt_Lt.
Qed.

Lemma SFcompare_Lt_Gt (a b : spec_float) :
  SFcompare a b = Some Lt -> SFcompare b a = Some Gt.
Proof. destruct a as [sa|sa| |sa ma ea], b as [sb|sb| |sb mb eb]; sf_solve. Qed.

(** [x < y] and [y <= x] exclude each other. *)
Lemma lt_not_le (x y : float) : Py.lt x y = true -> Py.le y x = false.
Proof.
  rewrite lt_compare. intro H. apply SFcompare_Lt_Gt in H.
  destruct (Py.le y x) eqn:E; [|reflexivity].
  apply le_compare in E. destruct E; congruence.
Qed.

(** ** The builtins [min] and [max] on numbers that are not NaN *)




(** ** Boolean masks *)

Lemma in_boolean_index {A : Type} (f : A -> bool) (rows : list A) (x : A) :
  In x (Py.boolean_index rows (map f rows)) <-> In x rows /\ f x = true.
Proof.
  unfold Py.boolean_index.
  induction rows as [|r rows IH]; simpl.
  - tauto.
  - destruct (f r) eqn:E; simpl; rewrite IH.
    + split; [intros [->|[H1 H2]]; auto | intros [[->|H1] H2]; auto].
    + split; [intros [H1 H2]; auto | intros [[->|H1] H2]; [congruence | auto]].
Qed.

Lemma and_map {A : Type} (f g : A -> bool) (rows : list A) :
  Py.and_ (map f rows) (map g rows) = map (fun x => f x && g x) rows.
Proof.
  unfold Py.and_. induction rows as [|r rows IH]; simpl; [reflexivity|].
  now rewrite IH.
Qed.

(** ** C9 *)

(** C9: for every data frame, each row selected as a bright star (both
    magnitude errors below 1/100) is also selected by the good-SNR cut (both
    magnitude errors below 1/25). *)
Theorem bright_stars_subset_good_snr (df : CoaddCatalogs.DataFrame)
    (row : CoaddCatalogs.Row) :
  In row (CoaddCatalogs.bright_stars df) -> In row (CoaddCatalogs.good_snr df).
Proof.
  unfold CoaddCatalogs.bright_stars, CoaddCatalogs.good_snr, CoaddCatalogs.column_lt.
  rewrite !and_map, !in_boolean_index.
  intros [Hin Hb]. split; [exact Hin|].
  apply andb_true_iff in Hb. destruct Hb as [Hg Hr].
  assert (Hthr : Py.lt (1 / CoaddCatalogs.bright_snr_threshold)
                       (1 / CoaddCatalogs.snr_threshold) = true)
    by (vm_compute; reflexivity).
  apply andb_true_iff. split; eapply lt_trans; eauto.
Qed.

Lemma bright_stars_subset_good_snr_witness :
  In Examples.bright_row (CoaddCatalogs.good_snr Examples.data_frame).
Proof.
  apply bright_stars_subset_good_snr.
  vm_compute. left. reflexivity.
Defined.

(** On the example frame the bright-star cut keeps the first row, the
    good-SNR cut the first two. *)
Example selections_example :
  map CoaddCatalogs.index (CoaddCatalogs.bright_stars Examples.data_frame) = [0%Z]
  /\ map CoaddCatalogs.index (CoaddCatalogs.good_snr Examples.data_frame) = [0%Z; 1%Z]
  /\ map CoaddCatalogs.index (CoaddCatalogs.stars Examples.data_frame) = [0%Z]
  /\ map CoaddCatalogs.index (CoaddCatalogs.galaxies Examples.data_frame) = [1%Z].
Proof. repeat split; reflexivity. Qed.

(** Stars and galaxies (lines 763-765) are two disjoint parts of the good-SNR
    selection: the rows with extendedness below 1, and those with extendedness
    at least 1. *)
Theorem stars_and_galaxies_split_good_snr (df : CoaddCatalogs.DataFrame)
    (row : CoaddCatalogs.Row) :
  (In row (CoaddCatalogs.stars df) <->
   In row (CoaddCatalogs.good_snr df)
   /\ Py.lt (CoaddCatalogs.base_ClassificationExtendedness_value row) 1.0 = true)
  /\ (In row (CoaddCatalogs.galaxies df) <->
      In row (CoaddCatalogs.good_snr df)
      /\ Py.le 1.0 (CoaddCatalogs.base_ClassificationExtendedness_value row) = true)
  /\ ~ (In row (CoaddCatalogs.stars df) /\ In row (CoaddCatalogs.galaxies df)).
Proof.
  unfold CoaddCatalogs.stars, CoaddCatalogs.galaxies, CoaddCatalogs.column_lt,
    CoaddCatalogs.column_ge, CoaddCatalogs.safe_max_extended.
  rewrite !in_boolean_index. repeat split; try tauto.
  intros [[_ Hlt] [_ Hle]]. apply lt_not_le in Hlt. congruence.
Qed.

(** ** C7 *)

Section TruthFilters.

Variable list_of_healpix : list Z.
Variable angularSeparation : float -> float -> float -> float -> float.

Lemma contains_In (arr : list Z) (hh : Z) :
  TruthCatalog.contains arr hh = true <-> In hh arr.
Proof.
  unfold TruthCatalog.contains. rewrite existsb_exists. split.
  - intros [x [Hin Heq]]. apply Z.eqb_eq in Heq. now subst.
  - intro Hin. exists hh. split; [exact Hin | apply Z.eqb_refl].
Qed.

Lemma nth_error_combine {A B : Type} (l1 : list A) (l2 : list B) (i : nat) (a : A) (b : B) :
  nth_error l1 i = Some a -> nth_error l2 i = Some b ->
  nth_error (combine l1 l2) i = Some (a, b).
Proof.
  revert l2 i. induction l1 as [|x l1 IH]; intros [|y l2] [|i]; simpl; try discriminate.
  - congruence.
  - apply IH.
Qed.

(** C7: on an array [hp] with at least one element [filter_on_healpix]
    returns a boolean array with one item per element of [hp], true exactly
    when that element occurs in [list_of_healpix]; on the empty array it
    returns an empty [float64] array, which is no boolean array. On two
    arrays of one length [filter_on_dist] returns one boolean per position,
    true exactly when the angular separation of that position from
    (54.6, -28.0) is below 0.2. *)
Theorem filter_on_healpix_is_boolean_unless_empty (hp : list Z) (ra dec : list float) :
  length ra = length dec ->
  match hp with
  | [] =>
    TruthCatalog.filter_on_healpix list_of_healpix hp = TruthCatalog.float64 []
    /\ forall mask, TruthCatalog.filter_on_healpix list_of_healpix hp
                    <> TruthCatalog.bool_ mask
  | _ =>
    exists mask,
      TruthCatalog.filter_on_healpix list_of_healpix hp = TruthCatalog.bool_ mask
      /\ length mask = length hp
      /\ forall i hh, nth_error hp i = Some hh ->
           exists b, nth_error mask i = Some b /\ (b = true <-> In hh list_of_healpix)
  end
  /\ exists mask, TruthCatalog.filter_on_dist angularSeparation ra dec = Some mask /\
       length mask = length ra /\
       forall i r d, nth_error ra i = Some r -> nth_error dec i = Some d ->
         nth_error mask i = Some (Py.lt (angularSeparation r d 54.6 (-28.0)) 0.2).
Proof.
  intro Hlen. split.
  - destruct hp as [|first rest].
    + split; [reflexivity | intros mask H; discriminate].
    + exists (map (fun hh => TruthCatalog.contains list_of_healpix hh) (first :: rest)).
      split; [reflexivity|]. split; [apply length_map|].
      intros i hh Hi. exists (TruthCatalog.contains list_of_healpix hh). split.
      * rewrite nth_error_map, Hi. reflexivity.
      * apply contains_In.
  - unfold TruthCatalog.filter_on_dist, TruthCatalog.angularSeparation_arrays.
    rewrite Hlen, Nat.eqb_refl. simpl. eexists. split; [reflexivity|]. split.
    + rewrite !length_map, length_combine, Hlen. apply Nat.min_id.
    + intros i r d Hr Hd.
      rewrite !nth_error_map, (nth_error_combine _ _ _ _ _ Hr Hd). reflexivity.
Qed.

End TruthFilters.

Lemma filter_on_healpix_is_boolean_unless_empty_witness :
  (TruthCatalog.filter_on_healpix [5%Z; 7%Z] [] = TruthCatalog.float64 []
   /\ forall mask, TruthCatalog.filter_on_healpix [5%Z; 7%Z] [] <> TruthCatalog.bool_ mask)
  /\ exists mask,
       TruthCatalog.filter_on_dist Examples.taxicab
                                   [54.5%float; 60%float] [(-28.125)%float; (-28)%float]
       = Some mask /\
       length mask = 2 /\
       forall i r d, nth_error [54.5%float; 60%float] i = Some r ->
                     nth_error [(-28.125)%float; (-28)%float] i = Some d ->
         nth_error mask i = Some (Py.lt (Examples.taxicab r d 54.6 (-28.0)) 0.2).
Proof.
  apply (filter_on_healpix_is_boolean_unless_empty [5%Z; 7%Z] Examples.taxicab
           [] [54.5%float; 60%float] [(-28.125)%float; (-28)%float]).
  reflexivity.
Defined.

(** On two pixels, of which the first is in the list, the mask is boolean; on
    no pixel at all the array is not. *)
Example filter_on_healpix_example :
  TruthCatalog.filter_on_healpix [5%Z; 7%Z] [7%Z; 6%Z] = TruthCatalog.bool_ [true; false]
  /\ TruthCatalog.filter_on_healpix [5%Z; 7%Z] [] = TruthCatalog.float64 [].
Proof. split; reflexivity. Qed.

(** ** C6: the group-counting cell *)

Section GroupCounting.

Import TruthCoaddMatching.


Lemma length_increment (i : nat) (counts : list nat) :
  length (increment i counts) = length counts.
Proof.
  revert i. induction counts as [|c rest IH]; intros [|i]; simpl; auto.
Qed.

Lemma nth_increment (i k : nat) (counts : list nat) :
  nth k (increment i counts) 0 =
  nth k counts 0 + (if Nat.eqb k i && Nat.ltb i (length counts) then 1 else 0).
Proof.
  revert i k. induction counts as [|c rest IH]; intros i k.
  - destruct i, k; simpl; rewrite ?andb_false_r; reflexivity.
  - destruct i as [|i], k as [|k]; simpl; try lia.
    rewrite IH. unfold Nat.ltb. simpl. reflexivity.
Qed.

Lemma fold_increment_length (x counts : list nat) :
  length (fold_left (fun acc v => increment v acc) x counts) = length counts.
Proof.
  revert counts. induction x as [|v x IH]; intro counts; simpl; [reflexivity|].
  now rewrite IH, length_increment.
Qed.

Lemma fold_increment_nth (x counts : list nat) (k : nat) :
  k < length counts ->
  nth k (fold_left (fun acc v => increment v acc) x counts) 0 =
  nth k counts 0 + occurrences k x.
Proof.
  revert counts. induction x as [|v x IH]; intros counts Hk; simpl.
  - unfold occurrences. simpl. lia.
  - rewrite IH by now rewrite length_increment.
    rewrite nth_increment. unfold occurrences. simpl.
    destruct (Nat.eqb_spec k v) as [->|Hne]; simpl.
    + apply Nat.ltb_lt in Hk. rewrite Hk. lia.
    + lia.
Qed.

Lemma bincount_length (x : list nat) (minlength : nat) :
  Forall (fun v => v < minlength) x -> length (bincount x minlength) = minlength.
Proof.
  intro Hall. unfold bincount. rewrite fold_increment_length, repeat_length.
  destruct x as [|v x]; [reflexivity|].
  assert (list_max (v :: x) < minlength) by (apply list_max_lt; [discriminate | exact Hall]).
  lia.
Qed.

Lemma occurrences_above_max (x : list nat) (k : nat) :
  list_max x < k -> occurrences k x = 0.
Proof.
  unfold occurrences. induction x as [|v x IH]; simpl; [reflexivity|].
  intro Hk. destruct (Nat.eqb_spec k v); [lia|]. apply IH. lia.
Qed.

(** Bin [k] of [np.bincount] is the number of occurrences of [k]. *)
Lemma bincount_nth (x : list nat) (minlength k : nat) :
  nth k (bincount x minlength) 0 = occurrences k x.
Proof.
  destruct (Nat.lt_ge_cases k (length (bincount x minlength))) as [Hk|Hk].
  - unfold bincount in *. rewrite fold_increment_length in Hk.
    rewrite fold_increment_nth by exact Hk.
    rewrite nth_repeat_lt by now rewrite repeat_length in Hk. reflexivity.
  - rewrite nth_overflow by exact Hk.
    unfold bincount in Hk. rewrite fold_increment_length, repeat_length in Hk.
    destruct x as [|v x]; [reflexivity|].
    symmetry. apply occurrences_above_max. lia.
Qed.

Lemma rows_of_nth (rows cols : nat) (flat : list nat) (c t : nat) :
  c < rows -> t < cols ->
  nth t (nth c (rows_of rows cols flat) []) 0 = nth (c * cols + t) flat 0.
Proof.
  revert flat c. induction rows as [|rows IH]; intros flat c Hc Ht; [lia|].
  destruct c as [|c]; simpl.
  - rewrite nth_firstn. apply Nat.ltb_lt in Ht. now rewrite Ht.
  - rewrite IH by lia. rewrite nth_skipn. f_equal. lia.
Qed.

Lemma boolean_index_map {A B : Type} (f : A -> B) (p : A -> bool) (rows : list A) :
  Py.boolean_index (map f rows) (map p rows) = map f (filter p rows).
Proof.
  unfold Py.boolean_index. induction rows as [|r rows IH]; simpl; [reflexivity|].
  destruct (p r); simpl; now rewrite IH.
Qed.

Lemma occurrences_map_filter {A : Type} (f : A -> nat) (p : A -> bool) (rows : list A)
    (g : nat) :
  occurrences g (map f (filter p rows)) =
  length (filter (fun r => p r && Nat.eqb (f r) g) rows).
Proof.
  unfold occurrences. induction rows as [|r rows IH]; simpl; [reflexivity|].
  destruct (p r); simpl; [|exact IH].
  rewrite (Nat.eqb_sym g (f r)). destruct (Nat.eqb (f r) g); simpl; now rewrite IH.
Qed.

Lemma scale_add_seq (a b : list nat) (k n : nat) :
  length a = n -> length b = n ->
  scale_add a k b = map (fun g => nth g a 0 * k + nth g b 0) (seq 0 n).
Proof.
  intros Ha Hb. unfold scale_add.
  set (F := fun p : nat * nat => fst p * k + snd p).
  set (G := fun g => nth g a 0 * k + nth g b 0).
  apply nth_ext with (d := F (0, 0)) (d' := G 0).
  - rewrite !length_map, length_combine, length_seq. lia.
  - intros i Hi. rewrite length_map, length_combine in Hi.
    rewrite (map_nth F), (map_nth G), combine_nth, seq_nth by lia.
    reflexivity.
Qed.

Lemma occurrences_map {A : Type} (f : A -> nat) (l : list A) (v : nat) :
  occurrences v (map f l) = length (filter (fun x => Nat.eqb (f x) v) l).
Proof.
  unfold occurrences. induction l as [|x l IH]; simpl; [reflexivity|].
  rewrite (Nat.eqb_sym v (f x)). destruct (Nat.eqb (f x) v); simpl; now rewrite IH.
Qed.

Lemma nth_le_list_max (l : list nat) (g : nat) : nth g l 0 <= list_max l.
Proof.
  destruct (Nat.lt_ge_cases g (length l)) as [Hg|Hg].
  - assert (H : Forall (fun k => k <= list_max l) l) by now apply list_max_le.
    rewrite Forall_forall in H. apply H, nth_In, Hg.
  - rewrite nth_overflow by exact Hg. lia.
Qed.

Lemma list_max_filter_le (p : nat -> bool) (l : list nat) :
  list_max (filter p l) <= list_max l.
Proof.
  apply list_max_le. rewrite Forall_forall. intros v Hv.
  apply filter_In in Hv. destruct Hv as [Hv _].
  assert (H : Forall (fun k => k <= list_max l) l) by now apply list_max_le.
  rewrite Forall_forall in H. now apply H.
Qed.

(** The pair (coadd count, truth count) is recovered from its code. *)
Lemma code_injective (n c t c' t' : nat) :
  t < n -> t' < n -> (c' * n + t' = c * n + t <-> t' = t /\ c' = c).
Proof.
  intros Ht Ht'. split; [|intros [-> ->]; reflexivity].
  intro H.
  assert (c' = c) by nia. subst. split; [lia | reflexivity].
Qed.

Lemma np_max_nonempty (arr : list nat) :
  arr <> [] -> np_max arr = Some (list_max arr).
Proof. destruct arr; [congruence | reflexivity]. Qed.

Lemma truth_members (results : list ResultRow) (minlength g : nat) :
  nth g (bincount (Py.boolean_index (map group_id results)
                     (map (fun r => String.eqb (catalog_key r) "truth") results))
                  minlength) 0
  = members results "truth" g.
Proof.
  rewrite bincount_nth, boolean_index_map, occurrences_map_filter. reflexivity.
Qed.

Lemma coadd_members (results : list ResultRow) (minlength g : nat) :
  Forall (fun r => catalog_key r = "truth" \/ catalog_key r = "coadd") results ->
  nth g (bincount (Py.boolean_index (map group_id results)
                     (map negb (map (fun r => String.eqb (catalog_key r) "truth") results)))
                  minlength) 0
  = members results "coadd" g.
Proof.
  intro Hkeys.
  rewrite bincount_nth, map_map, boolean_index_map, occurrences_map_filter.
  unfold members. f_equal. apply filter_ext_in. intros r Hr.
  rewrite Forall_forall in Hkeys. destruct (Hkeys r Hr) as [-> | ->]; reflexivity.
Qed.

Lemma group_bins_length (results : list ResultRow) (mask : list bool) :
  results <> [] ->
  length (bincount (Py.boolean_index (map group_id results) mask)
                   (list_max (map group_id results) + 1))
  = list_max (map group_id results) + 1.
Proof.
  intros _. apply bincount_length. rewrite Forall_forall. intros v Hv.
  unfold Py.boolean_index in Hv. apply in_map_iff in Hv.
  destruct Hv as [[v' b] [Heq Hin]]. simpl in Heq. subst v'.
  apply filter_In in Hin. destruct Hin as [Hin _]. apply in_combine_l in Hin.
  assert (H : Forall (fun k => k <= list_max (map group_id results)) (map group_id results))
    by now apply list_max_le.
  rewrite Forall_forall in H. specialize (H v Hin). lia.
Qed.

Lemma rows_of_shape (rows cols : nat) (flat : list nat) :
  length flat = rows * cols ->
  length (rows_of rows cols flat) = rows
  /\ Forall (fun row => length row = cols) (rows_of rows cols flat).
Proof.
  revert flat. induction rows as [|rows IH]; intros flat Hlen; simpl in *.
  - split; [reflexivity | constructor].
  - destruct (IH (skipn cols flat)) as [H1 H2]; [rewrite length_skipn; lia|].
    split; [now rewrite H1|]. constructor; [|exact H2].
    rewrite length_firstn. lia.
Qed.

(** What the cell binds on a table that has a row. *)
Lemma count_groups_nonempty (results : list ResultRow) :
  results <> [] ->
  let top := list_max (map group_id results) in
  let truth_mask := map (fun r => String.eqb (catalog_key r) "truth") results in
  let nt := bincount (Py.boolean_index (map group_id results) truth_mask) (top + 1) in
  let nc := bincount (Py.boolean_index (map group_id results) (map negb truth_mask))
                     (top + 1) in
  let n := Nat.max (list_max nt) (list_max nc) + 1 in
  count_groups results
  = Some {| n_groups := top + 1; n_truth := nt; n_coadd := nc; n_max := n;
            hist_2d := rows_of n n (bincount (scale_add nc n nt) (n * n)) |}
  /\ length nt = top + 1 /\ length nc = top + 1
  /\ length (bincount (scale_add nc n nt) (n * n)) = n * n.
Proof.
  intros Hne top truth_mask nt nc n. unfold count_groups.
  rewrite np_max_nonempty by (destruct results; [congruence | discriminate]).
  fold top truth_mask nt nc.
  assert (Hlt : length nt = top + 1) by (apply group_bins_length; exact Hne).
  assert (Hlc : length nc = top + 1) by (apply group_bins_length; exact Hne).
  rewrite (np_max_nonempty nt) by (intro E; rewrite E in Hlt; simpl in Hlt; lia).
  rewrite (np_max_nonempty nc) by (intro E; rewrite E in Hlc; simpl in Hlc; lia).
  fold n.
  assert (Hflat : length (bincount (scale_add nc n nt) (n * n)) = n * n).
  { apply bincount_length.
    rewrite (scale_add_seq nc nt n (top + 1)) by assumption.
    rewrite Forall_forall. intros v Hv.
    apply in_map_iff in Hv. destruct Hv as [g [<- _]].
    pose proof (nth_le_list_max nt g). pose proof (nth_le_list_max nc g).
    assert (nth g nt 0 < n) by (unfold n; lia).
    assert (nth g nc 0 < n) by (unfold n; lia). nia. }
  unfold reshape. rewrite Hflat, Nat.eqb_refl. auto.
Qed.

(** The code of a pair of counts below [n] is below [n * n]. *)
Lemma code_bound (n c t : nat) : t < n -> c < n -> c * n + t < n * n.
Proof. intros Ht Hc. nia. Qed.

(** C6: on a non-empty match table whose rows come from the truth and the
    coadd catalog, the cell computes what follows. [n_groups] is the largest
    group id plus one; [n_truth] and [n_coadd] have one entry per group id
    below [n_groups], the number of truth and of coadd members of the group;
    [n_max] is the largest of these counts plus one, so every count is below
    it; the code [n_coadd[g] * n_max + n_truth[g]] of a group is below
    [n_max * n_max] and two groups have one code only if they have the same
    two counts; [hist_2d] has [n_max] rows of [n_max] entries, and for all
    [t], [c] below [n_max] the entry [hist_2d[c][t]] is the number of group
    ids below [n_groups] with exactly [t] truth and [c] coadd members. *)
Theorem hist_2d_counts_groups (results : list ResultRow) :
  results <> [] ->
  Forall (fun r => catalog_key r = "truth" \/ catalog_key r = "coadd") results ->
  exists cell, count_groups results = Some cell /\
    n_groups cell = list_max (map group_id results) + 1 /\
    length (n_truth cell) = n_groups cell /\
    length (n_coadd cell) = n_groups cell /\
    (forall g, nth g (n_truth cell) 0 = members results "truth" g /\
               nth g (n_coadd cell) 0 = members results "coadd" g /\
               nth g (n_truth cell) 0 < n_max cell /\
               nth g (n_coadd cell) 0 < n_max cell) /\
    n_max cell = Nat.max (list_max (n_truth cell)) (list_max (n_coadd cell)) + 1 /\
    (forall g, nth g (n_coadd cell) 0 * n_max cell + nth g (n_truth cell) 0
               < n_max cell * n_max cell) /\
    (forall g g',
        nth g (n_coadd cell) 0 * n_max cell + nth g (n_truth cell) 0
        = nth g' (n_coadd cell) 0 * n_max cell + nth g' (n_truth cell) 0 ->
        nth g (n_truth cell) 0 = nth g' (n_truth cell) 0
        /\ nth g (n_coadd cell) 0 = nth g' (n_coadd cell) 0) /\
    length (hist_2d cell) = n_max cell /\
    Forall (fun row => length row = n_max cell) (hist_2d cell) /\
    forall t c, t < n_max cell -> c < n_max cell ->
      nth t (nth c (hist_2d cell) []) 0 = groups_with results (n_groups cell) t c.
Proof.
  intros Hne Hkeys.
  destruct (count_groups_nonempty results Hne) as [Hsome [Hlt [Hlc Hflat]]].
  set (top := list_max (map group_id results)) in *.
  set (truth_mask := map (fun r => String.eqb (catalog_key r) "truth") results) in *.
  set (nt := bincount (Py.boolean_index (map group_id results) truth_mask) (top + 1)) in *.
  set (nc := bincount (Py.boolean_index (map group_id results) (map negb truth_mask))
                      (top + 1)) in *.
  set (n := Nat.max (list_max nt) (list_max nc) + 1) in *.
  assert (Hbt : forall g, nth g nt 0 < n)
    by (intro g; pose proof (nth_le_list_max nt g); unfold n; lia).
  assert (Hbc : forall g, nth g nc 0 < n)
    by (intro g; pose proof (nth_le_list_max nc g); unfold n; lia).
  destruct (rows_of_shape n n _ Hflat) as [Hrows Hcols].
  eexists. split; [exact Hsome|]. cbn [n_groups n_truth n_coadd n_max hist_2d].
  split; [reflexivity|]. split; [exact Hlt|]. split; [exact Hlc|].
  split; [|split; [reflexivity|]; split; [|split; [|split; [exact Hrows|]; split;
            [exact Hcols|]]]].
  - intro g. repeat split.
    + apply truth_members.
    + apply coadd_members, Hkeys.
    + apply Hbt.
    + apply Hbc.
  - intro g. apply code_bound; [apply Hbt | apply Hbc].
  - intros g g' Hcode. apply code_injective in Hcode; [|apply Hbt|apply Hbt].
    destruct Hcode as [-> ->]. split; reflexivity.
  - intros t c Ht Hc.
    rewrite rows_of_nth, bincount_nth by assumption.
    rewrite (scale_add_seq nc nt n (top + 1) Hlc Hlt), occurrences_map.
    unfold groups_with. f_equal. apply filter_ext. intro g.
    unfold nt at 1, nc at 1, truth_mask.
    rewrite truth_members, (coadd_members _ _ _ Hkeys).
    fold truth_mask.
    assert (Ht' : members results "truth" g < n)
      by (rewrite <- (truth_members results (top + 1)); apply Hbt).
    destruct (Nat.eqb_spec (members results "coadd" g * n + members results "truth" g)
                           (c * n + t)) as [E|E].
    + apply code_injective in E; [|assumption|assumption]. destruct E as [-> ->].
      now rewrite !Nat.eqb_refl.
    + symmetry. apply andb_false_iff.
      destruct (Nat.eqb_spec (members results "truth" g) t) as [E1|E1]; [|now left].
      destruct (Nat.eqb_spec (members results "coadd" g) c) as [E2|E2]; [|now right].
      subst. congruence.
Qed.

Lemma hist_2d_counts_groups_witness :
  exists cell, count_groups Examples.match_table = Some cell /\
    n_groups cell = list_max (map group_id Examples.match_table) + 1 /\
    length (n_truth cell) = n_groups cell /\
    length (n_coadd cell) = n_groups cell /\
    (forall g, nth g (n_truth cell) 0 = members Examples.match_table "truth" g /\
               nth g (n_coadd cell) 0 = members Examples.match_table "coadd" g /\
               nth g (n_truth cell) 0 < n_max cell /\
               nth g (n_coadd cell) 0 < n_max cell) /\
    n_max cell = Nat.max (list_max (n_truth cell)) (list_max (n_coadd cell)) + 1 /\
    (forall g, nth g (n_coadd cell) 0 * n_max cell + nth g (n_truth cell) 0
               < n_max cell * n_max cell) /\
    (forall g g',
        nth g (n_coadd cell) 0 * n_max cell + nth g (n_truth cell) 0
        = nth g' (n_coadd cell) 0 * n_max cell + nth g' (n_truth cell) 0 ->
        nth g (n_truth cell) 0 = nth g' (n_truth cell) 0
        /\ nth g (n_coadd cell) 0 = nth g' (n_coadd cell) 0) /\
    length (hist_2d cell) = n_max cell /\
    Forall (fun row => length row = n_max cell) (hist_2d cell) /\
    forall t c, t < n_max cell -> c < n_max cell ->
      nth t (nth c (hist_2d cell) []) 0
      = groups_with Examples.match_table (n_groups cell) t c.
Proof.
  apply hist_2d_counts_groups.
  - discriminate.
  - repeat (apply Forall_cons; [first [left; reflexivity | right; reflexivity]|]).
    apply Forall_nil.
Defined.

(** On the example table: group 0 has one of each, group 1 two truth objects,
    group 2 one coadd object. *)
Example count_groups_example :
  option_map hist_2d (count_groups Examples.match_table)
  = Some [[0; 0; 1]; [1; 1; 0]; [0; 0; 0]].
Proof. reflexivity. Qed.

End GroupCounting.

(** ** C5: what [RegionSelector.__call__] returns *)

Section RegionSelectorCall.

Import StackMatching.

Variable makeMinimalSchema : Schema.
Variable rotate : float -> float -> float * float.

Lemma traverse_Forall2 {A B : Type} (f : A -> option B) (l : list A) (ys : list B) :
  traverse f l = Some ys -> Forall2 (fun x y => f x = Some y) l ys.
Proof.
  revert ys. induction l as [|x l IH]; simpl; intros ys H.
  - injection H as <-. constructor.
  - destruct (f x) as [y|] eqn:Ex; [|discriminate].
    destruct (traverse f l) as [ys'|]; [|discriminate].
    injection H as <-. constructor; auto.
Qed.

Lemma traverse_map {A B C : Type} (f : B -> option C) (g : A -> B) (l : list A) :
  traverse f (map g l) = traverse (fun x => f (g x)) l.
Proof.
  induction l as [|x l IH]; simpl; [reflexivity|]. now rewrite IH.
Qed.

Lemma combine_map_same {A B C : Type} (f : A -> B) (g : A -> C) (l : list A) :
  combine (map f l) (map g l) = map (fun x => (f x, g x)) l.
Proof.
  induction l as [|x l IH]; simpl; [reflexivity|]. now rewrite IH.
Qed.

Lemma transform_map {A : Type} (f g : A -> float) (l : list A) :
  transform rotate (map f l) (map g l)
  = (map (fun x => fst (rotate (f x) (g x))) l,
     map (fun x => snd (rotate (f x) (g x))) l).
Proof.
  unfold transform. rewrite combine_map_same, map_map. simpl.
  induction l as [|x l IH]; simpl; [reflexivity|].
  rewrite IH. now destruct (rotate (f x) (g x)).
Qed.

Lemma boolean_index_shift (l : list nat) (mask : list bool) :
  Py.boolean_index (map S l) mask = map S (Py.boolean_index l mask).
Proof.
  unfold Py.boolean_index. revert mask.
  induction l as [|x l IH]; intros [|b mask]; simpl; try reflexivity.
  destruct b; simpl; now rewrite IH.
Qed.

Lemma np_where_cons (b : bool) (mask : list bool) :
  np_where (b :: mask) = ((if b then [0] else []) ++ map S (np_where mask))%list.
Proof.
  unfold np_where. simpl length. rewrite <- cons_seq, <- seq_shift.
  unfold Py.boolean_index at 1. simpl.
  destruct b; simpl; f_equal; apply boolean_index_shift.
Qed.

(** Indexing with [np.where(mask)] is selection by the mask. *)
Lemma take_np_where {A : Type} (arr : list A) (mask : list bool) :
  length mask = length arr ->
  take arr (np_where mask) = Some (Py.boolean_index arr mask).
Proof.
  unfold take. revert mask.
  induction arr as [|x arr IH]; intros [|b mask] Hlen; simpl in Hlen; try discriminate.
  - reflexivity.
  - rewrite np_where_cons.
    assert (Htail : traverse (nth_error (x :: arr)) (map S (np_where mask))
                    = Some (Py.boolean_index arr mask)).
    { rewrite traverse_map. simpl. apply IH. lia. }
    destruct b; simpl; rewrite Htail; reflexivity.
Qed.

Lemma take_np_where_map {A B : Type} (f : A -> B) (p : A -> bool) (l : list A) :
  take (map f l) (np_where (map p l)) = Some (map f (filter p l)).
Proof.
  rewrite take_np_where by now rewrite !length_map.
  now rewrite boolean_index_map.
Qed.

Lemma Forall2_combine {A B : Type} (R : A -> B -> Prop) (l1 : list A) (l2 : list B) :
  Forall2 R l1 l2 -> Forall (fun t => R (fst t) (snd t)) (combine l1 l2).
Proof. induction 1; simpl; constructor; auto. Qed.

Lemma Forall2_combine_maps {A B : Type} (R : A -> B -> Prop) (l1 : list A) (l2 : list B) :
  Forall2 R l1 l2 -> map fst (combine l1 l2) = l1 /\ map snd (combine l1 l2) = l2.
Proof. induction 1 as [|x y l1 l2 _ _ [IH1 IH2]]; simpl; split; congruence. Qed.

Lemma in_boolean_index_combine {A : Type} (rows : list A) (mask : list bool) (x : A) :
  In x (Py.boolean_index rows mask) -> In (x, true) (combine rows mask).
Proof.
  unfold Py.boolean_index. intro H. apply in_map_iff in H.
  destruct H as [[y b] [Heq Hin]]. simpl in Heq. subst y.
  apply filter_In in Hin. destruct Hin as [Hin Hb]. simpl in Hb. now subst b.
Qed.

(** The reader returns aligned arrays, and every returned galaxy is one of
    the catalog whose magnitude passes the filter. *)
Lemma get_quantities_Less (gc : list Galaxy) (bandname : string) (bound : float)
    (cols : Columns) :
  get_quantities gc bandname [Less bandname bound] = Some cols ->
  exists rows : list (Galaxy * float),
    col_galaxy_id cols = map (fun t => galaxy_id (fst t)) rows /\
    col_ra_true cols = map (fun t => ra_true (fst t)) rows /\
    col_dec_true cols = map (fun t => dec_true (fst t)) rows /\
    col_band cols = map snd rows /\
    Forall (fun t => In (fst t) gc /\ lookup (fst t) bandname = Some (snd t) /\
                     Py.lt (snd t) bound = true) rows.
Proof.
  unfold get_quantities.
  destruct (traverse (passes [Less bandname bound]) gc) as [mask|] eqn:Emask; [|discriminate].
  destruct (traverse (fun g => lookup g bandname) (Py.boolean_index gc mask))
    as [mags|] eqn:Emags; [|discriminate].
  intro H. injection H as <-. simpl.
  apply traverse_Forall2 in Emask, Emags.
  exists (combine (Py.boolean_index gc mask) mags).
  destruct (Forall2_combine_maps _ _ _ Emags) as [Hfst Hsnd].
  repeat split.
  - now rewrite <- (map_map fst galaxy_id), Hfst.
  - now rewrite <- (map_map fst ra_true), Hfst.
  - now rewrite <- (map_map fst dec_true), Hfst.
  - now rewrite Hsnd.
  - apply Forall2_combine in Emask, Emags.
    rewrite Forall_forall in *. intros [g m] Hin. simpl.
    pose proof (Emags _ Hin) as Hm. simpl in Hm.
    apply in_combine_l in Hin. apply in_boolean_index_combine in Hin.
    pose proof (Emask _ Hin) as Hp. simpl in Hp.
    split; [now apply in_combine_l in Hin|]. split; [exact Hm|].
    unfold passes in Hp. cbn [traverse] in Hp.
    destruct (PrimFloat.is_finite bound); [|discriminate].
    rewrite Hm in Hp. simpl in Hp.
    injection Hp as Hp. now rewrite andb_true_r in Hp.
Qed.

Lemma make_SourceCatalog_mag_cols (band : string) (catalog : SourceCatalog) :
  make_SourceCatalog makeMinimalSchema (mag_cols [band]) = Some catalog ->
  schema catalog
  = (makeMinimalSchema
       ++ [ {| name := "mag_" ++ band; type := TypeFloat; doc := band ++ "-magnitude" |} ])%list
  /\ records catalog = [].
Proof.
  unfold make_SourceCatalog, mag_cols. cbn [map]. unfold addField. cbn [name].
  destruct (has_field makeMinimalSchema ("mag_" ++ band)); [discriminate|].
  cbn [option_map]. intro H. injection H as <-. split; reflexivity.
Qed.

(** A record built at lines 190-194 holds exactly what was set. *)
Lemma new_record_get (sch : Schema) (band : string) (id_ : Z) (ra dec mag : float)
    (record : SourceRecord) :
  new_record sch band (id_, ra, dec, mag) = Some record ->
  get record "id" = Some (VInt id_) /\
  get record "coord_ra" = Some (VAngle {| value := ra; unit := degrees |}) /\
  get record "coord_dec" = Some (VAngle {| value := dec; unit := degrees |}) /\
  get record ("mag_" ++ band) = Some (VFloat mag).
Proof.
  unfold new_record, set.
  destruct (has_field sch "id"); [|discriminate].
  destruct (has_field sch "coord_ra"); [|discriminate].
  destruct (has_field sch "coord_dec"); [|discriminate].
  destruct (has_field sch ("mag_" ++ band)); [|discriminate].
  intro H. injection H as <-. unfold get. simpl.
  rewrite String.eqb_refl. repeat split; reflexivity.
Qed.


(** C5: for every galaxy catalog, band and magnitude limit, once
    [_set_coord_range] has set the two ranges, every record of the catalog
    [__call__] returns holds a magnitude below [max_mag] and a rotated right
    ascension and declination strictly inside the two ranges, and the schema of
    the catalog is the minimal schema followed by the one float field
    [mag_<band>]. *)
Theorem region_selector_call_selects (self : RegionSelector) (gc : list Galaxy)
    (band : string) (max_mag : float) (ra_bounds dec_bounds : float * float)
    (catalog : SourceCatalog) :
  ra_range self = Some ra_bounds ->
  dec_range self = Some dec_bounds ->
  __call__ makeMinimalSchema rotate self gc band max_mag = Some catalog ->
  schema catalog
  = (makeMinimalSchema
       ++ [ {| name := "mag_" ++ band; type := TypeFloat; doc := band ++ "-magnitude" |} ])%list
  /\ Forall (selected band max_mag ra_bounds dec_bounds) (records catalog).
Proof.
  intros Hra Hdec. unfold __call__. rewrite Hra, Hdec.
  destruct (get_quantities gc _ _) as [cols|] eqn:Ecols; [|discriminate].
  apply get_quantities_Less in Ecols.
  destruct Ecols as [rows [Hid [Hr [Hd [Hm Hrows]]]]].
  rewrite Hid, Hr, Hd, Hm, transform_map, !map_map, !and_map.
  rewrite !take_np_where_map.
  destruct (make_SourceCatalog _ _) as [empty|] eqn:Eempty; [|discriminate].
  apply make_SourceCatalog_mag_cols in Eempty. destruct Eempty as [Hschema Hrecords].
  unfold zip4. rewrite !combine_map_same, traverse_map.
  destruct (traverse _ _) as [new|] eqn:Enew; [|discriminate].
  simpl. intro H. injection H as <-. simpl. split; [exact Hschema|].
  rewrite Hrecords. simpl.
  apply traverse_Forall2 in Enew.
  rewrite Forall_forall in Hrows.
  remember (filter _ rows) as chosen eqn:Echosen.
  assert (Hchosen : Forall (fun t => In t (filter
             (fun x => Py.gt (fst (rotate (ra_true (fst x)) (dec_true (fst x)))) (fst ra_bounds)
                    && Py.lt (fst (rotate (ra_true (fst x)) (dec_true (fst x)))) (snd ra_bounds)
                    && Py.gt (snd (rotate (ra_true (fst x)) (dec_true (fst x)))) (fst dec_bounds)
                    && Py.lt (snd (rotate (ra_true (fst x)) (dec_true (fst x)))) (snd dec_bounds))
             rows)) chosen)
    by (subst chosen; apply Forall_forall; auto).
  clear Echosen.
  induction Enew as [|t record chosen' new' Hrec _ IH]; constructor.
  - inversion Hchosen as [|? ? Hin _]; subst.
    apply filter_In in Hin. destruct Hin as [Hin Hp].
    destruct (Hrows _ Hin) as [_ [_ Hlt]].
    apply new_record_get in Hrec. destruct Hrec as [G1 [G2 [G3 G4]]].
    repeat (apply andb_true_iff in Hp; destruct Hp as [Hp ?]).
    unfold selected. do 4 eexists. repeat split; eauto.
  - apply IH. now inversion Hchosen.
Qed.

Lemma traverse_total {A B : Type} (f : A -> option B) (l : list A) :
  Forall (fun x => f x <> None) l -> exists ys, traverse f l = Some ys.
Proof.
  induction 1 as [|x l Hx _ [ys IH]]; simpl.
  - now exists [].
  - destruct (f x) as [y|]; [|congruence]. rewrite IH. now exists (y :: ys).
Qed.

Lemma has_field_app (s1 s2 : Schema) (field : string) :
  has_field (s1 ++ s2)%list field = has_field s1 field || has_field s2 field.
Proof. unfold has_field. apply existsb_app. Qed.

Lemma call_returns (self : RegionSelector) (gc : list Galaxy)
    (band : string) (max_mag : float) (ra_bounds dec_bounds : float * float) :
  ra_range self = Some ra_bounds ->
  dec_range self = Some dec_bounds ->
  PrimFloat.is_finite max_mag = true ->
  Forall (fun g => lookup g ("mag_true_" ++ band ++ "_lsst") <> None) gc ->
  has_field makeMinimalSchema "id" = true ->
  has_field makeMinimalSchema "coord_ra" = true ->
  has_field makeMinimalSchema "coord_dec" = true ->
  has_field makeMinimalSchema ("mag_" ++ band) = false ->
  exists catalog, __call__ makeMinimalSchema rotate self gc band max_mag = Some catalog.
Proof.
  intros Hra Hdec Hfinite Hgc Hid Hcra Hcdec Hmag. unfold __call__. rewrite Hra, Hdec.
  set (bandname := "mag_true_" ++ band ++ "_lsst") in *.
  destruct (traverse_total (passes [Less bandname max_mag]) gc) as [mask Emask].
  { rewrite Forall_forall in *. intros g Hg. specialize (Hgc g Hg).
    unfold passes. cbn [traverse]. rewrite Hfinite.
    destruct (lookup g bandname); [discriminate | congruence]. }
  destruct (traverse_total (fun g => lookup g bandname) (Py.boolean_index gc mask))
    as [mags Emags].
  { rewrite Forall_forall in *. intros g Hg. apply Hgc.
    apply in_boolean_index_combine in Hg. now apply in_combine_l in Hg. }
  destruct (get_quantities gc bandname [Less bandname max_mag]) as [cols|] eqn:Ecols;
    [|unfold get_quantities in Ecols; rewrite Emask, Emags in Ecols; discriminate].
  apply get_quantities_Less in Ecols.
  destruct Ecols as [rows [Hi [Hr [Hd [Hm _]]]]].
  rewrite Hi, Hr, Hd, Hm, transform_map, !map_map, !and_map.
  rewrite !take_np_where_map.
  unfold make_SourceCatalog, mag_cols. cbn [map]. unfold addField. cbn [name].
  rewrite Hmag. cbn [option_map schema records].
  unfold zip4. rewrite !combine_map_same, traverse_map.
  match goal with
  | |- context [traverse ?f ?l] => destruct (traverse_total f l) as [new Enew]
  end.
  { apply Forall_forall. intros t _. unfold new_record, set.
    rewrite !has_field_app, Hid, Hcra, Hcdec, Hmag. cbn [orb].
    unfold has_field. cbn [existsb name]. rewrite String.eqb_refl. discriminate. }
  rewrite Enew. eexists. reflexivity.
Qed.

(** The call does return a catalog: when the ranges are set, the magnitude
    limit is a finite number, every galaxy has the magnitude asked for, and
    the minimal schema has the three fields the loop sets and no field
    [mag_<band>]. *)
Theorem region_selector_call_returns (self : RegionSelector) (gc : list Galaxy)
    (band : string) (max_mag : float) (ra_bounds dec_bounds : float * float) :
  ra_range self = Some ra_bounds ->
  dec_range self = Some dec_bounds ->
  PrimFloat.is_finite max_mag = true ->
  Forall (fun g => lookup g ("mag_true_" ++ band ++ "_lsst") <> None) gc ->
  has_field makeMinimalSchema "id" = true ->
  has_field makeMinimalSchema "coord_ra" = true ->
  has_field makeMinimalSchema "coord_dec" = true ->
  has_field makeMinimalSchema ("mag_" ++ band) = false ->
  exists catalog, __call__ makeMinimalSchema rotate self gc band max_mag = Some catalog.
Proof. apply call_returns. Qed.

End RegionSelectorCall.

Lemma region_selector_call_selects_witness :
  exists catalog,
    StackMatching.__call__ Examples.minimal_schema Examples.shift Examples.selector
                           Examples.galaxies "r" 24.5 = Some catalog /\
    StackMatching.schema catalog
    = (Examples.minimal_schema
         ++ [ {| StackMatching.name := "mag_" ++ "r"; StackMatching.type := StackMatching.TypeFloat;
                 StackMatching.doc := "r" ++ "-magnitude" |} ])%list /\
    Forall (StackMatching.selected "r" 24.5 (54.5, 56)%float (-29, -28)%float)
           (StackMatching.records catalog).
Proof.
  eexists. split; [vm_compute; reflexivity|].
  apply (region_selector_call_selects Examples.minimal_schema Examples.shift
           Examples.selector Examples.galaxies "r" 24.5 (54.5, 56)%float (-29, -28)%float);
    [reflexivity | reflexivity | vm_compute; reflexivity].
Defined.

Lemma region_selector_call_returns_witness :
  exists catalog,
    StackMatching.__call__ Examples.minimal_schema Examples.shift Examples.selector
                           Examples.galaxies "r" 24.5 = Some catalog.
Proof.
  apply (region_selector_call_returns Examples.minimal_schema Examples.shift
           Examples.selector Examples.galaxies "r" 24.5 (54.5, 56)%float (-29, -28)%float);
    try reflexivity.
  repeat (apply Forall_cons; [vm_compute; discriminate|]). apply Forall_nil.
Defined.

(** A selector whose ranges were never set, such as a plain
    [RegionSelector()], cannot be called: line 177 reads [self.ra_range]. *)
Theorem call_needs_the_ranges (makeMinimalSchema : StackMatching.Schema)
    (rotate : float -> float -> float * float) (gc : list StackMatching.Galaxy)
    (band : string) (max_mag : float) :
  StackMatching.__call__ makeMinimalSchema rotate StackMatching.__init__ gc band max_mag
  = None.
Proof.
  unfold StackMatching.__call__.
  destruct (StackMatching.get_quantities gc _ _) as [cols|]; [|reflexivity].
  destruct (StackMatching.transform rotate _ _). reflexivity.
Qed.

(** ** Statements: induction and the run of a block *)

Section StatementInduction.

Import Syntax.

Variable P : stmt -> Prop.

Hypothesis P_Import : forall l m names, P (Import l m names).
Hypothesis P_Simple : forall l targets calls, P (Simple l targets calls).
Hypothesis P_Return : forall l calls, P (Return l calls).
Hypothesis P_Pass : forall l, P (Pass l).
Hypothesis P_Break : forall l, P (Break l).
Hypothesis P_Raise : forall l calls, P (Raise l calls).
Hypothesis P_Assert : forall l calls, P (Assert l calls).
Hypothesis P_For : forall l targets calls body,
  Forall P body -> P (For l targets calls body).
Hypothesis P_If : forall l calls body orelse,
  Forall P body -> Forall P orelse -> P (If l calls body orelse).
Hypothesis P_With : forall l calls body, Forall P body -> P (With l calls body).
Hypothesis P_Try : forall l body handlers finalbody,
  Forall P body ->
  match handlers with Some h => Forall P h | None => True end ->
  Forall P finalbody -> P (Try l body handlers finalbody).
Hypothesis P_Def : forall l name parameters body,
  Forall P body -> P (Def l name parameters body).
Hypothesis P_Class : forall l name bases body,
  Forall P body -> P (Class l name bases body).


End StatementInduction.

Section Propagation.

Import Syntax Inventory Run.

Variable exn : Type.
Variable w : world exn.








End Propagation.

(** ** C8: exceptions go through, and one context ignores warnings *)

Section ErrorHandling.

Import Syntax Inventory Run.




End ErrorHandling.


(** When the load of line 355 fails, the cell of lines 352-358 stops there:
    line 358 does not run. *)
Example failed_load_stops_the_cell :
  Run.run nat Examples.load_fails (nth 8 (Syntax.cells Syntax.stack_matching) []) []
  = ([355; 354; 353], Run.Raised nat 355 2).
Proof. reflexivity. Qed.

(** When the check of line 390 fails, its cell ends with the exception of
    the check. *)
Example failed_check_stops_the_cell :
  Run.run nat Examples.check_fails
          (nth 26 (Syntax.cells Syntax.truth_coadd_matching) []) []
  = ([390], Run.Raised nat 390 1).
Proof. reflexivity. Qed.


(** ** C1: where the heavy operations are implemented *)

Section HeavyLifting.

Import Syntax Inventory.



End HeavyLifting.

(** ** C2: how the notebooks obtain their catalogs *)

Section Loading.

Import Syntax Inventory.

(** C2, as stated, fails: the merged-coadd notebook reads its table with
    [pd.read_hdf] (line 578), not through the catalog reader. *)
Lemma coadd_catalogs_read_with_pandas : ~ reader_then_use.
Proof.
  intro H.
  destruct (H coadd_catalogs) as [Hreader _].
  - do 4 right. left. reflexivity.
  - vm_compute in Hreader. discriminate.
Qed.

(** C2, amended: the truth-catalog, cluster-member and truth/coadd matching
    notebooks obtain all catalog data through [load_catalog] and
    [get_quantities], every [get_quantities] called on a name bound by an
    earlier [load_catalog], and every matching or plotting call made after
    some [get_quantities]; the Stack notebook reads through the reader and
    through the data butler; the merged-coadd notebook reads with pandas
    only. *)
Theorem three_notebooks_load_through_reader :
  Forall (fun nb => only_reader nb = true /\ reads_in_order [] false (steps nb) = true)
         [truth_catalog; cluster_members; truth_coadd_matching]
  /\ map (fun l => (fst (fst l), snd l)) (loads stack_matching)
     = [(167, Reader); (210, Butler); (219, Butler); (273, Butler); (274, Butler);
        (287, Butler); (288, Butler); (355, Reader)]
  /\ loads coadd_catalogs = [(578, "pd.read_hdf", Pandas); (657, "pd.read_table", Pandas)].
Proof.
  split; [|split; vm_compute; reflexivity].
  repeat (apply Forall_cons; [split; vm_compute; reflexivity|]).
  apply Forall_nil.
Qed.

End Loading.

(** ** C3: the one assertion *)

Section Assertion.

Import Syntax Inventory TruthCoaddMatching.

(** C3, as stated, fails: the matching notebook asserts at line 390 that two
    columns of the table it has merged are equal. *)
Lemma matching_notebook_asserts : ~ nothing_asserted.
Proof.
  intro H. specialize (H truth_coadd_matching).
  assert (Hin : In truth_coadd_matching repository) by (do 3 right; left; reflexivity).
  specialize (H Hin). vm_compute in H. discriminate.
Qed.

Variables Left Right : Type.
Variable left_on : Left -> Z.
Variable right_on : Right -> Z.

Lemma in_merge_left (left : list Left) (right : list Right) (p : Left * option Right) :
  In p (merge_left Left Right left_on right_on left right) <->
  In (fst p) left /\
  match snd p with
  | Some r => In r right /\ right_on r = left_on (fst p)
  | None => forall r, In r right -> right_on r <> left_on (fst p)
  end.
Proof.
  unfold merge_left. rewrite in_flat_map. split.
  - intros [l [Hl Hp]].
    destruct (filter _ right) as [|r0 found] eqn:E.
    + destruct Hp as [<-|[]]. simpl. split; [exact Hl|].
      intros r Hr Heq.
      assert (Hin : In r (filter (fun r => Z.eqb (right_on r) (left_on l)) right))
        by (apply filter_In; split; [exact Hr | now apply Z.eqb_eq]).
      rewrite E in Hin. destruct Hin.
    + apply in_map_iff in Hp. destruct Hp as [r [<- Hr]]. simpl.
      rewrite <- E in Hr. apply filter_In in Hr. destruct Hr as [Hr Heq].
      apply Z.eqb_eq in Heq. auto.
  - destruct p as [l o]. simpl. intros [Hl Ho]. exists l. split; [exact Hl|].
    destruct o as [r|].
    + destruct Ho as [Hr Heq].
      assert (Hin : In r (filter (fun r => Z.eqb (right_on r) (left_on l)) right))
        by (apply filter_In; split; [exact Hr | now apply Z.eqb_eq]).
      destruct (filter _ right) as [|r0 found]; [destruct Hin|].
      exact (in_map (fun r => (l, Some r)) (r0 :: found) r Hin).
    + destruct (filter _ right) as [|r0 found] eqn:E; [left; reflexivity|].
      exfalso.
      assert (Hin : In r0 (filter (fun r => Z.eqb (right_on r) (left_on l)) right))
        by (rewrite E; left; reflexivity).
      apply filter_In in Hin. destruct Hin as [Hr Heq]. apply Z.eqb_eq in Heq.
      exact (Ho r0 Hr Heq).
Qed.

Lemma assert_array_equal_columns {A : Type} (f : A -> Z) (g : A -> option Z)
    (rows : list A) :
  assert_array_equal (map f rows) (map g rows) = Some tt <->
  forall x, In x rows -> g x = Some (f x).
Proof.
  unfold assert_array_equal.
  rewrite !length_map, Nat.eqb_refl. cbn [andb].
  induction rows as [|x rows IH]; simpl.
  - split; [intros _ x [] | reflexivity].
  - destruct (g x) as [d|] eqn:E.
    + destruct (Z.eqb_spec (f x) d) as [Heq|Hne]; simpl.
      * rewrite IH. split.
        -- intros H y [<-|Hy]; [congruence | auto].
        -- intros H y Hy. apply H. now right.
      * split; [discriminate|]. intro H.
        specialize (H x (or_introl eq_refl)). congruence.
    + split; [discriminate|]. intro H.
      specialize (H x (or_introl eq_refl)). congruence.
Qed.

(** C3, amended: one operation of the notebooks asserts a relation of its
    data, the [np.testing.assert_array_equal] at line 390 of the matching
    notebook; after the left merge of line 381 it passes exactly when every
    matched galaxy has its [object_id] among the [galaxy_id]s read from the
    extragalactic catalog. No other notebook asserts anything. *)
Theorem one_assertion_checks_the_merge :
  map assertions repository
  = [ []; []; []; [Simple 390 [] [call "np.testing.assert_array_equal"]]; [] ]
  /\ forall (matched_gals : list Left) (extragalactic_data : list Right),
       merge_and_check Left Right left_on right_on matched_gals extragalactic_data
       = Some (merge_left Left Right left_on right_on matched_gals extragalactic_data)
       <-> forall g, In g matched_gals ->
             exists x, In x extragalactic_data /\ right_on x = left_on g.
Proof.
  split; [vm_compute; reflexivity|].
  intros matched_gals extragalactic_data. unfold merge_and_check.
  pose proof (assert_array_equal_columns
                (fun p : Left * option Right => left_on (fst p))
                (fun p => option_map right_on (snd p))
                (merge_left Left Right left_on right_on matched_gals extragalactic_data))
    as Hassert.
  destruct (assert_array_equal _ _) as [[]|]; split.
  - intros _ g Hg.
    destruct (filter (fun r => Z.eqb (right_on r) (left_on g)) extragalactic_data)
      as [|x found] eqn:E.
    + assert (Hin : In (g, None)
                       (merge_left Left Right left_on right_on matched_gals
                                   extragalactic_data)).
      { apply in_merge_left. simpl. split; [exact Hg|].
        intros r Hr Heq.
        assert (Hf : In r (filter (fun r => Z.eqb (right_on r) (left_on g))
                                  extragalactic_data))
          by (apply filter_In; split; [exact Hr | now apply Z.eqb_eq]).
        rewrite E in Hf. destruct Hf. }
      apply (proj1 Hassert eq_refl) in Hin. discriminate.
    + assert (Hx : In x (filter (fun r => Z.eqb (right_on r) (left_on g))
                                extragalactic_data))
        by (rewrite E; left; reflexivity).
      apply filter_In in Hx. destruct Hx as [Hx Heq]. apply Z.eqb_eq in Heq.
      exists x. auto.
  - reflexivity.
  - discriminate.
  - intro Hall. exfalso.
    assert (Hnone : @None unit = Some tt); [|discriminate].
    apply Hassert. intros [g o] Hin.
    apply in_merge_left in Hin. simpl in Hin. destruct Hin as [Hg Ho].
    destruct o as [r|]; simpl.
    + destruct Ho as [_ ->]. reflexivity.
    + destruct (Hall g Hg) as [x [Hx Heq]]. exfalso. exact (Ho x Hx Heq).
Qed.

End Assertion.

(** ** The ranges [_set_coord_range] sets *)

Section SelectorState.

Import Syntax Inventory StackMatching.

Variables BBox Wcs Point : Type.
Variable getCorners : BBox -> list Point.
Variable pixelToSky : Wcs -> Point -> float * float.

Lemma Forall_map {A B : Type} (f : A -> B) (Q : B -> Prop) (l : list A) :
  Forall Q (map f l) <-> Forall (fun x => Q (f x)) l.
Proof.
  induction l as [|x l IH]; simpl; split; intro H; try constructor;
    inversion H; subst; auto; now apply IH.
Qed.


End SelectorState.

(** On that box the ranges are (55.5, 55.75) and (-28.5, -28.25). *)
Example set_coord_range_example :
  StackMatching._set_coord_range (list (float * float)) unit (float * float)
    (fun corners => corners) (fun _ corner => corner)
    StackMatching.__init__
    [(55.5, -28.5); (55.5, -28.25); (55.75, -28.25); (55.75, -28.5)]%float tt
  = Some {| StackMatching.ra_range := Some (55.5, 55.75)%float;
            StackMatching.dec_range := Some (-28.5, -28.25)%float |}.
Proof. reflexivity. Qed.

(* ===================================================================== *)
(** * Part II, continued: further properties of the notebooks' code *)
(* ===================================================================== *)

(** ** The group-counting cell: totals, shape and failure *)

Section GroupTotals.

Import TruthCoaddMatching.

Lemma list_sum_increment (i : nat) (counts : list nat) :
  i < length counts -> list_sum (increment i counts) = S (list_sum counts).
Proof.
  revert i. induction counts as [|c rest IH]; intros [|i] Hi; simpl in *; try lia.
  rewrite IH by lia. lia.
Qed.

Lemma list_sum_fold_increment (x counts : list nat) :
  Forall (fun v => v < length counts) x ->
  list_sum (fold_left (fun acc v => increment v acc) x counts)
  = list_sum counts + length x.
Proof.
  revert counts. induction x as [|v x IH]; intros counts Hall; simpl; [lia|].
  inversion Hall as [|? ? Hv Hrest]; subst.
  rewrite IH by (rewrite length_increment; exact Hrest).
  rewrite list_sum_increment by exact Hv. lia.
Qed.

Lemma list_sum_repeat_0 (n : nat) : list_sum (repeat 0 n) = 0.
Proof. induction n as [|n IH]; simpl; [reflexivity | exact IH]. Qed.

(** The bins of [np.bincount] add up to the number of items counted. *)
Lemma list_sum_bincount (x : list nat) (minlength : nat) :
  list_sum (bincount x minlength) = length x.
Proof.
  unfold bincount. rewrite list_sum_fold_increment.
  - now rewrite list_sum_repeat_0.
  - rewrite repeat_length. destruct x as [|v x]; [constructor|].
    assert (H : Forall (fun k => k <= list_max (v :: x)) (v :: x)) by now apply list_max_le.
    rewrite Forall_forall in *. intros k Hk. specialize (H k Hk). lia.
Qed.

Lemma concat_rows_of (rows cols : nat) (flat : list nat) :
  length flat = rows * cols -> concat (rows_of rows cols flat) = flat.
Proof.
  revert flat. induction rows as [|rows IH]; intros flat Hlen; simpl in *.
  - destruct flat; [reflexivity | discriminate].
  - rewrite IH by (rewrite length_skipn; lia). apply firstn_skipn.
Qed.

Lemma list_sum_concat (rows : list (list nat)) :
  list_sum (map (fun row => list_sum row) rows) = list_sum (concat rows).
Proof.
  induction rows as [|row rows IH]; simpl; [reflexivity|].
  now rewrite list_sum_app, IH.
Qed.

(** The group-counting cell (lines 231-242) fails on the empty match table,
    where [results['group_id'].max()] has nothing to take the maximum of, and
    on no other. *)
Theorem count_groups_fails_on_the_empty_table_only (results : list ResultRow) :
  count_groups results = None <-> results = [].
Proof.
  split.
  - intro Hnone. destruct results as [|r results]; [reflexivity|].
    destruct (count_groups_nonempty (r :: results)) as [Hsome _]; [discriminate|].
    rewrite Hsome in Hnone. discriminate.
  - intros ->. reflexivity.
Qed.

(** On a match table with at least one row the cell accounts for every row
    and every group once: [n_truth] and [n_coadd] have one bin per group id
    and add up to the number of rows, [hist_2d] is square with [n_max] rows
    and columns, and its entries add up to [n_groups]. *)
Theorem count_groups_accounts_for_rows_and_groups (results : list ResultRow) :
  results <> [] ->
  exists cell, count_groups results = Some cell /\
    n_groups cell = list_max (map group_id results) + 1 /\
    length (n_truth cell) = n_groups cell /\
    length (n_coadd cell) = n_groups cell /\
    list_sum (n_truth cell) + list_sum (n_coadd cell) = length results /\
    length (hist_2d cell) = n_max cell /\
    Forall (fun row => length row = n_max cell) (hist_2d cell) /\
    list_sum (map (fun row => list_sum row) (hist_2d cell)) = n_groups cell.
Proof.
  intro Hne.
  destruct (count_groups_nonempty results Hne) as [Hsome [Hlt [Hlc Hflat]]].
  eexists. split; [exact Hsome|]. cbn [n_groups n_truth n_coadd n_max hist_2d].
  destruct (rows_of_shape _ _ _ Hflat) as [Hrows Hcols].
  repeat split; try assumption.
  - rewrite !list_sum_bincount, map_map, !boolean_index_map, !length_map.
    apply filter_length.
  - rewrite list_sum_concat, concat_rows_of by exact Hflat.
    rewrite list_sum_bincount. unfold scale_add.
    rewrite length_map, length_combine, Hlt, Hlc. apply Nat.min_id.
Qed.

End GroupTotals.

Lemma count_groups_accounts_for_rows_and_groups_witness :
  exists cell, TruthCoaddMatching.count_groups Examples.match_table = Some cell /\
    TruthCoaddMatching.n_groups cell
    = list_max (map TruthCoaddMatching.group_id Examples.match_table) + 1 /\
    length (TruthCoaddMatching.n_truth cell) = TruthCoaddMatching.n_groups cell /\
    length (TruthCoaddMatching.n_coadd cell) = TruthCoaddMatching.n_groups cell /\
    list_sum (TruthCoaddMatching.n_truth cell) + list_sum (TruthCoaddMatching.n_coadd cell)
    = length Examples.match_table /\
    length (TruthCoaddMatching.hist_2d cell) = TruthCoaddMatching.n_max cell /\
    Forall (fun row => length row = TruthCoaddMatching.n_max cell)
           (TruthCoaddMatching.hist_2d cell) /\
    list_sum (map (fun row => list_sum row) (TruthCoaddMatching.hist_2d cell))
    = TruthCoaddMatching.n_groups cell.
Proof.
  apply (count_groups_accounts_for_rows_and_groups Examples.match_table).
  discriminate.
Defined.

(** ** The one-to-one groups *)

Section OneToOneGroups.

Import TruthCoaddMatching.

Lemma boolean_index_filter {A : Type} (p : A -> bool) (rows : list A) :
  Py.boolean_index rows (map p rows) = filter p rows.
Proof.
  rewrite <- (map_id rows) at 1. rewrite boolean_index_map. apply map_id.
Qed.

Lemma boolean_index_seq (mask : list bool) (a : nat) :
  Py.boolean_index (seq a (length mask)) mask
  = filter (fun i => nth (i - a) mask false) (seq a (length mask)).
Proof.
  unfold Py.boolean_index. revert a.
  induction mask as [|b mask IH]; intro a; [reflexivity|].
  cbn [length seq combine filter snd].
  rewrite Nat.sub_diag. change (nth 0 (b :: mask) false) with b.
  assert (Htail : filter (fun i => nth (i - a) (b :: mask) false) (seq (S a) (length mask))
                  = filter (fun i => nth (i - S a) mask false) (seq (S a) (length mask))).
  { apply filter_ext_in. intros i Hi. apply in_seq in Hi.
    replace (i - a) with (S (i - S a)) by lia. reflexivity. }
  rewrite Htail, <- IH. destruct b; reflexivity.
Qed.

(** [np.flatnonzero] lists the true positions in increasing order. *)
Lemma flatnonzero_filter (mask : list bool) :
  flatnonzero mask = filter (fun i => nth i mask false) (seq 0 (length mask)).
Proof.
  unfold flatnonzero. rewrite boolean_index_seq.
  apply filter_ext. intro i. now rewrite Nat.sub_0_r.
Qed.

Lemma nth_and_eqb (a b : list nat) (n g : nat) :
  length a = n -> length b = n -> g < n ->
  nth g (Py.and_ (map (fun k => Nat.eqb k 1) a) (map (fun k => Nat.eqb k 1) b)) false
  = Nat.eqb (nth g a 0) 1 && Nat.eqb (nth g b 0) 1.
Proof.
  unfold Py.and_. revert b n g.
  induction a as [|x a IH]; intros [|y b] n [|g] Ha Hb Hg; simpl in *; try lia.
  - reflexivity.
  - apply (IH b (length a)); lia.
Qed.

(** The group ids line 259 passes to [np.in1d]. *)
Lemma one_to_one_groups (a b : list nat) (n : nat) :
  length a = n -> length b = n ->
  flatnonzero (Py.and_ (map (fun k => Nat.eqb k 1) a) (map (fun k => Nat.eqb k 1) b))
  = filter (fun g => Nat.eqb (nth g a 0) 1 && Nat.eqb (nth g b 0) 1) (seq 0 n).
Proof.
  intros Ha Hb. rewrite flatnonzero_filter.
  assert (Hlen : length (Py.and_ (map (fun k => Nat.eqb k 1) a)
                                 (map (fun k => Nat.eqb k 1) b)) = n)
    by (unfold Py.and_; rewrite length_map, length_combine, !length_map; lia).
  rewrite Hlen. apply filter_ext_in. intros g Hg. apply in_seq in Hg.
  apply (nth_and_eqb a b n g); assumption || lia.
Qed.

Lemma list_sum_map_add {A : Type} (f g : A -> nat) (l : list A) :
  list_sum (map (fun x => f x + g x) l) = list_sum (map f l) + list_sum (map g l).
Proof. induction l as [|x l IH]; simpl; [reflexivity | rewrite IH; lia]. Qed.

Lemma list_sum_map_0 {A : Type} (l : list A) : list_sum (map (fun _ => 0) l) = 0.
Proof. induction l as [|x l IH]; simpl; [reflexivity | exact IH]. Qed.

Lemma list_sum_indicator (v : nat) (G : list nat) :
  NoDup G ->
  list_sum (map (fun g => if Nat.eqb v g then 1 else 0) G)
  = if existsb (Nat.eqb v) G then 1 else 0.
Proof.
  induction 1 as [|g G Hg _ IH]; simpl; [reflexivity|].
  rewrite IH. destruct (Nat.eqb_spec v g) as [->|Hne]; simpl; [|reflexivity].
  destruct (existsb (Nat.eqb g) G) eqn:E; [|reflexivity].
  exfalso. apply Hg. apply existsb_exists in E. destruct E as [x [Hx Hxg]].
  apply Nat.eqb_eq in Hxg. now subst.
Qed.

(** Rows whose group is in a duplicate-free list [G], counted group by group. *)
Lemma length_filter_groups {A : Type} (gid : A -> nat) (p : A -> bool) (G : list nat)
    (rows : list A) :
  NoDup G ->
  length (filter (fun r => existsb (Nat.eqb (gid r)) G && p r) rows)
  = list_sum (map (fun g => length (filter (fun r => p r && Nat.eqb (gid r) g) rows)) G).
Proof.
  intro HG. induction rows as [|r rows IH]; simpl.
  - now rewrite list_sum_map_0.
  - assert (Hsplit : map (fun g => length (if p r && Nat.eqb (gid r) g
                                           then r :: filter (fun r => p r && Nat.eqb (gid r) g) rows
                                           else filter (fun r => p r && Nat.eqb (gid r) g) rows)) G
                     = map (fun g => (if p r then (if Nat.eqb (gid r) g then 1 else 0) else 0)
                                     + length (filter (fun r => p r && Nat.eqb (gid r) g) rows)) G).
    { apply map_ext. intro g. destruct (p r), (Nat.eqb (gid r) g); reflexivity. }
    rewrite Hsplit, list_sum_map_add, <- IH.
    destruct (p r) eqn:Ep.
    + rewrite list_sum_indicator by exact HG. rewrite andb_true_r.
      destruct (existsb (Nat.eqb (gid r)) G); simpl; lia.
    + rewrite list_sum_map_0, andb_false_r. reflexivity.
Qed.

Lemma list_sum_map_const {A : Type} (f : A -> nat) (c : nat) (l : list A) :
  (forall x, In x l -> f x = c) -> list_sum (map f l) = c * length l.
Proof.
  induction l as [|x l IH]; intro H; simpl; [lia|].
  rewrite H by now left. rewrite IH by (intros; apply H; now right). lia.
Qed.

(** The rows of [results] that the masks of lines 259-263 select. *)
Lemma one_to_one_rows (results : list ResultRow) (cell : GroupCounts)
    (p : ResultRow -> bool) :
  Py.boolean_index (map row_index results)
    (Py.and_ (one_to_one_group_mask (one_to_one results cell)) (map p results))
  = map row_index
      (filter (fun r => existsb (Nat.eqb (group_id r))
                          (flatnonzero (Py.and_ (map (fun n => Nat.eqb n 1) (n_truth cell))
                                                (map (fun n => Nat.eqb n 1) (n_coadd cell))))
                        && p r) results).
Proof.
  unfold one_to_one. cbn [one_to_one_group_mask]. unfold in1d.
  now rewrite map_map, and_map, boolean_index_map.
Qed.

Lemma count_groups_bins (results : list ResultRow) (cell : GroupCounts) :
  count_groups results = Some cell ->
  length (n_truth cell) = n_groups cell /\ length (n_coadd cell) = n_groups cell
  /\ (forall g, nth g (n_truth cell) 0
                = length (filter (fun r => String.eqb (catalog_key r) "truth"
                                           && Nat.eqb (group_id r) g) results))
  /\ (forall g, nth g (n_coadd cell) 0
                = length (filter (fun r => negb (String.eqb (catalog_key r) "truth")
                                           && Nat.eqb (group_id r) g) results))
  /\ (forall t c, t < n_max cell -> c < n_max cell ->
        nth t (nth c (hist_2d cell) []) 0
        = length (filter (fun g => Nat.eqb (nth g (n_coadd cell) 0 * n_max cell
                                            + nth g (n_truth cell) 0)
                                           (c * n_max cell + t))
                         (seq 0 (n_groups cell))))
  /\ (forall g, nth g (n_truth cell) 0 < n_max cell)
  /\ (forall g, nth g (n_coadd cell) 0 < n_max cell)
  /\ length (hist_2d cell) = n_max cell.
Proof.
  intro Hcell.
  assert (Hne : results <> []) by (intros ->; discriminate).
  destruct (count_groups_nonempty results Hne) as [Hsome [Hlt [Hlc Hflat]]].
  rewrite Hsome in Hcell. injection Hcell as <-.
  cbn [n_groups n_truth n_coadd n_max hist_2d].
  split; [exact Hlt|]. split; [exact Hlc|]. split; [|split; [|split; [|split; [|split]]]].
  - intro g. now rewrite bincount_nth, boolean_index_map, occurrences_map_filter.
  - intro g. now rewrite bincount_nth, map_map, boolean_index_map, occurrences_map_filter.
  - intros t c Ht Hc.
    rewrite rows_of_nth, bincount_nth by assumption.
    rewrite (scale_add_seq _ _ _ _ Hlc Hlt), occurrences_map. reflexivity.
  - intro g. match goal with |- nth g ?l 0 < _ => pose proof (nth_le_list_max l g) end. lia.
  - intro g. match goal with |- nth g ?l 0 < _ => pose proof (nth_le_list_max l g) end. lia.
  - apply rows_of_shape, Hflat.
Qed.

(** Lines 259-263: [truth_idx] and [coadd_idx] have one entry per group with
    exactly one truth and one coadd member, so they have the same length, and
    that length is the entry [hist_2d[1][1]] of the histogram of the cell
    before. *)
Theorem one_to_one_indices_have_one_entry_per_group (results : list ResultRow)
    (cell : GroupCounts) :
  count_groups results = Some cell ->
  length (truth_idx (one_to_one results cell)) = length (coadd_idx (one_to_one results cell))
  /\ length (truth_idx (one_to_one results cell)) = nth 1 (nth 1 (hist_2d cell) []) 0.
Proof.
  intro Hcell.
  destruct (count_groups_bins results cell Hcell)
    as [Hlt [Hlc [Ht [Hc [Hhist [Hbt [Hbc Hrows]]]]]]].
  pose proof (one_to_one_rows results cell
                (fun r => String.eqb (catalog_key r) "truth")) as Etruth.
  pose proof (one_to_one_rows results cell
                (fun r => negb (String.eqb (catalog_key r) "truth"))) as Ecoadd.
  change (truth_idx (one_to_one results cell))
    with (Py.boolean_index (map row_index results)
            (Py.and_ (one_to_one_group_mask (one_to_one results cell))
                     (map (fun r => String.eqb (catalog_key r) "truth") results))).
  change (coadd_idx (one_to_one results cell))
    with (Py.boolean_index (map row_index results)
            (Py.and_ (one_to_one_group_mask (one_to_one results cell))
                     (map negb (map (fun r => String.eqb (catalog_key r) "truth") results)))).
  rewrite (map_map (fun r => String.eqb (catalog_key r) "truth") negb).
  rewrite Etruth, Ecoadd, !length_map.
  rewrite (one_to_one_groups _ _ _ Hlt Hlc).
  set (G := filter _ (seq 0 (n_groups cell))).
  assert (HG : NoDup G) by (apply NoDup_filter, seq_NoDup).
  assert (HinG : forall g, In g G -> nth g (n_truth cell) 0 = 1 /\ nth g (n_coadd cell) 0 = 1).
  { intros g Hg. apply filter_In in Hg. destruct Hg as [_ Hg].
    apply andb_true_iff in Hg. destruct Hg as [H1 H2].
    apply Nat.eqb_eq in H1, H2. auto. }
  rewrite !length_filter_groups by exact HG.
  rewrite (list_sum_map_const _ 1), (list_sum_map_const _ 1).
  - rewrite Nat.mul_1_l. split; [reflexivity|].
    destruct (Nat.lt_ge_cases 1 (n_max cell)) as [Hn|Hn].
    + rewrite Hhist by exact Hn. unfold G. f_equal.
      apply filter_ext. intro g.
      destruct (Nat.eqb_spec (nth g (n_coadd cell) 0 * n_max cell + nth g (n_truth cell) 0)
                             (1 * n_max cell + 1)) as [E|E].
      * apply code_injective in E; [|exact Hn|apply Hbt]. destruct E as [-> ->]. reflexivity.
      * apply andb_false_iff.
        destruct (Nat.eqb_spec (nth g (n_truth cell) 0) 1) as [E1|E1]; [|now left].
        destruct (Nat.eqb_spec (nth g (n_coadd cell) 0) 1) as [E2|E2]; [|now right].
        exfalso. apply E. rewrite E1, E2. reflexivity.
    + rewrite (nth_overflow (hist_2d cell)) by lia.
      destruct G as [|g G'] eqn:EG; [reflexivity|]. exfalso.
      destruct (HinG g) as [H1 _]; [left; reflexivity|].
      specialize (Hbt g). lia.
  - intros g Hg. rewrite <- Hc. now apply HinG.
  - intros g Hg. rewrite <- Ht. now apply HinG.
Qed.

End OneToOneGroups.

Lemma one_to_one_indices_have_one_entry_per_group_witness :
  exists cell, TruthCoaddMatching.count_groups Examples.match_table = Some cell /\
    length (TruthCoaddMatching.truth_idx (TruthCoaddMatching.one_to_one Examples.match_table cell))
    = length (TruthCoaddMatching.coadd_idx (TruthCoaddMatching.one_to_one Examples.match_table cell))
    /\ length (TruthCoaddMatching.truth_idx
                 (TruthCoaddMatching.one_to_one Examples.match_table cell))
       = nth 1 (nth 1 (TruthCoaddMatching.hist_2d cell) []) 0.
Proof.
  eexists. split; [vm_compute; reflexivity|].
  apply (one_to_one_indices_have_one_entry_per_group Examples.match_table).
  vm_compute. reflexivity.
Defined.

(** ** The pairs of the one-to-one groups *)

Section MatchedPairs.

Import TruthCoaddMatching.

Lemma sorted_by_group_inv (r : ResultRow) (rows : list ResultRow) :
  sorted_by_group (r :: rows) = true ->
  sorted_by_group rows = true /\ Forall (fun x => group_id r <= group_id x) rows.
Proof.
  revert r. induction rows as [|y rows IH]; intros r H.
  - split; [reflexivity | constructor].
  - unfold sorted_by_group in H. cbn [tl combine forallb fst snd] in H.
    apply andb_true_iff in H. destruct H as [Hry Hrest].
    apply Nat.leb_le in Hry.
    destruct (IH y Hrest) as [_ Hall].
    split; [exact Hrest|]. constructor; [exact Hry|].
    rewrite Forall_forall in *. intros x Hx. specialize (Hall x Hx). lia.
Qed.

Lemma sorted_by_group_cons (r : ResultRow) (rows : list ResultRow) :
  Forall (fun x => group_id r <= group_id x) rows -> sorted_by_group rows = true ->
  sorted_by_group (r :: rows) = true.
Proof.
  intros Hall Hrows. destruct rows as [|y rows]; [reflexivity|].
  unfold sorted_by_group. cbn [tl combine forallb fst snd].
  apply andb_true_iff. split; [|exact Hrows].
  apply Nat.leb_le. inversion Hall; assumption.
Qed.

(** A selection of rows of a sorted table is sorted. *)
Lemma sorted_by_group_filter (p : ResultRow -> bool) (rows : list ResultRow) :
  sorted_by_group rows = true -> sorted_by_group (filter p rows) = true.
Proof.
  induction rows as [|r rows IH]; intro H; [reflexivity|].
  apply sorted_by_group_inv in H. destruct H as [Hrows Hall].
  simpl. destruct (p r); [|now apply IH].
  apply sorted_by_group_cons; [|now apply IH].
  rewrite Forall_forall in *. intros x Hx. apply Hall.
  apply filter_In in Hx. tauto.
Qed.

Lemma length_filter_pos {A : Type} (p : A -> bool) (l : list A) :
  0 < length (filter p l) -> exists x, In x l /\ p x = true.
Proof.
  intro H. destruct (filter p l) as [|x rest] eqn:E; [simpl in H; lia|].
  exists x. apply filter_In. rewrite E. now left.
Qed.

(** Two sorted tables in which every group has the same number of rows list
    the groups in the same order. *)
Lemma sorted_same_counts (l1 l2 : list ResultRow) :
  sorted_by_group l1 = true -> sorted_by_group l2 = true ->
  (forall g, length (filter (fun r => Nat.eqb (group_id r) g) l1)
             = length (filter (fun r => Nat.eqb (group_id r) g) l2)) ->
  map group_id l1 = map group_id l2.
Proof.
  revert l2. induction l1 as [|x l1 IH]; intros l2 H1 H2 Hcount.
  - destruct l2 as [|y l2]; [reflexivity|].
    specialize (Hcount (group_id y)). simpl in Hcount.
    rewrite Nat.eqb_refl in Hcount. discriminate.
  - destruct l2 as [|y l2].
    + specialize (Hcount (group_id x)). simpl in Hcount.
      rewrite Nat.eqb_refl in Hcount. discriminate.
    + apply sorted_by_group_inv in H1, H2.
      destruct H1 as [H1 Hx], H2 as [H2 Hy].
      assert (Hxy : group_id x = group_id y).
      { assert (Hle1 : group_id x <= group_id y).
        { pose proof (Hcount (group_id y)) as Hc. simpl in Hc.
          rewrite (Nat.eqb_refl (group_id y)) in Hc.
          destruct (Nat.eqb_spec (group_id x) (group_id y)) as [E|E]; [lia|].
          destruct (length_filter_pos (fun r => Nat.eqb (group_id r) (group_id y)) l1)
            as [z [Hz Ez]]; [simpl in Hc; lia|].
          apply Nat.eqb_eq in Ez. rewrite Forall_forall in Hx.
          specialize (Hx z Hz). lia. }
        assert (Hle2 : group_id y <= group_id x).
        { pose proof (Hcount (group_id x)) as Hc. simpl in Hc.
          rewrite (Nat.eqb_refl (group_id x)) in Hc.
          destruct (Nat.eqb_spec (group_id y) (group_id x)) as [E|E]; [lia|].
          destruct (length_filter_pos (fun r => Nat.eqb (group_id r) (group_id x)) l2)
            as [z [Hz Ez]]; [simpl in Hc; lia|].
          apply Nat.eqb_eq in Ez. rewrite Forall_forall in Hy.
          specialize (Hy z Hz). lia. }
        lia. }
      simpl. rewrite Hxy. f_equal. apply IH; try assumption.
      intro g. specialize (Hcount g). simpl in Hcount. rewrite Hxy in Hcount.
      destruct (Nat.eqb (group_id y) g); simpl in Hcount; lia.
Qed.

Lemma length_filter_filter {A : Type} (p q : A -> bool) (l : list A) :
  length (filter q (filter p l)) = length (filter (fun x => p x && q x) l).
Proof.
  induction l as [|x l IH]; simpl; [reflexivity|].
  destruct (p x); simpl; [|exact IH]. destruct (q x); simpl; now rewrite IH.
Qed.

(** In a selection by groups [G] and a test [p], group [g] has the rows that
    pass [p] if [g] is in [G], and none otherwise. *)
Lemma count_in_selection (G : list nat) (p : ResultRow -> bool) (rows : list ResultRow)
    (g : nat) :
  length (filter (fun r => Nat.eqb (group_id r) g)
                 (filter (fun r => existsb (Nat.eqb (group_id r)) G && p r) rows))
  = if existsb (Nat.eqb g) G
    then length (filter (fun r => p r && Nat.eqb (group_id r) g) rows)
    else 0.
Proof.
  rewrite length_filter_filter.
  destruct (existsb (Nat.eqb g) G) eqn:E.
  - f_equal. apply filter_ext. intro r.
    destruct (Nat.eqb_spec (group_id r) g) as [->|Hne].
    + now rewrite E.
    + now rewrite !andb_false_r.
  - assert (Hnil : filter (fun r => existsb (Nat.eqb (group_id r)) G && p r
                                    && Nat.eqb (group_id r) g) rows
                   = filter (fun _ => false) rows).
    { apply filter_ext. intro r.
      destruct (Nat.eqb_spec (group_id r) g) as [->|Hne].
      - now rewrite E.
      - now rewrite andb_false_r. }
    now rewrite Hnil, filter_false.
Qed.

Lemma map_eq_Forall2 {A B : Type} (f : A -> B) (l1 l2 : list A) :
  map f l1 = map f l2 -> Forall2 (fun x y => f x = f y) l1 l2.
Proof.
  revert l2. induction l1 as [|x l1 IH]; intros [|y l2] H; simpl in H; try discriminate.
  - constructor.
  - injection H as Hxy Hrest. constructor; auto.
Qed.

Lemma Forall2_on_maps {A B C D : Type} (R : C -> D -> Prop) (f : A -> C) (g : B -> D)
    (l1 : list A) (l2 : list B) :
  Forall2 (fun x y => R (f x) (g y)) l1 l2 -> Forall2 R (map f l1) (map g l2).
Proof. induction 1; simpl; constructor; auto. Qed.

Lemma Forall2_with {A B : Type} (R : A -> B -> Prop) (P : A -> Prop) (Q : B -> Prop)
    (l1 : list A) (l2 : list B) :
  Forall P l1 -> Forall Q l2 -> Forall2 R l1 l2 ->
  Forall2 (fun x y => P x /\ Q y /\ R x y) l1 l2.
Proof.
  intros H1 H2 H. revert H1 H2.
  induction H as [|x y l1 l2 Hxy _ IH]; intros H1 H2; constructor.
  - inversion H1; inversion H2; auto.
  - apply IH; [now inversion H1 | now inversion H2].
Qed.

Lemma one_to_one_aligned (results : list ResultRow) (cell : GroupCounts) :
  count_groups results = Some cell ->
  sorted_by_group results = true ->
  Forall2 (same_group results)
          (truth_idx (one_to_one results cell)) (coadd_idx (one_to_one results cell)).
Proof.
  intros Hcell Hsorted.
  destruct (count_groups_bins results cell Hcell)
    as [Hlt [Hlc [Ht [Hc _]]]].
  pose proof (one_to_one_rows results cell
                (fun r => String.eqb (catalog_key r) "truth")) as Etruth.
  pose proof (one_to_one_rows results cell
                (fun r => negb (String.eqb (catalog_key r) "truth"))) as Ecoadd.
  change (truth_idx (one_to_one results cell))
    with (Py.boolean_index (map row_index results)
            (Py.and_ (one_to_one_group_mask (one_to_one results cell))
                     (map (fun r => String.eqb (catalog_key r) "truth") results))).
  change (coadd_idx (one_to_one results cell))
    with (Py.boolean_index (map row_index results)
            (Py.and_ (one_to_one_group_mask (one_to_one results cell))
                     (map negb (map (fun r => String.eqb (catalog_key r) "truth") results)))).
  rewrite (map_map (fun r => String.eqb (catalog_key r) "truth") negb).
  rewrite Etruth, Ecoadd.
  rewrite (one_to_one_groups _ _ _ Hlt Hlc).
  set (G := filter _ (seq 0 (n_groups cell))).
  assert (HinG : forall g, existsb (Nat.eqb g) G = true ->
                           nth g (n_truth cell) 0 = 1 /\ nth g (n_coadd cell) 0 = 1).
  { intros g Hg. apply existsb_exists in Hg. destruct Hg as [g' [Hg' E]].
    apply Nat.eqb_eq in E. subst g'.
    apply filter_In in Hg'. destruct Hg' as [_ Hg'].
    apply andb_true_iff in Hg'. destruct Hg' as [H1 H2].
    apply Nat.eqb_eq in H1, H2. auto. }
  set (T := filter (fun r => existsb (Nat.eqb (group_id r)) G
                             && String.eqb (catalog_key r) "truth") results).
  set (C := filter (fun r => existsb (Nat.eqb (group_id r)) G
                             && negb (String.eqb (catalog_key r) "truth")) results).
  assert (Hgroups : map group_id T = map group_id C).
  { apply sorted_same_counts; try (apply sorted_by_group_filter; exact Hsorted).
    intro g. unfold T, C. rewrite !count_in_selection.
    destruct (existsb (Nat.eqb g) G) eqn:E; [|reflexivity].
    destruct (HinG g E) as [H1 H2]. rewrite <- Ht, <- Hc. congruence. }
  apply Forall2_on_maps. apply map_eq_Forall2 in Hgroups.
  assert (HT : Forall (fun t => In t results /\ catalog_key t = "truth") T).
  { apply Forall_forall. intros t Hin. apply filter_In in Hin. destruct Hin as [Hin Hp].
    apply andb_true_iff in Hp. destruct Hp as [_ Hp]. apply String.eqb_eq in Hp. auto. }
  assert (HC : Forall (fun c => In c results /\ catalog_key c <> "truth") C).
  { apply Forall_forall. intros c Hin. apply filter_In in Hin. destruct Hin as [Hin Hp].
    apply andb_true_iff in Hp. destruct Hp as [_ Hp]. apply negb_true_iff in Hp.
    apply String.eqb_neq in Hp. auto. }
  pose proof (Forall2_with _ _ _ _ _ HT HC Hgroups) as Hall.
  clear - Hall. induction Hall as [|t c T C [[Ht Hk] [[Hc Hk'] Hg]] _ IH]; constructor; auto.
  exists t, c. repeat split; auto.
Qed.

Lemma iloc_total {A : Type} (data : list A) (idx : list nat) :
  Forall (fun i => i < length data) idx ->
  exists rows, iloc data idx = Some rows
               /\ Forall2 (fun i row => nth_error data i = Some row) idx rows.
Proof.
  induction 1 as [|i idx Hi _ [rows [E IH]]]; simpl.
  - exists []. split; [reflexivity | constructor].
  - destruct (nth_error data i) as [row|] eqn:Erow.
    + rewrite E. exists (row :: rows). split; [reflexivity|]. constructor; assumption.
    + apply nth_error_None in Erow. lia.
Qed.

Lemma Forall2_combine3 {A B C D : Type} (R : A -> B -> Prop) (P : A -> C -> Prop)
    (Q : B -> D -> Prop) (l1 : list A) (l2 : list B) (r1 : list C) (r2 : list D) :
  Forall2 R l1 l2 -> Forall2 P l1 r1 -> Forall2 Q l2 r2 ->
  length (combine r1 r2) = length l1 /\
  Forall (fun p => exists i j, R i j /\ P i (fst p) /\ Q j (snd p)) (combine r1 r2).
Proof.
  intro H. revert r1 r2.
  induction H as [|i j l1 l2 Hij _ IH]; intros r1 r2 H1 H2.
  - inversion H1; inversion H2; subst. simpl. split; [reflexivity | constructor].
  - inversion H1 as [|? c ? r1' Hc Hr1]; inversion H2 as [|? d ? r2' Hd Hr2]; subst.
    simpl. destruct (IH _ _ Hr1 Hr2) as [Hlen Hall]. split; [now rewrite Hlen|].
    constructor; [|exact Hall]. exists i, j. auto.
Qed.

(** Lines 259-263 and 335-337: when the match table comes sorted by group id
    and the row indices of its one-to-one groups are rows of the two
    catalogs, the merged table [matched] has one row per one-to-one group,
    and each row joins a truth object with a coadd object of the same group. *)
Theorem matched_rows_join_one_group {Truth Coadd : Type} (results : list ResultRow)
    (cell : GroupCounts) (truth_data : list Truth) (coadd_data : list Coadd) :
  count_groups results = Some cell ->
  sorted_by_group results = true ->
  Forall (fun i => i < length truth_data) (truth_idx (one_to_one results cell)) ->
  Forall (fun j => j < length coadd_data) (coadd_idx (one_to_one results cell)) ->
  exists pairs, matched truth_data coadd_data (one_to_one results cell) = Some pairs /\
    length pairs = length (truth_idx (one_to_one results cell)) /\
    Forall (fun p => exists t c, In t results /\ In c results /\
                       catalog_key t = "truth" /\ catalog_key c <> "truth" /\
                       group_id t = group_id c /\
                       nth_error truth_data (row_index t) = Some (fst p) /\
                       nth_error coadd_data (row_index c) = Some (snd p)) pairs.
Proof.
  intros Hcell Hsorted Htruth Hcoadd.
  pose proof (one_to_one_aligned results cell Hcell Hsorted) as Haligned.
  destruct (iloc_total truth_data _ Htruth) as [truth_matched [Et Ht]].
  destruct (iloc_total coadd_data _ Hcoadd) as [coadd_matched [Ec Hc]].
  unfold matched. rewrite Et, Ec. eexists. split; [reflexivity|].
  destruct (Forall2_combine3 _ _ _ _ _ _ _ Haligned Ht Hc) as [Hlen Hall].
  split; [exact Hlen|].
  rewrite Forall_forall in *. intros p Hp.
  destruct (Hall p Hp) as [i [j [[t [c [H1 [H2 [H3 [H4 [H5 [H6 H7]]]]]]]] [Hi Hj]]]].
  subst i j. exists t, c. repeat split; assumption.
Qed.

End MatchedPairs.

Lemma matched_rows_join_one_group_witness :
  exists cell pairs,
    TruthCoaddMatching.count_groups Examples.match_table = Some cell /\
    TruthCoaddMatching.matched Examples.truth_rows Examples.coadd_rows
      (TruthCoaddMatching.one_to_one Examples.match_table cell) = Some pairs /\
    length pairs
    = length (TruthCoaddMatching.truth_idx
                (TruthCoaddMatching.one_to_one Examples.match_table cell)) /\
    Forall (fun p => exists t c,
              In t Examples.match_table /\ In c Examples.match_table /\
              TruthCoaddMatching.catalog_key t = "truth" /\
              TruthCoaddMatching.catalog_key c <> "truth" /\
              TruthCoaddMatching.group_id t = TruthCoaddMatching.group_id c /\
              nth_error Examples.truth_rows (TruthCoaddMatching.row_index t) = Some (fst p) /\
              nth_error Examples.coadd_rows (TruthCoaddMatching.row_index c) = Some (snd p))
           pairs.
Proof.
  do 2 eexists. split; [vm_compute; reflexivity|].
  assert (H := matched_rows_join_one_group Examples.match_table _
                 Examples.truth_rows Examples.coadd_rows eq_refl eq_refl).
  destruct H as [pairs [Hsome Hrest]].
  - repeat constructor.
  - repeat constructor.
  - cbv in Hsome. injection Hsome as <-. split; [reflexivity | exact Hrest].
Defined.

(** The sorting matters. On a table that is not sorted by group the two index
    arrays still have the same length, but their first entries belong to
    different groups, so line 337 joins a truth object with the coadd object
    of another group. *)
Example unsorted_table_pairs_wrongly :
  exists cell, TruthCoaddMatching.count_groups Examples.unsorted_table = Some cell /\
    TruthCoaddMatching.sorted_by_group Examples.unsorted_table = false /\
    TruthCoaddMatching.matched Examples.truth_rows Examples.coadd_rows
      (TruthCoaddMatching.one_to_one Examples.unsorted_table cell)
    = Some [("t0", "c0"); ("t1", "c1")] /\
    ~ TruthCoaddMatching.same_group Examples.unsorted_table 0 0.
Proof.
  eexists. split; [vm_compute; reflexivity|]. split; [reflexivity|].
  split; [vm_compute; reflexivity|].
  intros [t [c [Ht [Hc [Hi [Hj [Hkt [Hkc Hg]]]]]]]].
  simpl in Ht, Hc.
  destruct Ht as [<-|[<-|[<-|[<-|[]]]]]; simpl in Hi, Hkt; try discriminate;
    destruct Hc as [<-|[<-|[<-|[<-|[]]]]]; simpl in Hj, Hkc, Hg;
    try discriminate; congruence.
Qed.

(** ** The left merge on unique keys *)

Section MergeRows.

Import TruthCoaddMatching.

Variables Left Right : Type.
Variable left_on : Left -> Z.
Variable right_on : Right -> Z.






End MergeRows.


(** The identifier 2^53 + 1 is no [float64]: next to a row without a match
    the merged table shows 2^53 for it. *)
Example merged_galaxy_id_is_rounded :
  TruthCoaddMatching.merged_galaxy_id Z Z (fun r => r)
    (TruthCoaddMatching.merge_left Z Z (fun l => l) (fun r => r)
       [9007199254740993%Z; 4%Z] [9007199254740993%Z])
  = TruthCoaddMatching.float64 [9007199254740992%float; nan].
Proof. vm_compute. reflexivity. Qed.

(** ** The queries of the truth catalog *)

Section TruthQueries.

Variable list_of_healpix : list Z.
Variable angularSeparation : float -> float -> float -> float -> float.

Lemma fold_max_bounds (rest : list Z) (first : Z) :
  (first <= fold_left Z.max rest first)%Z
  /\ Forall (fun x => (x <= fold_left Z.max rest first)%Z) rest.
Proof.
  revert first. induction rest as [|y rest IH]; intro first; simpl.
  - split; [lia | constructor].
  - destruct (IH (Z.max first y)) as [H1 H2]. split; [lia|].
    constructor; [lia | exact H2].
Qed.

Lemma fold_min_bounds (rest : list Z) (first : Z) :
  (fold_left Z.min rest first <= first)%Z
  /\ Forall (fun x => (fold_left Z.min rest first <= x)%Z) rest.
Proof.
  revert first. induction rest as [|y rest IH]; intro first; simpl.
  - split; [lia | constructor].
  - destruct (IH (Z.min first y)) as [H1 H2]. split; [lia|].
    constructor; [lia | exact H2].
Qed.

(** A pixel of the list lies between the smallest and the largest. *)
Lemma healpix_in_range (top bottom hh : Z) :
  TruthCatalog.np_max list_of_healpix = Some top ->
  TruthCatalog.np_min list_of_healpix = Some bottom ->
  TruthCatalog.contains list_of_healpix hh = true ->
  Z.leb hh top = true /\ Z.geb hh bottom = true.
Proof.
  intros Htop Hbottom Hin. apply contains_In in Hin.
  destruct list_of_healpix as [|first rest]; [destruct Hin|].
  simpl in Htop, Hbottom. injection Htop as <-. injection Hbottom as <-.
  destruct (fold_max_bounds rest first) as [M1 M2].
  destruct (fold_min_bounds rest first) as [m1 m2].
  rewrite Forall_forall in M2, m2.
  rewrite Z.leb_le, Z.geb_le.
  destruct Hin as [<-|Hin]; [lia|]. specialize (M2 hh Hin). specialize (m2 hh Hin). lia.
Qed.

Lemma and_filter {A : Type} (f g : A -> bool) (rows : list A) :
  Py.boolean_index rows (Py.and_ (map f rows) (map g rows))
  = filter (fun x => f x && g x) rows.
Proof. rewrite and_map. apply boolean_index_filter. Qed.

Lemma filter_twice {A : Type} (p q : A -> bool) (l : list A) :
  filter q (filter p l) = filter (fun x => p x && q x) l.
Proof.
  induction l as [|x l IH]; simpl; [reflexivity|].
  destruct (p x); simpl; [|exact IH]. destruct (q x); simpl; now rewrite IH.
Qed.

Lemma existsb_filter {A : Type} (p : A -> bool) (l : list A) :
  existsb p l = match filter p l with
                | [] => false
                | _ => true
                end.
Proof.
  induction l as [|x l IH]; simpl; [reflexivity|]. destruct (p x); [reflexivity | exact IH].
Qed.

Lemma existsb_pointwise {A : Type} (p q : A -> bool) (l : list A) :
  (forall x, p x = q x) -> existsb p l = existsb q l.
Proof.
  intro H. induction l as [|x l IH]; simpl; [reflexivity|]. now rewrite H, IH.
Qed.

(** What a query returns, for any native filters: nothing but an error when
    no row passes them, since [filter_on_healpix] then returns an array that
    is no mask. *)
Lemma get_quantities_rows (truth_catalog : list TruthCatalog.TruthObject)
    (native_filters : list TruthCatalog.NativeFilter) :
  TruthCatalog.get_quantities list_of_healpix angularSeparation truth_catalog native_filters
  = if existsb (fun o => forallb (TruthCatalog.satisfies o) native_filters) truth_catalog
    then Some (filter (fun o =>
                    forallb (TruthCatalog.satisfies o) native_filters
                    && (TruthCatalog.contains list_of_healpix (TruthCatalog.healpix_2048 o)
                        && Py.lt (angularSeparation (TruthCatalog.ra o) (TruthCatalog.dec o)
                                                    TruthCatalog.center_ra
                                                    TruthCatalog.center_dec)
                                 TruthCatalog.radius))
                 truth_catalog)
    else None.
Proof.
  unfold TruthCatalog.get_quantities. rewrite existsb_filter, <- filter_twice.
  destruct (filter (fun o => forallb (TruthCatalog.satisfies o) native_filters) truth_catalog)
    as [|first rest]; [reflexivity|].
  set (loaded := first :: rest).
  unfold TruthCatalog.filter_on_dist, TruthCatalog.angularSeparation_arrays,
    TruthCatalog.filter_on_healpix.
  rewrite !length_map, Nat.eqb_refl. cbn [option_map].
  rewrite combine_map_same, !map_map. cbn [fst snd].
  unfold loaded at 1. cbn [map TruthCatalog.np_array]. fold loaded.
  change (TruthCatalog.contains list_of_healpix (TruthCatalog.healpix_2048 first)
          :: map (fun x => TruthCatalog.contains list_of_healpix (TruthCatalog.healpix_2048 x))
                 rest)
    with (map (fun x => TruthCatalog.contains list_of_healpix (TruthCatalog.healpix_2048 x))
              loaded).
  now rewrite and_filter.
Qed.

(** Lines 676-682 and 709-715. Each of the two queries fails when
    [list_of_healpix] is empty, at [list_of_healpix.max()], and when no row
    of the table passes its native filters, where [filter_on_healpix] gets an
    empty array and returns one that is no mask. Otherwise the query returns,
    in table order, exactly the stars brighter than [r = 17] (the galaxies
    that were not sprinkled and are brighter than [r = 21]) whose pixel is in
    [list_of_healpix] and whose separation from the centre is below the
    radius: the two range conditions on [healpix_2048] among the native
    filters remove no object that the two filter functions keep. *)
Theorem truth_queries_return_the_disc (truth_catalog : list TruthCatalog.TruthObject) :
  let in_disc o :=
    TruthCatalog.contains list_of_healpix (TruthCatalog.healpix_2048 o)
    && Py.lt (angularSeparation (TruthCatalog.ra o) (TruthCatalog.dec o) 54.6 (-28.0)) 0.2 in
  let in_range top bottom o :=
    Z.leb (TruthCatalog.healpix_2048 o) top && Z.geb (TruthCatalog.healpix_2048 o) bottom in
  (TruthCatalog.np_max list_of_healpix = None <-> list_of_healpix = [])
  /\ (TruthCatalog.np_min list_of_healpix = None <-> list_of_healpix = [])
  /\ TruthCatalog.bright_stars list_of_healpix angularSeparation truth_catalog
     = match TruthCatalog.np_max list_of_healpix, TruthCatalog.np_min list_of_healpix with
       | Some top, Some bottom =>
         if existsb (fun o => Z.eqb (TruthCatalog.star o) 1
                              && Py.lt (TruthCatalog.r o) 17.0 && in_range top bottom o)
                    truth_catalog
         then Some (filter (fun o => Z.eqb (TruthCatalog.star o) 1
                                     && Py.lt (TruthCatalog.r o) 17.0 && in_disc o)
                           truth_catalog)
         else None
       | _, _ => None
       end
  /\ TruthCatalog.bright_unsprinkled_galaxies list_of_healpix angularSeparation truth_catalog
     = match TruthCatalog.np_max list_of_healpix, TruthCatalog.np_min list_of_healpix with
       | Some top, Some bottom =>
         if existsb (fun o => Z.eqb (TruthCatalog.star o) 0
                              && Z.eqb (TruthCatalog.sprinkled o) 0
                              && Py.lt (TruthCatalog.r o) 21.0 && in_range top bottom o)
                    truth_catalog
         then Some (filter (fun o => Z.eqb (TruthCatalog.star o) 0
                                     && Z.eqb (TruthCatalog.sprinkled o) 0
                                     && Py.lt (TruthCatalog.r o) 21.0 && in_disc o)
                           truth_catalog)
         else None
       | _, _ => None
       end.
Proof.
  intros in_disc in_range.
  split; [destruct list_of_healpix; split; intro H; reflexivity || discriminate|].
  split; [destruct list_of_healpix; split; intro H; reflexivity || discriminate|].
  unfold TruthCatalog.bright_stars, TruthCatalog.bright_unsprinkled_galaxies.
  destruct (TruthCatalog.np_max list_of_healpix) as [top|] eqn:Etop;
    [|split; reflexivity].
  destruct (TruthCatalog.np_min list_of_healpix) as [bottom|] eqn:Ebottom;
    [|split; reflexivity].
  rewrite !get_quantities_rows.
  assert (Hrange : forall o, TruthCatalog.contains list_of_healpix (TruthCatalog.healpix_2048 o)
                             = true ->
                             Z.leb (TruthCatalog.healpix_2048 o) top = true
                             /\ Z.geb (TruthCatalog.healpix_2048 o) bottom = true)
    by (intros o Ho; eapply healpix_in_range; eassumption).
  split.
  - rewrite (existsb_pointwise _ (fun o => Z.eqb (TruthCatalog.star o) 1
                                       && Py.lt (TruthCatalog.r o) 17.0
                                       && in_range top bottom o)).
    + destruct (existsb _ truth_catalog); [|reflexivity].
      f_equal. apply filter_ext. intro o. specialize (Hrange o).
      cbn [forallb TruthCatalog.satisfies]. unfold in_disc.
      change TruthCatalog.center_ra with 54.6%float.
      change TruthCatalog.center_dec with (-28.0)%float.
      change TruthCatalog.radius with 0.2%float.
      destruct (TruthCatalog.contains list_of_healpix (TruthCatalog.healpix_2048 o));
        try (destruct (Hrange eq_refl) as [Hle Hge]; rewrite Hle, Hge);
        rewrite ?andb_true_r, ?andb_false_r, ?andb_true_l, ?andb_false_l, ?andb_assoc;
        reflexivity.
    + intro o. cbn [forallb TruthCatalog.satisfies]. unfold in_range.
      rewrite ?andb_true_r, ?andb_assoc. reflexivity.
  - rewrite (existsb_pointwise _ (fun o => Z.eqb (TruthCatalog.star o) 0
                                       && Z.eqb (TruthCatalog.sprinkled o) 0
                                       && Py.lt (TruthCatalog.r o) 21.0
                                       && in_range top bottom o)).
    + destruct (existsb _ truth_catalog); [|reflexivity].
      f_equal. apply filter_ext. intro o. specialize (Hrange o).
      cbn [forallb TruthCatalog.satisfies]. unfold in_disc.
      change TruthCatalog.center_ra with 54.6%float.
      change TruthCatalog.center_dec with (-28.0)%float.
      change TruthCatalog.radius with 0.2%float.
      destruct (TruthCatalog.contains list_of_healpix (TruthCatalog.healpix_2048 o));
        try (destruct (Hrange eq_refl) as [Hle Hge]; rewrite Hle, Hge);
        rewrite ?andb_true_r, ?andb_false_r, ?andb_true_l, ?andb_false_l, ?andb_assoc;
        reflexivity.
    + intro o. cbn [forallb TruthCatalog.satisfies]. unfold in_range.
      rewrite ?andb_true_r, ?andb_assoc. reflexivity.
Qed.

End TruthQueries.

(** ** The cluster members notebook *)

Section ClusterFigures.

Import ClusterMembers.

Lemma plot_clusters_firstn (galaxy_data : list Galaxy) (i : nat) (clusters : list Galaxy) :
  plot_clusters galaxy_data i clusters = map (plot galaxy_data) (firstn (3 - i) clusters).
Proof.
  revert i. induction clusters as [|c clusters IH]; intro i.
  - now rewrite firstn_nil.
  - cbn [plot_clusters]. destruct (Nat.leb 3 i) eqn:Hi.
    + apply Nat.leb_le in Hi. replace (3 - i) with 0 by lia. reflexivity.
    + apply Nat.leb_gt in Hi. replace (3 - i) with (S (3 - S i)) by lia.
      cbn [firstn map]. now rewrite IH.
Qed.

Lemma in_firstn {A : Type} (n : nat) (l : list A) (x : A) :
  In x (firstn n l) -> In x l.
Proof.
  intro H. rewrite <- (firstn_skipn n l). apply in_or_app. now left.
Qed.

(** Lines 72-74 and 95-113: the loop with its [break] draws one figure for
    each of the first three clusters of [cluster_data], in order, and none
    for the others; a cluster is a central galaxy of a halo above 1e14 at
    redshift below 0.2, and its figure shows exactly the galaxies of the
    catalog with [mag_r < 19] that carry its [halo_id], one marker size for
    each and their number in the label. *)
Theorem figures_show_the_first_three_clusters (gc : list Galaxy) :
  map cluster (figures gc) = firstn 3 (cluster_data gc)
  /\ length (figures gc) = Nat.min 3 (length (cluster_data gc))
  /\ Forall (fun fig =>
               In (cluster fig) gc
               /\ is_central (cluster fig) = true
               /\ Py.gt (halo_mass (cluster fig)) 1e14 = true
               /\ Py.lt (redshift (cluster fig)) 0.2 = true
               /\ members fig
                  = filter (fun g => Py.lt (mag_r g) 19
                                     && Z.eqb (halo_id g) (halo_id (cluster fig))) gc
               /\ label fig = length (members fig)
               /\ length (sizes fig) = length (members fig))
            (figures gc).
Proof.
  unfold figures. rewrite plot_clusters_firstn, Nat.sub_0_r.
  split; [|split].
  - rewrite map_map. apply map_id.
  - now rewrite length_map, length_firstn.
  - apply Forall_forall. intros fig Hfig.
    apply in_map_iff in Hfig. destruct Hfig as [c [<- Hc]].
    apply in_firstn in Hc. unfold cluster_data in Hc.
    apply filter_In in Hc. destruct Hc as [Hc Hp].
    apply andb_true_iff in Hp. destruct Hp as [Hp Hz].
    apply andb_true_iff in Hp. destruct Hp as [Hcentral Hmass].
    unfold plot, galaxy_data. cbn [cluster members label sizes].
    rewrite filter_twice, !length_map. repeat split; assumption.
Qed.

End ClusterFigures.

(** ** Stars, galaxies and the rows without a classification *)

Lemma SFcompare_defined (a b : spec_float) (c : comparison) :
  SFcompare a b = Some c -> SFcompare b b = Some Eq.
Proof.
  destruct a as [sa|sa| |sa ma ea], b as [sb|sb| |sb mb eb]; simpl; try congruence;
    intros _; destruct sb; simpl; rewrite ?Z.compare_refl, ?Pos.compare_cont_refl;
    try reflexivity; now rewrite Pos.compare_refl.
Qed.

(** A comparison with NaN is false. *)
Lemma nan_compares_false (x y : float) :
  Py.is_nan y = true -> Py.lt y x = false /\ Py.le x y = false.
Proof.
  intro Hnan. split.
  - destruct (Py.lt y x) eqn:E; [|reflexivity].
    apply lt_compare, SFcompare_Lt_Gt, SFcompare_defined, is_nan_compare in E. congruence.
  - destruct (Py.le x y) eqn:E; [|reflexivity].
    apply le_compare in E.
    destruct E as [E|E]; apply SFcompare_defined, is_nan_compare in E; congruence.
Qed.

Lemma length_filter_three {A : Type} (p q r : A -> bool) (l : list A) :
  (forall x, (if p x then 1 else 0) + (if q x then 1 else 0) + (if r x then 1 else 0) = 1) ->
  length (filter p l) + length (filter q l) + length (filter r l) = length l.
Proof.
  intro H. induction l as [|x l IH]; simpl; [reflexivity|].
  specialize (H x). destruct (p x), (q x), (r x); simpl in *; lia.
Qed.

(** Lines 763-765: a row of [good_snr] is counted among the stars, or among
    the galaxies, or has no extendedness (NaN); the three numbers add up to
    the length of [good_snr], so the only rows the split loses are those the
    classifier did not rate. *)
Theorem stars_and_galaxies_miss_only_nan (df : CoaddCatalogs.DataFrame) :
  length (CoaddCatalogs.stars df) + length (CoaddCatalogs.galaxies df)
  + length (filter (fun row =>
                      Py.is_nan (CoaddCatalogs.base_ClassificationExtendedness_value row))
                   (CoaddCatalogs.good_snr df))
  = length (CoaddCatalogs.good_snr df).
Proof.
  unfold CoaddCatalogs.stars, CoaddCatalogs.galaxies, CoaddCatalogs.column_lt,
    CoaddCatalogs.column_ge, CoaddCatalogs.safe_max_extended.
  rewrite !boolean_index_filter. apply length_filter_three. intro row.
  set (x := CoaddCatalogs.base_ClassificationExtendedness_value row).
  destruct (Py.is_nan x) eqn:Enan.
  - destruct (nan_compares_false 1.0 x Enan) as [-> ->]. reflexivity.
  - destruct (Py.lt x 1.0) eqn:Elt.
    + now rewrite (lt_not_le _ _ Elt).
    + rewrite (not_lt_le 1.0 x); [reflexivity | reflexivity | exact Enan | exact Elt].
Qed.

(** ** The selection of the objects to match *)

(** Lines 87-108, 124 and 180-182: the truth catalog and the coadd catalog
    return an object under the same condition on its position and i
    magnitude: inside the box, magnitude finite and below 24.5. The native
    filter ['i < 24.5'] of the truth query changes nothing. *)
Theorem truth_and_coadd_are_cut_alike (truth coadd : TruthCoaddMatching.Object)
    (ra dec mag : float) :
  TruthCoaddMatching.quantity_of coadd "ra" = Some ra ->
  TruthCoaddMatching.quantity_of coadd "dec" = Some dec ->
  TruthCoaddMatching.quantity_of coadd "mag_i" = Some mag ->
  TruthCoaddMatching.quantity_of truth "ra" = Some ra ->
  TruthCoaddMatching.quantity_of truth "dec" = Some dec ->
  TruthCoaddMatching.quantity_of truth "i" = Some mag ->
  TruthCoaddMatching.coadd_selected coadd
  = Some (Py.le 55.5 ra && Py.lt ra 56.0 && Py.le (-29.0) dec && Py.lt dec (-28.5)
          && PrimFloat.is_finite mag && Py.lt mag 24.5)
  /\ TruthCoaddMatching.truth_selected truth = TruthCoaddMatching.coadd_selected coadd.
Proof.
  intros Hra Hdec Hmag Tra Tdec Ti.
  unfold TruthCoaddMatching.coadd_selected, TruthCoaddMatching.truth_selected,
    TruthCoaddMatching.truth_native_filters, TruthCoaddMatching.coord_filters,
    TruthCoaddMatching.mag_filters.
  rewrite Ti.
  assert (Tm : TruthCoaddMatching.quantity_of (("mag_i", mag) :: truth) "mag_i" = Some mag)
    by reflexivity.
  cbn [app TruthCoaddMatching.test_all TruthCoaddMatching.test].
  rewrite Hra, Hdec, Hmag, Tra, Tdec, Ti, Tm. cbn [option_map].
  change TruthCoaddMatching.ra_min with 55.5%float.
  change TruthCoaddMatching.ra_max with 56.0%float.
  change TruthCoaddMatching.dec_min with (-29.0)%float.
  change TruthCoaddMatching.dec_max with (-28.5)%float.
  destruct (Py.le 55.5 ra), (Py.lt ra 56.0), (Py.le (-29.0) dec), (Py.lt dec (-28.5)),
    (PrimFloat.is_finite mag), (Py.lt mag 24.5); split; reflexivity.
Qed.

Lemma truth_and_coadd_are_cut_alike_witness :
  TruthCoaddMatching.coadd_selected [("ra", 55.75%float); ("dec", (-28.75)%float);
                                     ("mag_i", 22.5%float)]
  = Some (Py.le 55.5 55.75 && Py.lt 55.75 56.0 && Py.le (-29.0) (-28.75)
          && Py.lt (-28.75) (-28.5) && PrimFloat.is_finite 22.5 && Py.lt 22.5 24.5)
  /\ TruthCoaddMatching.truth_selected [("ra", 55.75%float); ("dec", (-28.75)%float);
                                        ("i", 22.5%float)]
     = TruthCoaddMatching.coadd_selected [("ra", 55.75%float); ("dec", (-28.75)%float);
                                          ("mag_i", 22.5%float)].
Proof.
  apply (truth_and_coadd_are_cut_alike
           [("ra", 55.75%float); ("dec", (-28.75)%float); ("i", 22.5%float)]
           [("ra", 55.75%float); ("dec", (-28.75)%float); ("mag_i", 22.5%float)]
           55.75 (-28.75) 22.5); reflexivity.
Defined.

(** ** New catalogs, and the catalog [RegionSelector.__call__] fills *)

Section SourceCatalogs.

Import StackMatching.

Variable makeMinimalSchema : Schema.
Variable rotate : float -> float -> float * float.

Lemma make_SourceCatalog_cons (minimal : Schema) (coldef : Coldef) (rest : list Coldef) :
  make_SourceCatalog minimal (coldef :: rest)
  = if has_field minimal (name coldef) then None
    else make_SourceCatalog (minimal ++ [coldef])%list rest.
Proof.
  unfold make_SourceCatalog. cbn [option_map]. unfold addField.
  destruct (has_field minimal (name coldef)); reflexivity.
Qed.

Lemma has_field_last (minimal : Schema) (coldef : Coldef) (field : string) :
  has_field (minimal ++ [coldef])%list field
  = has_field minimal field || String.eqb (name coldef) field.
Proof.
  rewrite has_field_app. unfold has_field at 2. cbn [existsb]. now rewrite orb_false_r.
Qed.

(** Lines 63-81: the schema of the new catalog is the minimal schema followed
    by the new columns, and the call fails exactly when a new column repeats
    a name. *)
Lemma make_SourceCatalog_fresh (minimal : Schema) (new_cols : list Coldef)
    (catalog : SourceCatalog) :
  make_SourceCatalog minimal new_cols = Some catalog <->
  NoDup (map name new_cols)
  /\ Forall (fun c => has_field minimal (name c) = false) new_cols
  /\ catalog = {| schema := (minimal ++ new_cols)%list; records := [] |}.
Proof.
  revert minimal. induction new_cols as [|c rest IH]; intro minimal.
  - unfold make_SourceCatalog. cbn [option_map map]. rewrite app_nil_r. split.
    + intro H. injection H as <-. repeat split; constructor.
    + intros [_ [_ ->]]. reflexivity.
  - rewrite make_SourceCatalog_cons. cbn [map].
    destruct (has_field minimal (name c)) eqn:Ec.
    + split; [discriminate|]. intros [_ [Hall _]]. inversion Hall; congruence.
    + rewrite IH, <- app_assoc. cbn [app]. split.
      * intros [Hnd [Hall ->]]. split; [|split; [|reflexivity]].
        -- constructor; [|exact Hnd]. intro Hin. apply in_map_iff in Hin.
           destruct Hin as [c' [Heq Hc']]. rewrite Forall_forall in Hall.
           specialize (Hall c' Hc'). rewrite has_field_last in Hall.
           apply orb_false_iff in Hall. destruct Hall as [_ Hne].
           rewrite Heq, String.eqb_refl in Hne. discriminate.
        -- constructor; [exact Ec|]. rewrite Forall_forall in *. intros c' Hc'.
           specialize (Hall c' Hc'). rewrite has_field_last in Hall.
           apply orb_false_iff in Hall. tauto.
      * intros [Hnd [Hall ->]]. inversion Hnd as [|? ? Hc Hrest]; subst.
        inversion Hall as [|? ? _ Hall']; subst.
        split; [exact Hrest|]. split; [|reflexivity].
        rewrite Forall_forall in *. intros c' Hc'. rewrite has_field_last.
        apply orb_false_iff. split; [now apply Hall'|].
        apply String.eqb_neq. intro Heq. apply Hc. rewrite Heq. now apply in_map.
Qed.

Lemma mag_names (bands : list string) :
  map name (mag_cols bands) = map (fun x => "mag_" ++ x) bands.
Proof. unfold mag_cols. rewrite map_map. reflexivity. Qed.

Lemma NoDup_mag_names (bands : list string) :
  NoDup (map (fun x => "mag_" ++ x) bands) <-> NoDup bands.
Proof.
  split.
  - apply NoDup_map_inv.
  - intro H. induction H as [|b bands Hb _ IH]; simpl; constructor; [|exact IH].
    intro Hin. apply in_map_iff in Hin. destruct Hin as [b' [Heq Hb']].
    cbn in Heq. injection Heq as ->. contradiction.
Qed.

(** Lines 63-88: [make_SourceCatalog(mag_cols(bands))] returns an empty
    catalog whose schema is the minimal schema followed by one float field
    [mag_<band>] per band, in the order of [bands], and it fails exactly when
    a band is given twice or the minimal schema already has the field of a
    band. *)
Theorem make_SourceCatalog_needs_fresh_bands (bands : list string)
    (catalog : SourceCatalog) :
  make_SourceCatalog makeMinimalSchema (mag_cols bands) = Some catalog <->
  NoDup bands
  /\ Forall (fun band => has_field makeMinimalSchema ("mag_" ++ band) = false) bands
  /\ catalog
     = {| schema := (makeMinimalSchema
                       ++ map (fun band => {| name := "mag_" ++ band; type := TypeFloat;
                                              doc := band ++ "-magnitude" |}) bands)%list;
          records := [] |}.
Proof.
  rewrite make_SourceCatalog_fresh, mag_names, NoDup_mag_names.
  unfold mag_cols. rewrite Forall_map. cbn [name]. reflexivity.
Qed.

(** *** The records of the returned catalog, galaxy by galaxy *)

Lemma passes_mask (quantity : string) (bound : float) (gc : list Galaxy)
    (mask : list bool) :
  traverse (passes [Less quantity bound]) gc = Some mask ->
  mask = map (fun g => match lookup g quantity with
                       | Some m => Py.lt m bound
                       | None => false
                       end) gc.
Proof.
  revert mask. induction gc as [|g gc IH]; simpl; intros mask H.
  - now injection H as <-.
  - destruct (passes [Less quantity bound] g) as [b|] eqn:Eb; [|discriminate].
    destruct (traverse _ gc) as [bs|]; [|discriminate].
    injection H as <-. rewrite (IH bs eq_refl). f_equal.
    unfold passes in Eb. cbn [traverse] in Eb.
    destruct (PrimFloat.is_finite bound); [|discriminate].
    destruct (lookup g quantity) as [m|]; [|discriminate].
    simpl in Eb. injection Eb as <-. apply andb_true_r.
Qed.

Lemma Forall2_map_l {A B C : Type} (R : B -> C -> Prop) (f : A -> B) (l : list A)
    (l' : list C) :
  Forall2 (fun x y => R (f x) y) l l' -> Forall2 R (map f l) l'.
Proof. induction 1; simpl; constructor; auto. Qed.

Lemma call_records (self : RegionSelector) (gc : list Galaxy) (band : string)
    (max_mag : float) (ra_bounds dec_bounds : float * float) (catalog : SourceCatalog) :
  ra_range self = Some ra_bounds ->
  dec_range self = Some dec_bounds ->
  __call__ makeMinimalSchema rotate self gc band max_mag = Some catalog ->
  Forall2 (record_of rotate band) (filter (kept rotate band max_mag ra_bounds dec_bounds) gc)
          (records catalog).
Proof.
  intros Hra Hdec. unfold __call__. rewrite Hra, Hdec.
  set (bandname := "mag_true_" ++ band ++ "_lsst").
  unfold get_quantities.
  destruct (traverse (passes [Less bandname max_mag]) gc) as [mask|] eqn:Emask;
    [|discriminate].
  apply passes_mask in Emask. subst mask. rewrite boolean_index_filter.
  set (rows := filter _ gc).
  destruct (traverse (fun g => lookup g bandname) rows) as [mags|] eqn:Emags;
    [|discriminate].
  apply traverse_Forall2 in Emags.
  destruct (Forall2_combine_maps _ _ _ Emags) as [Hfst Hsnd].
  cbn [col_galaxy_id col_ra_true col_dec_true col_band].
  set (pairs := combine rows mags) in *.
  rewrite <- Hsnd, <- Hfst.
  rewrite (transform_map rotate), !map_map, !and_map.
  rewrite !take_np_where_map.
  destruct (make_SourceCatalog _ _) as [empty|] eqn:Eempty; [|discriminate].
  apply (make_SourceCatalog_mag_cols makeMinimalSchema) in Eempty.
  destruct Eempty as [_ Hrecords].
  unfold zip4. rewrite !combine_map_same, traverse_map.
  destruct (traverse _ _) as [new|] eqn:Enew; [|discriminate].
  cbn [option_map]. intro H. injection H as <-. cbn [records]. rewrite Hrecords.
  cbn [app]. apply traverse_Forall2 in Enew.
  assert (Hkept : filter (kept rotate band max_mag ra_bounds dec_bounds) gc
                  = map fst (filter (fun x : Galaxy * float =>
                       Py.gt (fst (rotate (ra_true (fst x)) (dec_true (fst x)))) (fst ra_bounds)
                       && Py.lt (fst (rotate (ra_true (fst x)) (dec_true (fst x)))) (snd ra_bounds)
                       && Py.gt (snd (rotate (ra_true (fst x)) (dec_true (fst x)))) (fst dec_bounds)
                       && Py.lt (snd (rotate (ra_true (fst x)) (dec_true (fst x)))) (snd dec_bounds))
                     pairs)).
  { pose (inside := fun g : Galaxy =>
       Py.gt (fst (rotate (ra_true g) (dec_true g))) (fst ra_bounds)
       && Py.lt (fst (rotate (ra_true g) (dec_true g))) (snd ra_bounds)
       && Py.gt (snd (rotate (ra_true g) (dec_true g))) (fst dec_bounds)
       && Py.lt (snd (rotate (ra_true g) (dec_true g))) (snd dec_bounds)).
    transitivity (filter inside (map fst pairs)).
    - rewrite Hfst. unfold rows. rewrite filter_twice. reflexivity.
    - exact (filter_map_swap inside fst pairs). }
  rewrite Hkept. apply Forall2_map_l.
  apply Forall2_combine in Emags. fold pairs in Emags. rewrite Forall_forall in Emags.
  remember (filter _ pairs) as chosen eqn:Echosen.
  assert (Hchosen : Forall (fun t => In t pairs) chosen).
  { subst chosen. apply Forall_forall. intros t Ht. apply filter_In in Ht. tauto. }
  clear Echosen Hkept Hfst Hsnd. clearbody pairs.
  induction Enew as [|t record chosen' new' Hrec _ IH]; constructor.
  - inversion Hchosen as [|? ? Hin _]; subst.
    specialize (Emags t Hin). destruct t as [g m]. simpl in *.
    apply new_record_get in Hrec. destruct Hrec as [G1 [G2 [G3 G4]]].
    exists m. repeat split; assumption.
  - apply IH. now inversion Hchosen.
Qed.

End SourceCatalogs.

Section SelectedGalaxies.

Import StackMatching.

Variable makeMinimalSchema : Schema.
Variable rotate : float -> float -> float * float.

Lemma Forall2_length_eq {A B : Type} (R : A -> B -> Prop) (l : list A) (l' : list B) :
  Forall2 R l l' -> length l = length l'.
Proof. induction 1; simpl; congruence. Qed.

Lemma Forall2_In_l {A B : Type} (R : A -> B -> Prop) (l : list A) (l' : list B) (x : A) :
  Forall2 R l l' -> In x l -> exists y, In y l' /\ R x y.
Proof.
  induction 1 as [|a b l l' Hab _ IH]; intros Hin; [destruct Hin|].
  destruct Hin as [<-|Hin].
  - exists b. split; [now left | exact Hab].
  - destruct (IH Hin) as [y [Hy Hxy]]. exists y. split; [now right | exact Hxy].
Qed.

Lemma Forall2_In_r {A B : Type} (R : A -> B -> Prop) (l : list A) (l' : list B) (y : B) :
  Forall2 R l l' -> In y l' -> exists x, In x l /\ R x y.
Proof.
  induction 1 as [|a b l l' Hab _ IH]; intros Hin; [destruct Hin|].
  destruct Hin as [<-|Hin].
  - exists a. split; [now left | exact Hab].
  - destruct (IH Hin) as [x [Hx Hxy]]. exists x. split; [now right | exact Hxy].
Qed.

(** Lines 144-195: the catalog [__call__] returns has one record for each
    galaxy of the catalog that is brighter than [max_mag] and whose rotated
    position is strictly inside the two ranges, in catalog order: no such
    galaxy is left out and none is recorded twice. The record of a galaxy
    holds its [galaxy_id], its rotated position and its magnitude. *)
Theorem region_selector_call_records_each_kept_galaxy (self : RegionSelector)
    (gc : list Galaxy) (band : string) (max_mag : float)
    (ra_bounds dec_bounds : float * float) (catalog : SourceCatalog) :
  ra_range self = Some ra_bounds ->
  dec_range self = Some dec_bounds ->
  __call__ makeMinimalSchema rotate self gc band max_mag = Some catalog ->
  map (fun record => get record "id") (records catalog)
  = map (fun g => Some (VInt (galaxy_id g)))
        (filter (kept rotate band max_mag ra_bounds dec_bounds) gc)
  /\ length (records catalog)
     = length (filter (kept rotate band max_mag ra_bounds dec_bounds) gc)
  /\ (forall g, In g gc -> kept rotate band max_mag ra_bounds dec_bounds g = true ->
        exists record, In record (records catalog) /\ record_of rotate band g record).
Proof.
  intros Hra Hdec Hcall.
  pose proof (call_records makeMinimalSchema rotate self gc band max_mag ra_bounds
                dec_bounds catalog Hra Hdec Hcall) as Hall.
  split; [|split].
  - induction Hall as [|g record gs rs [mag [_ [Hid _]]] _ IH]; simpl; [reflexivity|].
    now rewrite Hid, IH.
  - symmetry. eapply Forall2_length_eq, Hall.
  - intros g Hg Hkept. eapply Forall2_In_l; [exact Hall|].
    apply filter_In. auto.
Qed.

Section Corners.

Variables BBox Wcs Point : Type.
Variable getCorners : BBox -> list Point.
Variable pixelToSky : Wcs -> Point -> float * float.

Lemma fold_min_In (rest : list float) (first : float) :
  In (fold_left (fun m y => if Py.lt y m then y else m) rest first) (first :: rest).
Proof.
  revert first. induction rest as [|y rest IH]; intro first; simpl; [now left|].
  destruct (Py.lt y first).
  - right. apply IH.
  - destruct (IH first) as [H|H]; [now left | right; now right].
Qed.

Lemma fold_max_In (rest : list float) (first : float) :
  In (fold_left (fun m y => if Py.gt y m then y else m) rest first) (first :: rest).
Proof.
  revert first. induction rest as [|y rest IH]; intro first; simpl; [now left|].
  destruct (Py.gt y first).
  - right. apply IH.
  - destruct (IH first) as [H|H]; [now left | right; now right].
Qed.

(** The builtins return an item of the sequence. *)
Lemma min_In (xs : list float) (m : float) : Py.min xs = Some m -> In m xs.
Proof.
  destruct xs as [|x rest]; [discriminate|]. intro H. injection H as <-. apply fold_min_In.
Qed.

Lemma max_In (xs : list float) (m : float) : Py.max xs = Some m -> In m xs.
Proof.
  destruct xs as [|x rest]; [discriminate|]. intro H. injection H as <-. apply fold_max_In.
Qed.

(** The ranges [_set_coord_range] sets are coordinates of corners. *)
Lemma set_coord_range_corners (old self : RegionSelector) (bbox : BBox) (wcs : Wcs) :
  _set_coord_range BBox Wcs Point getCorners pixelToSky old bbox wcs = Some self ->
  exists c1 c2 c3 c4,
    In c1 (getCorners bbox) /\ In c2 (getCorners bbox) /\
    In c3 (getCorners bbox) /\ In c4 (getCorners bbox) /\
    ra_range self = Some (fst (pixelToSky wcs c1), fst (pixelToSky wcs c2)) /\
    dec_range self = Some (snd (pixelToSky wcs c3), snd (pixelToSky wcs c4)).
Proof.
  unfold _set_coord_range.
  destruct (Py.min (map fst (map (pixelToSky wcs) (getCorners bbox)))) as [ra_lo|] eqn:E1;
    [|discriminate].
  destruct (Py.max (map fst (map (pixelToSky wcs) (getCorners bbox)))) as [ra_hi|] eqn:E2;
    [|discriminate].
  destruct (Py.min (map snd (map (pixelToSky wcs) (getCorners bbox)))) as [dec_lo|] eqn:E3;
    [|discriminate].
  destruct (Py.max (map snd (map (pixelToSky wcs) (getCorners bbox)))) as [dec_hi|] eqn:E4;
    [|discriminate].
  intro H. injection H as <-. cbn [ra_range dec_range].
  apply min_In in E1, E3. apply max_In in E2, E4.
  rewrite map_map in E1, E2, E3, E4.
  apply in_map_iff in E1, E2, E3, E4.
  destruct E1 as [c1 [<- H1]], E2 as [c2 [<- H2]], E3 as [c3 [<- H3]], E4 as [c4 [<- H4]].
  exists c1, c2, c3, c4. repeat split; assumption.
Qed.

(** Lines 119-142, 204-222 and 144-195 together: a selector made by
    [CcdSelector] or [PatchSelector] and then called returns only galaxies
    whose rotated position lies strictly between corners of the region: right
    ascension above that of one corner and below that of another, and the
    same for the declination. *)
Theorem selector_of_a_region_keeps_within_its_corners (bbox : BBox) (wcs : Wcs)
    (self : RegionSelector) (gc : list Galaxy) (band : string) (max_mag : float)
    (catalog : SourceCatalog) :
  CcdSelector BBox Wcs Point getCorners pixelToSky (bbox, wcs) = Some self
  \/ PatchSelector BBox Wcs Point getCorners pixelToSky bbox wcs = Some self ->
  __call__ makeMinimalSchema rotate self gc band max_mag = Some catalog ->
  Forall (fun record =>
            exists ra dec c1 c2 c3 c4,
              get record "coord_ra" = Some (VAngle {| value := ra; unit := degrees |}) /\
              get record "coord_dec" = Some (VAngle {| value := dec; unit := degrees |}) /\
              In c1 (getCorners bbox) /\ In c2 (getCorners bbox) /\
              In c3 (getCorners bbox) /\ In c4 (getCorners bbox) /\
              Py.gt ra (fst (pixelToSky wcs c1)) = true /\
              Py.lt ra (fst (pixelToSky wcs c2)) = true /\
              Py.gt dec (snd (pixelToSky wcs c3)) = true /\
              Py.lt dec (snd (pixelToSky wcs c4)) = true)
         (records catalog).
Proof.
  intros Hself Hcall.
  assert (Hset : _set_coord_range BBox Wcs Point getCorners pixelToSky __init__ bbox wcs
                 = Some self) by (destruct Hself as [H|H]; exact H).
  destruct (set_coord_range_corners _ _ _ _ Hset)
    as [c1 [c2 [c3 [c4 [H1 [H2 [H3 [H4 [Hra Hdec]]]]]]]]].
  pose proof (call_records makeMinimalSchema rotate self gc band max_mag _ _ catalog
                Hra Hdec Hcall) as Hall.
  apply Forall_forall. intros record Hrecord.
  destruct (Forall2_In_r _ _ _ _ Hall Hrecord) as [g [Hg [mag [_ [_ [Gra [Gdec _]]]]]]].
  apply filter_In in Hg. destruct Hg as [_ Hkept]. unfold kept in Hkept.
  apply andb_true_iff in Hkept. destruct Hkept as [_ Hkept].
  repeat (apply andb_true_iff in Hkept; destruct Hkept as [Hkept ?]).
  cbn [fst snd] in *.
  do 2 eexists. exists c1, c2, c3, c4. repeat split; eassumption.
Qed.

End Corners.

End SelectedGalaxies.

Lemma region_selector_call_records_each_kept_galaxy_witness :
  exists catalog,
    StackMatching.__call__ Examples.minimal_schema Examples.shift Examples.selector
                           Examples.field "r" 24.5 = Some catalog
    /\ map (fun record => StackMatching.get record "id") (StackMatching.records catalog)
       = map (fun g => Some (StackMatching.VInt (StackMatching.galaxy_id g)))
             (filter (StackMatching.kept Examples.shift "r" 24.5 (54.5, 56)%float
                                         (-29, -28)%float) Examples.field)
    /\ length (StackMatching.records catalog)
       = length (filter (StackMatching.kept Examples.shift "r" 24.5 (54.5, 56)%float
                                            (-29, -28)%float) Examples.field)
    /\ (forall g, In g Examples.field ->
          StackMatching.kept Examples.shift "r" 24.5 (54.5, 56)%float (-29, -28)%float g
          = true ->
          exists record, In record (StackMatching.records catalog)
                         /\ StackMatching.record_of Examples.shift "r" g record).
Proof.
  eexists. split; [vm_compute; reflexivity|].
  apply (region_selector_call_records_each_kept_galaxy Examples.minimal_schema
           Examples.shift Examples.selector Examples.field "r" 24.5
           (54.5, 56)%float (-29, -28)%float);
    [reflexivity | reflexivity | vm_compute; reflexivity].
Defined.

(** On the example field the call keeps the galaxies 13 and 17. *)
Example call_keeps_two_of_the_field :
  option_map (fun catalog => map (fun record => StackMatching.get record "id")
                                 (StackMatching.records catalog))
             (StackMatching.__call__ Examples.minimal_schema Examples.shift
                                     Examples.selector Examples.field "r" 24.5)
  = Some [Some (StackMatching.VInt 13); Some (StackMatching.VInt 17)].
Proof. vm_compute. reflexivity. Qed.

Lemma selector_of_a_region_keeps_within_its_corners_witness :
  exists self catalog,
    StackMatching.CcdSelector (list (float * float)) unit (float * float)
      (fun corners => corners) (fun _ corner => corner) (Examples.corners, tt) = Some self
    /\ StackMatching.__call__ Examples.minimal_schema Examples.shift self
                              Examples.field "r" 24.5 = Some catalog
    /\ length (StackMatching.records catalog) = 1
    /\ Forall (fun record =>
                 exists ra dec c1 c2 c3 c4,
                   StackMatching.get record "coord_ra"
                   = Some (StackMatching.VAngle {| StackMatching.value := ra;
                                                   StackMatching.unit := StackMatching.degrees |}) /\
                   StackMatching.get record "coord_dec"
                   = Some (StackMatching.VAngle {| StackMatching.value := dec;
                                                   StackMatching.unit := StackMatching.degrees |}) /\
                   In c1 Examples.corners /\ In c2 Examples.corners /\
                   In c3 Examples.corners /\ In c4 Examples.corners /\
                   Py.gt ra (fst c1) = true /\ Py.lt ra (fst c2) = true /\
                   Py.gt dec (snd c3) = true /\ Py.lt dec (snd c4) = true)
              (StackMatching.records catalog).
Proof.
  do 2 eexists. split; [vm_compute; reflexivity|].
  split; [vm_compute; reflexivity|]. split; [reflexivity|].
  apply (selector_of_a_region_keeps_within_its_corners Examples.minimal_schema
           Examples.shift (list (float * float)) unit (float * float)
           (fun corners => corners) (fun _ corner => corner) Examples.corners tt
           {| StackMatching.ra_range := Some (55.5, 55.75)%float;
              StackMatching.dec_range := Some (-28.5, -28.25)%float |}
           Examples.field "r" 24.5);
    [left; reflexivity | vm_compute; reflexivity].
Defined.

(** ** A range that is no number *)

Section NanRange.

Import StackMatching.

Variable makeMinimalSchema : Schema.
Variable rotate : float -> float -> float * float.

Lemma SFcompare_defined_l (a b : spec_float) (c : comparison) :
  SFcompare a b = Some c -> SFcompare a a = Some Eq.
Proof.
  destruct a as [sa|sa| |sa ma ea], b as [sb|sb| |sb mb eb]; simpl; try congruence;
    intros _; destruct sa; simpl; rewrite ?Z.compare_refl, ?Pos.compare_cont_refl;
    try reflexivity; now rewrite Pos.compare_refl.
Qed.

(** [<] is false when either side is NaN. *)
Lemma lt_nan (x y : float) :
  Py.is_nan x = true \/ Py.is_nan y = true -> Py.lt x y = false.
Proof.
  intro Hnan. destruct (Py.lt x y) eqn:E; [|reflexivity].
  apply lt_compare in E. destruct Hnan as [Hnan|Hnan].
  - apply SFcompare_defined_l, is_nan_compare in E. congruence.
  - apply SFcompare_defined, is_nan_compare in E. congruence.
Qed.

(** Lines 177-180: the four comparisons are strict, and a comparison with NaN
    is false. A selector one of whose bounds is NaN therefore selects no
    galaxy: where a call with these arguments returns at all (the magnitude
    limit is a finite number, every galaxy has the magnitude asked for, the
    minimal schema has the three fields the loop sets and no field
    [mag_<band>]) it raises nothing and returns a catalog without records. *)
Theorem nan_bound_selects_nothing (self : RegionSelector) (gc : list Galaxy)
    (band : string) (max_mag : float) (ra_bounds dec_bounds : float * float) :
  ra_range self = Some ra_bounds ->
  dec_range self = Some dec_bounds ->
  PrimFloat.is_finite max_mag = true ->
  Forall (fun g => lookup g ("mag_true_" ++ band ++ "_lsst") <> None) gc ->
  has_field makeMinimalSchema "id" = true ->
  has_field makeMinimalSchema "coord_ra" = true ->
  has_field makeMinimalSchema "coord_dec" = true ->
  has_field makeMinimalSchema ("mag_" ++ band) = false ->
  Py.is_nan (fst ra_bounds) = true \/ Py.is_nan (snd ra_bounds) = true
  \/ Py.is_nan (fst dec_bounds) = true \/ Py.is_nan (snd dec_bounds) = true ->
  exists catalog,
    __call__ makeMinimalSchema rotate self gc band max_mag = Some catalog
    /\ records catalog = [].
Proof.
  intros Hra Hdec Hfinite Hgc Hid Hcra Hcdec Hmag Hnan.
  destruct (call_returns makeMinimalSchema rotate self gc band max_mag ra_bounds dec_bounds
              Hra Hdec Hfinite Hgc Hid Hcra Hcdec Hmag) as [catalog Hcall].
  exists catalog. split; [exact Hcall|].
  pose proof (call_records makeMinimalSchema rotate self gc band max_mag ra_bounds
                dec_bounds catalog Hra Hdec Hcall) as Hall.
  assert (Hnone : filter (kept rotate band max_mag ra_bounds dec_bounds) gc = []).
  { rewrite <- (filter_false gc). apply filter_ext. intro g. unfold kept, Py.gt.
    destruct Hnan as [H|[H|[H|H]]].
    - rewrite (lt_nan (fst ra_bounds) _ (or_introl H)).
      now rewrite !andb_false_l, andb_false_r.
    - rewrite (lt_nan _ (snd ra_bounds) (or_intror H)).
      now rewrite andb_false_r, !andb_false_l, andb_false_r.
    - rewrite (lt_nan (fst dec_bounds) _ (or_introl H)).
      now rewrite andb_false_r, !andb_false_l, andb_false_r.
    - rewrite (lt_nan _ (snd dec_bounds) (or_intror H)).
      now rewrite !andb_false_r. }
  rewrite Hnone in Hall. now inversion Hall.
Qed.

End NanRange.

Lemma nan_bound_selects_nothing_witness :
  exists catalog,
    StackMatching.__call__ Examples.minimal_schema Examples.shift Examples.nan_selector
                           Examples.field "r" 24.5 = Some catalog
    /\ StackMatching.records catalog = [].
Proof.
  apply (nan_bound_selects_nothing Examples.minimal_schema Examples.shift
           Examples.nan_selector Examples.field "r" 24.5 (nan, 56)%float (-29, -28)%float);
    try reflexivity.
  - repeat (apply Forall_cons; [vm_compute; discriminate|]). apply Forall_nil.
  - left. reflexivity.
Defined.

(** With a magnitude limit that is no number the reader fails, and so does
    the call, whatever the ranges. *)
Example nan_limit_fails :
  StackMatching.__call__ Examples.minimal_schema Examples.shift Examples.selector
                         Examples.field "r" nan = None.
Proof. vm_compute. reflexivity. Qed.

(** ** The catalog of well-measured galaxies (lines 309-334) *)

Section DrpCatalog.

Import StackMatching.

Variable makeMinimalSchema : Schema.
Variable getMagnitude : float -> option float.

Lemma well_measured_filter (catalog : list Source) :
  well_measured catalog = filter cuts catalog.
Proof.
  unfold well_measured. rewrite !map_map, !and_map. apply boolean_index_filter.
Qed.

Lemma repackage_get (sch : Schema) (filter_ : string) (row : Source) (record : SourceRecord) :
  repackage getMagnitude sch filter_ row = Some record ->
  repackaged getMagnitude filter_ row record.
Proof.
  unfold repackage, set.
  destruct (has_field sch "id"); [|discriminate].
  destruct (has_field sch "coord_ra"); [|discriminate].
  destruct (has_field sch "coord_dec"); [|discriminate].
  destruct (has_field sch "parent"); [|discriminate].
  destruct (getMagnitude (model_flux row)) as [mag|] eqn:Emag; [|discriminate].
  destruct (has_field sch ("mag_" ++ filter_)); [|discriminate].
  intro H. injection H as <-. exists mag. split; [exact Emag|]. unfold get. simpl.
  rewrite String.eqb_refl. repeat split; reflexivity.
Qed.

(** The rows that pass the depth cut, from the magnitudes of line 322. *)
Lemma depth_cut (catalog : list Source) (mag_max : float) (mag : list float) :
  Forall2 (fun row m => getMagnitude (model_flux row) = Some m) (filter cuts catalog) mag ->
  Py.boolean_index (filter cuts catalog) (map (fun m => Py.lt m mag_max) mag)
  = filter (fun row => cuts row && bright getMagnitude mag_max row) catalog.
Proof.
  intro Emag.
  destruct (Forall2_combine_maps _ _ _ Emag) as [Hfst Hsnd].
  apply Forall2_combine in Emag.
  set (pairs := combine (filter cuts catalog) mag) in *.
  rewrite <- Hsnd, <- Hfst at 1. rewrite map_map, boolean_index_map.
  transitivity (map fst (filter (fun x : Source * float =>
                                   bright getMagnitude mag_max (fst x)) pairs)).
  - f_equal. apply filter_ext_in. intros [row m] Hin.
    rewrite Forall_forall in Emag. specialize (Emag _ Hin). cbn [fst snd] in Emag |- *.
    unfold bright. now rewrite Emag.
  - rewrite <- (filter_map_swap (bright getMagnitude mag_max) fst pairs), Hfst.
    apply filter_twice.
Qed.

(** What the cell has built when it has run through. *)
Lemma drp_catalog_records (catalog : list Source) (filter_ : string) (mag_max : float)
    (drp : SourceCatalog) :
  drp_catalog makeMinimalSchema getMagnitude catalog filter_ mag_max = Some drp ->
  schema drp
  = (makeMinimalSchema
       ++ [ {| name := "mag_" ++ filter_; type := TypeFloat;
               doc := filter_ ++ "-magnitude" |} ])%list /\
  Forall2 (repackaged getMagnitude filter_)
          (filter (fun row => cuts row && bright getMagnitude mag_max row) catalog)
          (records drp).
Proof.
  unfold drp_catalog. rewrite well_measured_filter, traverse_map.
  destruct (traverse _ (filter cuts catalog)) as [mag|] eqn:Emag; [|discriminate].
  apply traverse_Forall2 in Emag. rewrite (depth_cut catalog mag_max mag Emag).
  destruct (make_SourceCatalog _ _) as [empty|] eqn:Eempty; [|discriminate].
  apply (make_SourceCatalog_mag_cols makeMinimalSchema) in Eempty.
  destruct Eempty as [Hschema Hrecords].
  destruct (traverse _ _) as [new|] eqn:Enew; [|discriminate].
  cbn [option_map]. intro H. injection H as <-. cbn [schema records].
  split; [exact Hschema|]. rewrite Hrecords. cbn [app].
  apply traverse_Forall2 in Enew.
  induction Enew as [|t record ts rs Hrec _ IH]; constructor; [|exact IH].
  eapply repackage_get, Hrec.
Qed.

(** The cell does run through. *)
Lemma drp_catalog_returns (catalog : list Source) (filter_ : string) (mag_max : float) :
  (forall flux, Py.gt flux 0 = true -> getMagnitude flux <> None) ->
  has_field makeMinimalSchema "id" = true ->
  has_field makeMinimalSchema "coord_ra" = true ->
  has_field makeMinimalSchema "coord_dec" = true ->
  has_field makeMinimalSchema "parent" = true ->
  has_field makeMinimalSchema ("mag_" ++ filter_) = false ->
  exists drp, drp_catalog makeMinimalSchema getMagnitude catalog filter_ mag_max = Some drp.
Proof.
  intros Hmag Hid Hra Hdec Hparent Hfresh. unfold drp_catalog.
  rewrite well_measured_filter, traverse_map.
  assert (Hpos : Forall (fun row => getMagnitude (model_flux row) <> None)
                        (filter cuts catalog)).
  { apply Forall_forall. intros row Hrow. apply filter_In in Hrow.
    destruct Hrow as [_ Hcuts]. unfold cuts in Hcuts.
    apply andb_true_iff in Hcuts. destruct Hcuts as [Hcuts _].
    apply andb_true_iff in Hcuts. destruct Hcuts as [_ Hflux]. now apply Hmag. }
  destruct (traverse_total _ _ Hpos) as [mag Emag].
  rewrite Emag. apply traverse_Forall2 in Emag. rewrite (depth_cut catalog mag_max mag Emag).
  unfold make_SourceCatalog, mag_cols. cbn [map]. unfold addField. cbn [name].
  rewrite Hfresh. cbn [option_map schema records app].
  match goal with
  | |- context [traverse ?f ?l] => destruct (traverse_total f l) as [new Enew]
  end.
  { apply Forall_forall. intros row Hin. apply filter_In in Hin.
    destruct Hin as [_ Hin]. apply andb_true_iff in Hin. destruct Hin as [_ Hbright].
    unfold bright in Hbright. unfold repackage, set.
    rewrite !has_field_app, Hid, Hra, Hdec, Hparent, Hfresh. cbn [orb].
    destruct (getMagnitude (model_flux row)); [|discriminate].
    unfold has_field. cbn [existsb name]. rewrite String.eqb_refl. discriminate. }
  rewrite Enew. eexists. reflexivity.
Qed.

(** Lines 309-334: when [calib.getMagnitude] converts every positive flux
    and the minimal schema has the four fields the loop copies and no field
    [mag_<filter>], the cell builds [drp_catalog]: one record, in catalog
    order, for each row that is extended, unflagged, of positive flux, not
    deblended further, and brighter than [mag_max]; the record holds the id,
    the two coordinates and the parent of the row and the magnitude of its
    flux. A flux that is not positive is never converted. *)
Theorem drp_catalog_holds_the_well_measured (catalog : list Source) (filter_ : string)
    (mag_max : float) :
  (forall flux, Py.gt flux 0 = true -> getMagnitude flux <> None) ->
  has_field makeMinimalSchema "id" = true ->
  has_field makeMinimalSchema "coord_ra" = true ->
  has_field makeMinimalSchema "coord_dec" = true ->
  has_field makeMinimalSchema "parent" = true ->
  has_field makeMinimalSchema ("mag_" ++ filter_) = false ->
  exists drp,
    drp_catalog makeMinimalSchema getMagnitude catalog filter_ mag_max = Some drp /\
    schema drp
    = (makeMinimalSchema
         ++ [ {| name := "mag_" ++ filter_; type := TypeFloat;
                 doc := filter_ ++ "-magnitude" |} ])%list /\
    Forall2 (repackaged getMagnitude filter_)
            (filter (fun row => cuts row && bright getMagnitude mag_max row) catalog)
            (records drp).
Proof.
  intros Hmag Hid Hra Hdec Hparent Hfresh.
  destruct (drp_catalog_returns catalog filter_ mag_max Hmag Hid Hra Hdec Hparent Hfresh)
    as [drp Hdrp].
  exists drp. split; [exact Hdrp|]. now apply drp_catalog_records.
Qed.

End DrpCatalog.

Lemma drp_catalog_holds_the_well_measured_witness :
  exists drp,
    StackMatching.drp_catalog Examples.minimal_schema Examples.magnitude
                              Examples.sources "r" 24.5 = Some drp /\
    StackMatching.schema drp
    = (Examples.minimal_schema
         ++ [ {| StackMatching.name := "mag_" ++ "r"; StackMatching.type := StackMatching.TypeFloat;
                 StackMatching.doc := "r" ++ "-magnitude" |} ])%list /\
    Forall2 (StackMatching.repackaged Examples.magnitude "r")
            (filter (fun row => StackMatching.cuts row
                                && StackMatching.bright Examples.magnitude 24.5 row)
                    Examples.sources)
            (StackMatching.records drp).
Proof.
  apply (drp_catalog_holds_the_well_measured Examples.minimal_schema Examples.magnitude
           Examples.sources "r" 24.5); try reflexivity.
  intros flux Hflux. unfold Examples.magnitude. rewrite Hflux. discriminate.
Defined.

(** Of the example sources only the first is kept. *)
Example drp_catalog_example :
  option_map (fun drp => map (fun record => StackMatching.get record "id")
                             (StackMatching.records drp))
             (StackMatching.drp_catalog Examples.minimal_schema Examples.magnitude
                                        Examples.sources "r" 24.5)
  = Some [Some (StackMatching.VInt 1)].
Proof. vm_compute. reflexivity. Qed.

(** ** The matches (lines 383-413 and 429) *)

Section MatchLoop.

Import StackMatching.

Variable makeMinimalSchema : Schema.
Variable rotate : float -> float -> float * float.
Variable getMagnitude : float -> option float.
Variable asRadians : Angle -> float.
Variable np_degrees : float -> float.

Lemma drp_records_comparable (catalog : list Source) (filter_ : string) (mag_max : float)
    (drp : SourceCatalog) :
  drp_catalog makeMinimalSchema getMagnitude catalog filter_ mag_max = Some drp ->
  Forall (comparable filter_ mag_max) (records drp).
Proof.
  intro Hdrp. apply drp_catalog_records in Hdrp. destruct Hdrp as [_ Hall].
  apply Forall_forall. intros record Hrecord.
  destruct (Forall2_In_r _ _ _ _ Hall Hrecord)
    as [row [Hrow [mag [Emag [_ [Gra [Gdec [_ Gmag]]]]]]]].
  apply filter_In in Hrow. destruct Hrow as [_ Hrow].
  apply andb_true_iff in Hrow. destruct Hrow as [_ Hbright].
  unfold bright in Hbright. rewrite Emag in Hbright.
  exists mag, (coord_ra row), (coord_dec row). auto.
Qed.

Lemma call_records_comparable (self : RegionSelector) (gc : list Galaxy) (band : string)
    (max_mag : float) (ra_bounds dec_bounds : float * float) (catalog : SourceCatalog) :
  ra_range self = Some ra_bounds ->
  dec_range self = Some dec_bounds ->
  __call__ makeMinimalSchema rotate self gc band max_mag = Some catalog ->
  Forall (comparable band max_mag) (records catalog).
Proof.
  intros Hra Hdec Hcall.
  pose proof (call_records makeMinimalSchema rotate self gc band max_mag ra_bounds
                dec_bounds catalog Hra Hdec Hcall) as Hall.
  apply Forall_forall. intros record Hrecord.
  destruct (Forall2_In_r _ _ _ _ Hall Hrecord)
    as [g [Hg [mag [Emag [_ [Gra [Gdec Gmag]]]]]]].
  apply filter_In in Hg. destruct Hg as [_ Hkept]. unfold kept in Hkept.
  apply andb_true_iff in Hkept. destruct Hkept as [Hbright _]. rewrite Emag in Hbright.
  do 3 eexists. repeat split; eassumption.
Qed.

Lemma match_rows_total (filter_ : string) (mag_max : float) (matches : list Match) :
  Forall (fun m => comparable filter_ mag_max (first m)
                   /\ comparable filter_ mag_max (second m)) matches ->
  exists rows, traverse (match_row asRadians np_degrees filter_) matches = Some rows
    /\ length rows = length matches
    /\ Forall (fun r => Py.lt (fst (fst (fst (fst r)))) mag_max = true
                        /\ Py.lt (snd (fst (fst (fst r)))) mag_max = true) rows.
Proof.
  induction 1 as [|m matches [H1 H2] _ [rows [Erows [Hlen Hall]]]]; cbn [traverse].
  - exists []. repeat split; constructor.
  - destruct H1 as [mag1 [ra1 [dec1 [Gm1 [Hlt1 [Gra1 Gdec1]]]]]].
    destruct H2 as [mag2 [ra2 [dec2 [Gm2 [Hlt2 [Gra2 Gdec2]]]]]].
    rewrite Erows. unfold match_row, float_of, angle_of.
    rewrite Gm1, Gm2, Gra1, Gra2, Gdec1, Gdec2.
    eexists. split; [reflexivity|]. split; [simpl; now rewrite Hlen|].
    constructor; [split; assumption | exact Hall].
Qed.

(** Lines 309-334, 358 and 383-413 together. Given that every match
    [afw_table.matchRaDec] returns pairs a record of [drp_catalog] with a
    record of [galaxy_catalog], the loop over the matches finds the magnitude
    and the two coordinates in every record, so it fills its five arrays, one
    entry per match, without an error; every observed and every true
    magnitude it compares is below [mag_max], and [delta_mag] has one entry
    per match. *)
Theorem matched_magnitudes_are_below_the_limit (self : RegionSelector) (gc : list Galaxy)
    (catalog : list Source) (filter_ : string) (mag_max : float)
    (ra_bounds dec_bounds : float * float) (drp galaxy_catalog : SourceCatalog)
    (matches : list Match) :
  ra_range self = Some ra_bounds ->
  dec_range self = Some dec_bounds ->
  drp_catalog makeMinimalSchema getMagnitude catalog filter_ mag_max = Some drp ->
  __call__ makeMinimalSchema rotate self gc filter_ mag_max = Some galaxy_catalog ->
  Forall (fun m => In (first m) (records drp) /\ In (second m) (records galaxy_catalog))
         matches ->
  exists arrays,
    match_arrays asRadians np_degrees filter_ matches = Some arrays /\
    length (drp_mag arrays) = length matches /\
    length (gc_mag arrays) = length matches /\
    length (sep arrays) = length matches /\
    length (u arrays) = length matches /\
    length (v arrays) = length matches /\
    length (delta_mag arrays) = length matches /\
    Forall (fun m => Py.lt m mag_max = true) (drp_mag arrays) /\
    Forall (fun m => Py.lt m mag_max = true) (gc_mag arrays).
Proof.
  intros Hra Hdec Hdrp Hcall Hmatches.
  pose proof (drp_records_comparable catalog filter_ mag_max drp Hdrp) as Hfirst.
  pose proof (call_records_comparable self gc filter_ mag_max ra_bounds dec_bounds
                galaxy_catalog Hra Hdec Hcall) as Hsecond.
  destruct (match_rows_total filter_ mag_max matches) as [rows [Erows [Hlen Hall]]].
  { rewrite Forall_forall in *. intros m Hm. destruct (Hmatches m Hm) as [H1 H2]. auto. }
  unfold match_arrays. rewrite Erows. eexists. split; [reflexivity|].
  unfold delta_mag. cbn [drp_mag gc_mag sep u v].
  rewrite !length_map, length_combine, !length_map, Nat.min_id.
  repeat split; try exact Hlen.
  - apply Forall_map. now apply (Forall_impl _ (fun r H => proj1 H) Hall).
  - apply Forall_map. now apply (Forall_impl _ (fun r H => proj2 H) Hall).
Qed.

End MatchLoop.

Lemma matched_magnitudes_are_below_the_limit_witness :
  exists drp galaxy_catalog arrays,
    StackMatching.drp_catalog Examples.minimal_schema Examples.magnitude
                              Examples.sources "r" 24.5 = Some drp /\
    StackMatching.__call__ Examples.minimal_schema Examples.shift Examples.selector
                           Examples.field "r" 24.5 = Some galaxy_catalog /\
    StackMatching.match_arrays Examples.radians Examples.to_degrees "r" Examples.matches
    = Some arrays /\
    length (StackMatching.drp_mag arrays) = length Examples.matches /\
    length (StackMatching.gc_mag arrays) = length Examples.matches /\
    length (StackMatching.sep arrays) = length Examples.matches /\
    length (StackMatching.u arrays) = length Examples.matches /\
    length (StackMatching.v arrays) = length Examples.matches /\
    length (StackMatching.delta_mag arrays) = length Examples.matches /\
    Forall (fun m => Py.lt m 24.5 = true) (StackMatching.drp_mag arrays) /\
    Forall (fun m => Py.lt m 24.5 = true) (StackMatching.gc_mag arrays).
Proof.
  do 2 eexists.
  assert (H := matched_magnitudes_are_below_the_limit Examples.minimal_schema
                 Examples.shift Examples.magnitude Examples.radians Examples.to_degrees
                 Examples.selector Examples.field Examples.sources "r" 24.5
                 (54.5, 56)%float (-29, -28)%float _ _ Examples.matches
                 eq_refl eq_refl eq_refl eq_refl).
  destruct H as [arrays Harrays].
  - repeat (apply Forall_cons; [split; vm_compute; auto|]). apply Forall_nil.
  - exists arrays. split; [reflexivity|]. split; [reflexivity|]. exact Harrays.
Defined.

(** On the example there is one match, of the observed magnitude 22.5 with
    the true magnitude 20.5. *)
Example match_arrays_example :
  option_map (fun arrays => (StackMatching.drp_mag arrays, StackMatching.gc_mag arrays,
                             StackMatching.delta_mag arrays))
             (StackMatching.match_arrays Examples.radians Examples.to_degrees "r"
                                         Examples.matches)
  = Some ([22.5%float], [20.5%float], [2%float]).
Proof. vm_compute. reflexivity. Qed.

(** ** C4: the state of the region selectors *)


Section SelectorInvariant.

Import Syntax Inventory StackMatching.











Variables BBox Wcs Point : Type.
Variable getCorners : BBox -> list Point.
Variable pixelToSky : Wcs -> Point -> float * float.
Variable makeMinimalSchema : Schema.
Variable rotate : float -> float -> float * float.



End SelectorInvariant.


(** Three selectors called with the same arguments: a plain
    [RegionSelector()], one whose ranges are ordered, and one that holds the
    same ends the other way round. *)
Example call_depends_on_the_ranges :
  StackMatching.__call__ Examples.minimal_schema Examples.shift StackMatching.__init__
                         Examples.field "r" 24.5 = None
  /\ option_map (fun catalog => length (StackMatching.records catalog))
                (StackMatching.__call__ Examples.minimal_schema Examples.shift
                                        Examples.selector Examples.field "r" 24.5)
     = Some 2
  /\ option_map (fun catalog => length (StackMatching.records catalog))
                (StackMatching.__call__ Examples.minimal_schema Examples.shift
                   {| StackMatching.ra_range := Some (56, 54.5)%float;
                      StackMatching.dec_range := Some (-28, -29)%float |}
                   Examples.field "r" 24.5)
     = Some 0.
Proof. repeat split; vm_compute; reflexivity. Qed.
